(** * nightscout-librelink-up-go: a shallow embedding of the sync pipeline

    The development follows the repository's packages:
    - [GoStrings], [GoTime], [HTTP]: the functions of Go's [strings], [time]
      and [net/http] packages the program calls, with their documented
      behaviour;
    - [Runtime]: what the program reaches through the standard library and
      the operating system (transport, clock, local zone, parsers);
    - [Librelink]: the LibreLink Up client ([Login], [GetConnections],
      [GetLatestReading], [parseLibreLinkTimestamp], [trendArrowToString]);
    - [Nightscout]: the Nightscout client ([PostGlucoseReading],
      [convertTrendArrow]);
    - [Main]: one sync cycle ([syncGlucoseData]);
    - [Scripted]: a concrete run-time environment for the examples.

    Go's [int] and [int64] are modelled as [Z] (wrap-around written out where
    the program computes in [int64]), Go strings as [string] (byte
    sequences), a Go result [(v, err)] as a pair with an optional error, and
    a method of a client as a computation in a state monad with panics whose
    state holds the client, the outside world and the trace of events. *)

From Stdlib Require Import ZArith List String Ascii Bool Lia DecimalString PrimFloat.
Import ListNotations.

Open Scope string_scope.
Open Scope Z_scope.

(** ** Go's [strings] package *)

Module GoStrings.

(** [strings.HasPrefix(s, prefix)]. *)
Definition HasPrefix (s pre : string) : bool := String.prefix pre s.

(** [strings.Contains(s, substr)]: [substr] occurs at some offset of [s]. *)
Fixpoint Contains (s substr : string) : bool :=
  String.prefix substr s ||
  match s with
  | EmptyString => false
  | String _ rest => Contains rest substr
  end.

(** [len(s)], a byte count. *)
Definition len (s : string) : Z := Z.of_nat (String.length s).

(** [s[:n]] for [0 <= n <= len(s)]; the caller checks the bound. *)
Definition slice_to (s : string) (n : Z) : string :=
  String.substring 0 (Z.to_nat n) s.

End GoStrings.

(** ** Go's [time] package

    The program calls [time.ParseInLocation], [Time.UnixMilli],
    [Time.Format(time.RFC3339)], [time.Since] and compares with
    [15*time.Minute].  A [Time] is an instant (seconds and nanoseconds since
    the Unix epoch) together with the location it is displayed in.  The local
    zone is a function [tz] from an instant (Unix seconds) to the offset in
    seconds east of UTC in force at that instant. *)

Module GoTime.

Inductive Location : Type :=
| Local
| UTC
| FixedZone (offset : Z).

Record Time : Type := mkTime {
  unixSec : Z;       (* seconds since 1970-01-01T00:00:00Z *)
  nsec : Z;          (* nanoseconds within the second, 0 <= nsec < 10^9 *)
  loc : Location
}.

(** The invariant of every [time.Time] value. *)
Definition valid (t : Time) : Prop := 0 <= nsec t < 1000000000.

(** [time.Time{}]: January 1, year 1, 00:00:00 UTC. *)
Definition zero : Time := mkTime (-62135596800) 0 UTC.

(** Two's complement wrap-around of [int64] arithmetic. *)
Definition wrap64 (z : Z) : Z := (z + 2 ^ 63) mod 2 ^ 64 - 2 ^ 63.

(** [t.UnixMilli()]: [t.unixSec()*1e3 + int64(t.nsec())/1e6], in [int64]. *)
Definition UnixMilli (t : Time) : Z :=
  wrap64 (wrap64 (unixSec t * 1000) + Z.quot (nsec t) 1000000).

(** The instants [UnixMilli] can report: those whose millisecond count fits
    [int64], within about 292 million years of 1970. *)
Definition milliRepresentable (t : Time) : Prop :=
  - 2 ^ 63 <= unixSec t * 1000 /\ unixSec t * 1000 + 999 < 2 ^ 63.

(** [time.Unix(sec, nsec)]: [nsec] outside [0, 1e9) is carried into [sec];
    the result is in the local zone. *)
Definition Unix (sec ns : Z) : Time :=
  if (ns <? 0) || (1000000000 <=? ns) then
    let n := Z.quot ns 1000000000 in
    let sec1 := wrap64 (sec + n) in
    let ns1 := ns - n * 1000000000 in
    if ns1 <? 0 then mkTime (wrap64 (sec1 - 1)) (ns1 + 1000000000) Local
    else mkTime sec1 ns1 Local
  else mkTime sec ns Local.

(** [time.UnixMilli(msec)]: [Unix(msec/1e3, (msec%1e3)*1e6)], Go's [/] and
    [%] truncating toward zero. *)
Definition FromUnixMilli (msec : Z) : Time :=
  Unix (Z.quot msec 1000) (Z.rem msec 1000 * 1000000).

(** [t.In(loc)]: the same instant, displayed in [loc]. *)
Definition In (t : Time) (l : Location) : Time :=
  mkTime (unixSec t) (nsec t) l.

(** The offset east of UTC of [t]'s location at [t]. *)
Definition zoneOffset (tz : Z -> Z) (t : Time) : Z :=
  match loc t with
  | Local => tz (unixSec t)
  | UTC => 0
  | FixedZone off => off
  end.

(** Decimal digits of a natural number. *)
Definition digits (n : Z) : string :=
  NilZero.string_of_uint (N.to_uint (Z.to_N n)).

Fixpoint zeros (n : nat) : string :=
  match n with
  | O => ""
  | S k => "0" ++ zeros k
  end.

(** [appendInt(b, x, width)]: a sign for a negative [x], then the digits of
    [|x|] padded with zeros to [width]. *)
Definition appendInt (x : Z) (width : nat) : string :=
  let d := digits (Z.abs x) in
  (if x <? 0 then "-" else "") ++ zeros (width - String.length d) ++ d.

(** The proleptic Gregorian date of a day number counted from 1970-01-01
    (what [Time.Date] returns), as (year, month, day). *)
Definition civil (days : Z) : Z * Z * Z :=
  let z := days + 719468 in
  let era := z / 146097 in
  let doe := z - era * 146097 in
  let yoe := (doe - doe / 1460 + doe / 36524 - doe / 146096) / 365 in
  let doy := doe - (365 * yoe + yoe / 4 - yoe / 100) in
  let mp := (5 * doy + 2) / 153 in
  let d := doy - (153 * mp + 2) / 5 + 1 in
  let m := if mp <? 10 then mp + 3 else mp - 9 in
  let y := yoe + era * 400 + (if m <=? 2 then 1 else 0) in
  (y, m, d).

(** The zone suffix of RFC 3339: [Z] for offset zero, else [+hh:mm] or
    [-hh:mm] of the offset truncated to minutes. *)
Definition formatZone (offset : Z) : string :=
  if offset =? 0 then "Z"
  else
    let zone := Z.quot offset 60 in
    (if zone <? 0 then "-" else "+") ++
    appendInt (Z.quot (Z.abs zone) 60) 2 ++ ":" ++
    appendInt (Z.rem (Z.abs zone) 60) 2.

(** [unixToInternal + internalToAbsolute]: the seconds from the absolute
    zero of [Time.abs] (January 1 of the year -292277022399) to 1970. *)
Definition unixToAbsolute : Z := 9223372028715321600.

(** [Time.locabs]: the seconds since the absolute zero of the wall clock at
    [offset], a [uint64]. *)
Definition absSeconds (sec offset : Z) : Z :=
  (sec + offset + unixToAbsolute) mod 2 ^ 64.

(** The RFC 3339 rendering of the instant [sec] (Unix seconds) at [offset]:
    whole seconds only, [2006-01-02T15:04:05Z07:00]. *)
Definition renderRFC3339 (sec offset : Z) : string :=
  let abs := absSeconds sec offset - unixToAbsolute in
  let '(y, m, d) := civil (abs / 86400) in
  let s := abs mod 86400 in
  appendInt y 4 ++ "-" ++ appendInt m 2 ++ "-" ++ appendInt d 2 ++ "T" ++
  appendInt (s / 3600) 2 ++ ":" ++ appendInt (s mod 3600 / 60) 2 ++ ":" ++
  appendInt (s mod 60) 2 ++ formatZone offset.

(** The layout [time.RFC3339]. *)
Definition RFC3339 : string := "2006-01-02T15:04:05Z07:00".

(** [t.Format(time.RFC3339)]. *)
Definition FormatRFC3339 (tz : Z -> Z) (t : Time) : string :=
  renderRFC3339 (unixSec t) (zoneOffset tz t).

(** A [time.Duration] is an [int64] count of nanoseconds. *)
Definition minDuration : Z := - 2 ^ 63.
Definition maxDuration : Z := 2 ^ 63 - 1.
Definition Second : Z := 1000000000.
Definition Minute : Z := 60 * Second.

(** [t.Sub(u)] on wall-clock readings: the difference in nanoseconds,
    saturated to the range of [Duration]. *)
Definition Sub (t u : Time) : Z :=
  let d := (unixSec t - unixSec u) * 1000000000 + (nsec t - nsec u) in
  if d <? minDuration then minDuration
  else if maxDuration <? d then maxDuration
  else d.

End GoTime.

(** ** Values the program formats, errors, HTTP messages, events *)

Definition float64 : Type := PrimFloat.float.

(** An [error] is either a value a library call returned or one built by
    [fmt.Errorf(format, args...)]; the arguments are kept as passed. *)
#[local] Unset Elimination Schemes.
Inductive error : Type :=
| LibError (msg : string)
| Errorf (format : string) (args : list Arg)
with Arg : Type :=
| AStr (s : string)
| AInt (z : Z)
| AFloat (f : float64)
| ADuration (d : Z)
| AStrs (l : list string)
| AField (name : string) (v : Arg)
| AStruct (fields : list Arg)
| AErr (e : error).
#[local] Set Elimination Schemes.

(** What a run-time panic carries: here only a slice bound out of range,
    [s[:hi]] with [hi > len(s)]. *)
Inductive PanicValue : Type :=
| SliceBoundsOutOfRange (hi length : Z).

Module HTTP.

Record Request : Type := mkRequest {
  Method : string;
  URL : string;
  Header : list (string * string);
  ReqBody : option string
}.

Record Response : Type := mkResponse {
  StatusCode : Z;
  Body : string            (* what [io.ReadAll(resp.Body)] returned *)
}.

Definition StatusOK : Z := 200.

(** [validHeaderFieldByte]: the bytes of an HTTP token, letters, digits and
    [!#$%&'*+-.^_`|~]. *)
Definition validHeaderFieldByte (a : ascii) : bool :=
  let n := N_of_ascii a in
  ((48 <=? n) && (n <=? 57) || (65 <=? n) && (n <=? 90) || (97 <=? n) && (n <=? 122)
   || (n =? 33) || (35 <=? n) && (n <=? 39) || (n =? 42) || (n =? 43)
   || (n =? 45) || (n =? 46) || (94 <=? n) && (n <=? 96)
   || (n =? 124) || (n =? 126))%N.

Fixpoint validHeaderField (s : string) : bool :=
  match s with
  | EmptyString => true
  | String a rest => validHeaderFieldByte a && validHeaderField rest
  end.

(** The loop of [canonicalMIMEHeaderKey]: the first letter and every letter
    after a hyphen in upper case, the other letters in lower case. *)
Fixpoint canonicalBytes (upper : bool) (s : string) : string :=
  match s with
  | EmptyString => EmptyString
  | String a rest =>
      let n := N_of_ascii a in
      let c :=
        if upper && (97 <=? n)%N && (n <=? 122)%N then ascii_of_N (n - 32)
        else if negb upper && (65 <=? n)%N && (n <=? 90)%N then ascii_of_N (n + 32)
        else a in
      String c (canonicalBytes (Ascii.eqb c "-") rest)
  end.

(** [textproto.CanonicalMIMEHeaderKey]: a key with a byte that is no token
    byte is returned as it is. *)
Definition CanonicalMIMEHeaderKey (s : string) : string :=
  if validHeaderField s then canonicalBytes true s else s.

(** The entry of a header map under the key [k] as stored. *)
Fixpoint headerEntry (k : string) (h : list (string * string)) : option string :=
  match h with
  | [] => None
  | (k', v) :: rest => if (k' =? k)%string then Some v else headerEntry k rest
  end.

(** [req.Header.Set(key, value)]: the entry under the canonical form of
    [key] is replaced. *)
Definition HeaderSet (key value : string) (req : Request) : Request :=
  let k := CanonicalMIMEHeaderKey key in
  mkRequest (Method req) (URL req)
    (filter (fun kv => negb (fst kv =? k)%string) (Header req) ++ [(k, value)])
    (ReqBody req).

(** [h.Get(key)]: the entry under the canonical form of [key]. *)
Definition HeaderGet (key : string) (h : list (string * string)) : option string :=
  headerEntry (CanonicalMIMEHeaderKey key) h.

End HTTP.
Import HTTP.

(** What the program does to the outside, in order. *)
Inductive Event : Type :=
| EvHTTP (req : Request)                          (* [httpClient.Do(req)] *)
| EvPrintf (format : string) (args : list Arg)    (* [fmt.Printf], [fmt.Println] *)
| EvLog (format : string) (args : list Arg).      (* [log.Printf], [log.Println] *)

Definition isHTTP (e : Event) : bool :=
  match e with
  | EvHTTP _ => true
  | _ => false
  end.

(** The network calls of a trace. *)
Definition networkCalls (tr : list Event) : list Event := filter isHTTP tr.

(** ** The run-time environment

    Everything the program reaches through Go's standard library and the
    operating system: the HTTP transport (with its cookie jar and the remote
    servers behind it), the clock, the local time zone, URL and timestamp
    parsing, SHA-256. *)

Class Runtime : Type := {
  World : Type;
  (** [httpClient.Do(req)] followed by [io.ReadAll(resp.Body)]. *)
  httpDo : Request -> World -> (Response + error) * World;
  (** [time.Now()]. *)
  timeNow : World -> GoTime.Time * World;
  (** The offset of [time.Local] at an instant. *)
  tz : Z -> Z;
  (** The error of [url.Parse] inside [http.NewRequest], if any. *)
  urlParseError : string -> option error;
  (** [time.ParseInLocation(layout, value, loc)], [None] on a parse error. *)
  ParseInLocation : string -> string -> GoTime.Location -> option GoTime.Time;
  (** [hex.EncodeToString] of the SHA-256 digest. *)
  sha256hex : string -> string
}.

(** ** Effects: a state monad with panics *)

Inductive Outcome (A : Type) : Type :=
| Done (a : A)
| Panicked (p : PanicValue).
Arguments Done {A} a.
Arguments Panicked {A} p.

Definition M (S A : Type) : Type := S -> Outcome A * S.

Definition ret {S A : Type} (a : A) : M S A := fun s => (Done a, s).

Definition bind {S A B : Type} (m : M S A) (k : A -> M S B) : M S B :=
  fun s =>
    match m s with
    | (Done a, s1) => k a s1
    | (Panicked p, s1) => (Panicked p, s1)
    end.

Definition panic {S A : Type} (p : PanicValue) : M S A :=
  fun s => (Panicked p, s).

Notation "x <- m ;; k" := (bind m (fun x => k))
  (at level 61, m at next level, right associativity).
Notation "m ;; k" := (bind m (fun _ => k))
  (at level 61, right associativity).

Fixpoint forEach {S A : Type} (l : list A) (body : A -> M S unit) : M S unit :=
  match l with
  | [] => ret tt
  | x :: rest => body x ;; forEach rest body
  end.

Section System.
Context {RT : Runtime}.

(** The outside world and the trace of what was done to it so far. *)
Record Sys : Type := mkSys {
  world : World;
  trace : list Event
}.

Definition emit (e : Event) : M Sys unit :=
  fun s => (Done tt, mkSys (world s) (trace s ++ [e])).

Definition Printf (format : string) (args : list Arg) : M Sys unit :=
  emit (EvPrintf format args).

Definition LogPrintf (format : string) (args : list Arg) : M Sys unit :=
  emit (EvLog format args).

Definition httpClientDo (req : Request) : M Sys (Response + error) :=
  fun s =>
    let (r, w) := httpDo req (world s) in
    (Done r, mkSys w (trace s ++ [EvHTTP req])).

Definition Now : M Sys GoTime.Time :=
  fun s => let (t, w) := timeNow (world s) in (Done t, mkSys w (trace s)).

(** [time.Since(t)]: [time.Now().Sub(t)]. *)
Definition Since (t : GoTime.Time) : M Sys Z :=
  n <- Now ;; ret (GoTime.Sub n t).

(** [http.NewRequest(method, url, body)] for the methods the program uses;
    it fails when the URL does not parse. *)
Definition NewRequest (method url : string) (body : option string)
  : Request + error :=
  match urlParseError url with
  | Some e => inr e
  | None => inl (mkRequest method url [] body)
  end.

(** [s[:hi]]: panics when [hi] exceeds [len(s)]. *)
Definition sliceTo {S : Type} (s : string) (hi : Z) : M S string :=
  if GoStrings.len s <? hi then panic (SliceBoundsOutOfRange hi (GoStrings.len s))
  else ret (GoStrings.slice_to s hi).

End System.

(** ** librelink/client.go *)

Module Librelink.

Definition appVersion : string := "4.17.0".
Definition appProduct : string := "llu.ios".
Definition contentType : string := "application/json".

(** Regional API endpoints for LibreLink Up. *)
Definition endpoints : list (string * string) :=
  [ ("AE", "https://api-ae.libreview.io");
    ("AP", "https://api-ap.libreview.io");
    ("AU", "https://api-au.libreview.io");
    ("CA", "https://api-ca.libreview.io");
    ("DE", "https://api-de.libreview.io");
    ("EU", "https://api-eu.libreview.io");
    ("EU2", "https://api-eu2.libreview.io");
    ("FR", "https://api-fr.libreview.io");
    ("JP", "https://api-jp.libreview.io");
    ("US", "https://api-us.libreview.io");
    ("LA", "https://api-la.libreview.io");
    ("RU", "https://api-ru.libreview.io");
    ("CN", "https://api-cn.libreview.io") ].

(** The fields of [Client] the program reads and writes; [httpClient] is
    the [World] of the run-time environment. *)
Record Client : Type := mkClient {
  baseURL : string;
  username : string;
  password : string;
  authToken : string;
  accountID : string
}.

Record Connection : Type := mkConnection {
  PatientID : string;
  FirstName : string;
  LastName : string;
  SensorState : Z
}.

Record GlucoseReading : Type := mkGlucoseReading {
  Value : float64;
  Unit : string;
  Timestamp : GoTime.Time;
  TrendArrow : string
}.

Record loginRequest : Type := mkLoginRequest {
  Email : string;
  Password : string
}.

(** [loginResponse], its nested structs flattened. *)
Record loginResponse : Type := mkLoginResponse {
  login_Status : Z;
  login_User_ID : string;
  login_User_Email : string;
  login_AuthTicket_Token : string;
  login_AuthTicket_ExpiresAt : Z
}.

(** An element of [connectionsResponse.Data]. *)
Record connectionData : Type := mkConnectionData {
  data_PatientID : string;
  data_FirstName : string;
  data_LastName : string;
  data_Sensor_DeviceID : string;
  data_Sensor_Serial : string
}.

Record connectionsResponse : Type := mkConnectionsResponse {
  connections_Status : Z;
  connections_Data : list connectionData
}.

(** [glucoseResponse], its nested structs flattened. *)
Record glucoseResponse : Type := mkGlucoseResponse {
  glucose_Status : Z;
  measurement_Value : float64;
  measurement_ValueInMgPerDl : float64;
  measurement_TrendArrow : Z;
  measurement_Timestamp : string
}.

(** [encoding/json] at the types of this package: [json.Marshal] of a
    [loginRequest] and [json.Unmarshal] of a body into each response. *)
Class JSON : Type := {
  marshalLogin : loginRequest -> string + error;
  unmarshalLogin : string -> loginResponse + error;
  unmarshalConnections : string -> connectionsResponse + error;
  unmarshalGlucose : string -> glucoseResponse + error
}.

(** The client under operation and the system around it. *)
Record State {RT : Runtime} : Type := mkState {
  client : Client;
  sys : Sys
}.
Arguments mkState {RT} client sys.

(** [NewClient] creates a new LibreLink Up client; the cookie jar it makes
    belongs to the transport. *)
Definition NewClient (region user pass : string) : Client + error :=
  match find (fun kv => (fst kv =? region)%string) endpoints with
  | None => inr (Errorf "unsupported region: %s" [AStr region])
  | Some kv => inl (mkClient (snd kv) user pass "" "")
  end.

Definition trendArrowToString (arrow : Z) : string :=
  match arrow with
  | 1 => "DoubleUp"
  | 2 => "SingleUp"
  | 3 => "FortyFiveUp"
  | 4 => "Flat"
  | 5 => "FortyFiveDown"
  | 6 => "SingleDown"
  | 7 => "DoubleDown"
  | _ => "Unknown"
  end.

(** The [formats] of [parseLibreLinkTimestamp]. *)
Definition formats : list string :=
  [ "1/2/2006 3:04:05 PM";
    "01/02/2006 15:04:05";
    GoTime.RFC3339 ].

Section Methods.
Context {RT : Runtime} {J : JSON}.

(** The [for _, format := range formats] loop of
    [parseLibreLinkTimestamp]: the first layout that parses wins. *)
Fixpoint tryFormats (fs : list string) (timestamp : string)
  : GoTime.Time * option error :=
  match fs with
  | [] =>
      (GoTime.zero, Some (Errorf "unable to parse timestamp: %s" [AStr timestamp]))
  | format :: rest =>
      match ParseInLocation format timestamp GoTime.Local with
      | Some t => (t, None)
      | None => tryFormats rest timestamp
      end
  end.

Definition parseLibreLinkTimestamp (timestamp : string)
  : GoTime.Time * option error :=
  tryFormats formats timestamp.

(** Run a computation on the system, the client untouched. *)
Definition onSys {A : Type} (m : M Sys A) : M State A :=
  fun s => let (o, y) := m (sys s) in (o, mkState (client s) y).

Definition getClient : M State Client := fun s => (Done (client s), s).

Definition setAuthToken (v : string) : M State unit :=
  fun s =>
    let c := client s in
    (Done tt, mkState (mkClient (baseURL c) (username c) (password c) v (accountID c)) (sys s)).

Definition setAccountID (v : string) : M State unit :=
  fun s =>
    let c := client s in
    (Done tt, mkState (mkClient (baseURL c) (username c) (password c) (authToken c) v) (sys s)).

Definition setHeaders (c : Client) (req : Request) : Request :=
  let req := HeaderSet "Content-Type" contentType req in
  let req := HeaderSet "Accept" contentType req in
  let req := HeaderSet "product" appProduct req in
  let req := HeaderSet "version" appVersion req in
  if negb (accountID c =? "")%string && negb (authToken c =? "")%string then
    HeaderSet "account-id" (sha256hex (accountID c)) req
  else req.

Definition loginResponseArg (r : loginResponse) : Arg :=
  AStruct
    [ AField "Status" (AInt (login_Status r));
      AField "Data"
        (AStruct
           [ AField "User"
               (AStruct [ AField "ID" (AStr (login_User_ID r));
                          AField "Email" (AStr (login_User_Email r)) ]);
             AField "AuthTicket"
               (AStruct [ AField "Token" (AStr (login_AuthTicket_Token r));
                          AField "ExpiresAt" (AInt (login_AuthTicket_ExpiresAt r)) ]) ]) ].

(** The [for k, v := range req.Header] loop of [Login]; Go leaves the order
    of a map iteration unspecified, here it is the order of the list. *)
Definition printHeaders (req : Request) : M Sys unit :=
  forEach (Header req)
    (fun kv => Printf "  %s: %s\n" [AStr (fst kv); AStrs [snd kv]]).

(** [Login] authenticates with LibreLink Up and retrieves the auth token. *)
Definition Login : M State (option error) :=
  c <- getClient ;;
  let loginReq := mkLoginRequest (username c) (password c) in
  match marshalLogin loginReq with
  | inr err =>
      ret (Some (Errorf "failed to marshal login request: %w" [AErr err]))
  | inl reqBody =>
      onSys (Printf "DEBUG: Attempting login to %s with email: %s\n"
               [AStr (baseURL c); AStr (username c)]) ;;
      onSys (Printf "DEBUG: Request body: %s\n" [AStr reqBody]) ;;
      match NewRequest "POST" (baseURL c ++ "/llu/auth/login") (Some reqBody) with
      | inr err =>
          ret (Some (Errorf "failed to create login request: %w" [AErr err]))
      | inl req0 =>
          let req := setHeaders c req0 in
          (* fmt.Println: the line and a newline *)
          onSys (Printf "DEBUG: Request headers:\n" []) ;;
          onSys (printHeaders req) ;;
          r <- onSys (httpClientDo req) ;;
          match r with
          | inr err =>
              ret (Some (Errorf "login request failed: %w" [AErr err]))
          | inl resp =>
              let body := Body resp in
              onSys (Printf "DEBUG: Response status: %d\n" [AInt (StatusCode resp)]) ;;
              onSys (Printf "DEBUG: Response body: %s\n" [AStr body]) ;;
              if negb (StatusCode resp =? StatusOK) then
                ret (Some (Errorf "login failed with HTTP status %d: %s"
                             [AInt (StatusCode resp); AStr body]))
              else
                match unmarshalLogin body with
                | inr err =>
                    ret (Some (Errorf "failed to decode login response: %w" [AErr err]))
                | inl loginResp =>
                    if negb (login_Status loginResp =? 0) then
                      onSys (Printf "DEBUG: Full login response: %+v\n"
                               [loginResponseArg loginResp]) ;;
                      ret (Some (Errorf "login failed with API status: %d"
                                   [AInt (login_Status loginResp)]))
                    else
                      setAuthToken (login_AuthTicket_Token loginResp) ;;
                      setAccountID (login_User_ID loginResp) ;;
                      c1 <- getClient ;;
                      prefix20 <- sliceTo (authToken c1) 20 ;;
                      onSys (Printf "DEBUG: Successfully authenticated, token: %s...\n"
                               [AStr prefix20]) ;;
                      onSys (Printf "DEBUG: Account ID: %s\n" [AStr (accountID c1)]) ;;
                      ret None
                end
          end
      end
  end.

(** [GetConnections] retrieves all LibreLink connections (sensors). *)
Definition GetConnections : M State (list Connection * option error) :=
  c <- getClient ;;
  if (authToken c =? "")%string then
    ret ([], Some (Errorf "not authenticated, call Login() first" []))
  else
    match NewRequest "GET" (baseURL c ++ "/llu/connections") None with
    | inr err =>
        ret ([], Some (Errorf "failed to create connections request: %w" [AErr err]))
    | inl req0 =>
        let req := setHeaders c req0 in
        let req := HeaderSet "Authorization" ("Bearer " ++ authToken c) req in
        r <- onSys (httpClientDo req) ;;
        match r with
        | inr err =>
            ret ([], Some (Errorf "connections request failed: %w" [AErr err]))
        | inl resp =>
            let body := Body resp in
            onSys (Printf "DEBUG: Connections response status: %d\n"
                     [AInt (StatusCode resp)]) ;;
            onSys (Printf "DEBUG: Connections response body: %s\n" [AStr body]) ;;
            if negb (StatusCode resp =? StatusOK) then
              ret ([], Some (Errorf "connections request failed with status %d: %s"
                               [AInt (StatusCode resp); AStr body]))
            else
              match unmarshalConnections body with
              | inr err =>
                  ret ([], Some (Errorf "failed to decode connections response: %w"
                                   [AErr err]))
              | inl connResp =>
                  if (Z.of_nat (List.length (connections_Data connResp)) =? 0) then
                    onSys (Printf
                      "DEBUG: No connections found - using patient account ID as connection: %s\n"
                      [AStr (accountID c)]) ;;
                    ret ([mkConnection (accountID c) "Self" "" 0], None)
                  else
                    ret (map (fun conn =>
                                mkConnection (data_PatientID conn) (data_FirstName conn)
                                  (data_LastName conn) 0)
                             (connections_Data connResp), None)
              end
        end
    end.

(** [GetLatestReading] retrieves the latest glucose reading for a patient. *)
Definition GetLatestReading (patientID : string)
  : M State (option GlucoseReading * option error) :=
  c <- getClient ;;
  if (authToken c =? "")%string then
    ret (None, Some (Errorf "not authenticated, call Login() first" []))
  else
    let url := baseURL c ++ "/llu/connections/" ++ patientID ++ "/graph" in
    match NewRequest "GET" url None with
    | inr err =>
        ret (None, Some (Errorf "failed to create glucose request: %w" [AErr err]))
    | inl req0 =>
        let req := setHeaders c req0 in
        let req := HeaderSet "Authorization" ("Bearer " ++ authToken c) req in
        r <- onSys (httpClientDo req) ;;
        match r with
        | inr err =>
            ret (None, Some (Errorf "glucose request failed: %w" [AErr err]))
        | inl resp =>
            let body := Body resp in
            onSys (Printf "DEBUG: Graph response status: %d\n" [AInt (StatusCode resp)]) ;;
            onSys (Printf "DEBUG: Graph response body: %s\n" [AStr body]) ;;
            if negb (StatusCode resp =? StatusOK) then
              ret (None, Some (Errorf "glucose request failed with status %d: %s"
                                 [AInt (StatusCode resp); AStr body]))
            else
              match unmarshalGlucose body with
              | inr err =>
                  ret (None, Some (Errorf "failed to decode glucose response: %w"
                                     [AErr err]))
              | inl glucoseResp =>
                  match parseLibreLinkTimestamp (measurement_Timestamp glucoseResp) with
                  | (_, Some err) =>
                      ret (None, Some (Errorf "failed to parse timestamp: %w" [AErr err]))
                  | (timestamp, None) =>
                      ret (Some (mkGlucoseReading
                                   (measurement_ValueInMgPerDl glucoseResp)
                                   "mg/dL"
                                   timestamp
                                   (trendArrowToString (measurement_TrendArrow glucoseResp))),
                           None)
                  end
              end
        end
    end.

End Methods.

End Librelink.

(** ** nightscout/client.go *)

Module Nightscout.

(** The fields of [Client] the program reads; [httpClient] is the [World]
    of the run-time environment. *)
Record Client : Type := mkClient {
  baseURL : string;
  apiToken : string
}.

(** [Entry] represents a Nightscout glucose entry. *)
Record Entry : Type := mkEntry {
  Type_ : string;
  SGV : float64;
  Direction : string;
  Device : string;
  Date : Z;
  DateString : string
}.

(** [json.Marshal] of the entries posted. *)
Class JSON : Type := {
  marshalEntries : list Entry -> string + error
}.

Definition NewClient (baseURL apiToken : string) : Client :=
  mkClient baseURL apiToken.

(** [convertTrendArrow] converts LibreLink trend arrows to Nightscout
    direction format: a [switch] on the string. *)
Definition convertTrendArrow (arrow : string) : string :=
  if (arrow =? "DoubleUp")%string then "DoubleUp"
  else if (arrow =? "SingleUp")%string then "SingleUp"
  else if (arrow =? "FortyFiveUp")%string then "FortyFiveUp"
  else if (arrow =? "Flat")%string then "Flat"
  else if (arrow =? "FortyFiveDown")%string then "FortyFiveDown"
  else if (arrow =? "SingleDown")%string then "SingleDown"
  else if (arrow =? "DoubleDown")%string then "DoubleDown"
  else "NONE".

(** The base URL as [PostGlucoseReading] uses it: [http://] or [https://]
    is added if not present. *)
Definition effectiveBaseURL (baseURL : string) : string :=
  if negb (GoStrings.HasPrefix baseURL "http://")
     && negb (GoStrings.HasPrefix baseURL "https://") then
    if GoStrings.Contains baseURL ":" then "http://" ++ baseURL
    else "https://" ++ baseURL
  else baseURL.

(** The URL [PostGlucoseReading] posts to. *)
Definition entriesURL (baseURL : string) : string :=
  effectiveBaseURL baseURL ++ "/api/v1/entries".

Section Methods.
Context {RT : Runtime} {J : JSON}.

(** The [Entry] literal of [PostGlucoseReading]. *)
Definition newEntry (reading : Librelink.GlucoseReading) : Entry :=
  mkEntry "sgv"
    (Librelink.Value reading)
    (convertTrendArrow (Librelink.TrendArrow reading))
    "nightscout-librelink-up-go"
    (GoTime.UnixMilli (Librelink.Timestamp reading))
    (GoTime.FormatRFC3339 tz (Librelink.Timestamp reading)).

(** [PostGlucoseReading] posts a glucose reading to Nightscout. *)
Definition PostGlucoseReading (c : Client)
    (reading : option Librelink.GlucoseReading) : M Sys (option error) :=
  match reading with
  | None => ret (Some (Errorf "reading is nil" []))
  | Some rd =>
      let entry := newEntry rd in
      let entries := [entry] in
      match marshalEntries entries with
      | inr err => ret (Some (Errorf "failed to marshal entry: %w" [AErr err]))
      | inl reqBody =>
          let url := entriesURL (baseURL c) in
          LogPrintf "Posting glucose data to: %s" [AStr url] ;;
          match NewRequest "POST" url (Some reqBody) with
          | inr err => ret (Some (Errorf "failed to create request: %w" [AErr err]))
          | inl req0 =>
              let req := HeaderSet "Content-Type" "application/json" req0 in
              let req := HeaderSet "api-secret" (apiToken c) req in
              let req := HeaderSet "X-Forwarded-Proto" "https" req in
              r <- httpClientDo req ;;
              match r with
              | inr err => ret (Some (Errorf "request failed: %w" [AErr err]))
              | inl resp =>
                  if (StatusCode resp <? 200) || (300 <=? StatusCode resp) then
                    ret (Some (Errorf "request failed with status %d: %s"
                                 [AInt (StatusCode resp); AStr (Body resp)]))
                  else ret None
              end
          end
      end
  end.

End Methods.

End Nightscout.

(** ** main.go *)

Module Main.

Section Sync.
Context {RT : Runtime} {JL : Librelink.JSON} {JN : Nightscout.JSON}.

Import Librelink.

Definition staleAfter : Z := 15 * GoTime.Minute.

(** [syncGlucoseData]: one cycle. *)
Definition syncGlucoseData (nsClient : Nightscout.Client) : M State (option error) :=
  onSys (LogPrintf "Fetching glucose data from LibreLink Up..." []) ;;
  err <- Login ;;
  match err with
  | Some e => ret (Some e)
  | None =>
      cs <- GetConnections ;;
      match cs with
      | (_, Some e) => ret (Some e)
      | ([], None) =>
          onSys (LogPrintf "No active LibreLink connections found" []) ;;
          ret None
      | (first :: _, None) =>
          rd <- GetLatestReading (PatientID first) ;;
          match rd with
          | (_, Some e) => ret (Some e)
          | (None, None) =>
              onSys (LogPrintf "No glucose reading available" []) ;;
              ret None
          | (Some reading, None) =>
              onSys (LogPrintf "Glucose reading: %.1f %s (Trend: %s) at %s"
                       [AFloat (Value reading); AStr (Unit reading);
                        AStr (TrendArrow reading);
                        AStr (GoTime.FormatRFC3339 tz (Timestamp reading))]) ;;
              age <- onSys (Since (Timestamp reading)) ;;
              (if staleAfter <? age then
                 age2 <- onSys (Since (Timestamp reading)) ;;
                 onSys (LogPrintf "Warning: Reading is %v old, may be stale"
                          [ADuration age2])
               else ret tt) ;;
              perr <- onSys (Nightscout.PostGlucoseReading nsClient (Some reading)) ;;
              match perr with
              | Some e => ret (Some e)
              | None =>
                  onSys (LogPrintf "Successfully posted glucose data to Nightscout" []) ;;
                  ret None
              end
          end
      end
  end.

End Sync.

End Main.

(** ** The closed enumeration of trend labels

    The seven labels both packages share, in the order of the codes 1..7. *)
Definition trendLabels : list string :=
  [ "DoubleUp"; "SingleUp"; "FortyFiveUp"; "Flat";
    "FortyFiveDown"; "SingleDown"; "DoubleDown" ].

(** ** A scripted environment

    A concrete [Runtime] for running the program on examples: the transport
    answers the requests from a script, in order, and refuses the connection
    once the script is exhausted; the clock stands still; the local zone is
    UTC; the parsers know the sample bodies and timestamps below. *)

Module Scripted.

Record world : Type := mkWorld {
  script : list (Response + error);
  clock : GoTime.Time
}.

Definition do (req : Request) (w : world) : (Response + error) * world :=
  match script w with
  | [] => (inr (LibError "dial tcp: connection refused"), w)
  | r :: rest => (r, mkWorld rest (clock w))
  end.

(** 2024-11-19T15:14:29Z. *)
Definition sampleInstant : Z := 1732029269.

Definition parse (layout value : string) (l : GoTime.Location) : option GoTime.Time :=
  if ((layout =? "1/2/2006 3:04:05 PM") && (value =? "11/19/2024 3:14:29 PM"))%string then
    Some (GoTime.mkTime sampleInstant 0 l)
  else if ((layout =? "01/02/2006 15:04:05") && (value =? "11/19/2024 15:14:29"))%string then
    Some (GoTime.mkTime sampleInstant 0 l)
  else if ((layout =? "2006-01-02T15:04:05Z07:00")
           && (value =? "2024-11-19T20:14:29+05:00"))%string then
    Some (GoTime.mkTime sampleInstant 0 (GoTime.FixedZone 18000))
  else None.

#[global] Instance runtime : Runtime := {
  World := world;
  httpDo := do;
  timeNow := fun w => (clock w, w);
  tz := fun _ => 0;
  urlParseError := fun u =>
    if GoStrings.Contains u " " then Some (LibError "invalid character in host name")
    else None;
  ParseInLocation := parse;
  sha256hex := fun s => "sha256(" ++ s ++ ")"
}.

(** Sample bodies, named by what they decode to. *)
Definition loginOK : Librelink.loginResponse :=
  Librelink.mkLoginResponse 0 "ACC123" "user@example.com"
    "eyJhbGciOiJIUzI1NiIsInR5cCI6IkpXVCJ9" 1747581269.

Definition loginShortToken : Librelink.loginResponse :=
  Librelink.mkLoginResponse 0 "ACC123" "user@example.com" "" 0.

Definition loginRejected : Librelink.loginResponse :=
  Librelink.mkLoginResponse 2 "" "" "" 0.

Definition graphSample : Librelink.glucoseResponse :=
  Librelink.mkGlucoseResponse 0 118%float 118%float 4 "11/19/2024 3:14:29 PM".

Definition graphZoned : Librelink.glucoseResponse :=
  Librelink.mkGlucoseResponse 0 118%float 118%float 4 "2024-11-19T20:14:29+05:00".

#[global] Instance librelinkJSON : Librelink.JSON := {
  marshalLogin := fun r =>
    inl ("{email:" ++ Librelink.Email r ++ ",password:" ++ Librelink.Password r ++ "}");
  unmarshalLogin := fun body =>
    if (body =? "login-ok")%string then inl loginOK
    else if (body =? "login-empty-object")%string then inl loginShortToken
    else if (body =? "login-rejected")%string then inl loginRejected
    else inr (LibError "invalid character looking for beginning of value");
  unmarshalConnections := fun body =>
    if (body =? "connections-empty")%string then
      inl (Librelink.mkConnectionsResponse 0 [])
    else if (body =? "connections-P1")%string then
      inl (Librelink.mkConnectionsResponse 0
             [Librelink.mkConnectionData "P1" "Pat" "Doe" "dev" "sn"])
    else inr (LibError "invalid character looking for beginning of value");
  unmarshalGlucose := fun body =>
    if (body =? "graph-sample")%string then inl graphSample
    else if (body =? "graph-zoned")%string then inl graphZoned
    else inr (LibError "invalid character looking for beginning of value")
}.

#[global] Instance nightscoutJSON : Nightscout.JSON := {
  marshalEntries := fun es =>
    inl (concat "," (map (fun e => Nightscout.DateString e) es))
}.

Definition ok (body : string) : Response + error := inl (mkResponse 200 body).

(** A client as [NewClient "EU"] returns it: no session. *)
Definition freshClient : Librelink.Client :=
  Librelink.mkClient "https://api-eu.libreview.io" "user@example.com" "secret" "" "".

(** The system before anything happened. *)
Definition system (responses : list (Response + error)) (now : GoTime.Time) : Sys :=
  @mkSys runtime (mkWorld responses now) [].

Definition start (responses : list (Response + error)) (now : GoTime.Time)
  : Librelink.State :=
  Librelink.mkState freshClient (system responses now).

Definition sampleReading : Librelink.GlucoseReading :=
  Librelink.mkGlucoseReading 118%float "mg/dL"
    (GoTime.mkTime sampleInstant 0 GoTime.Local) "Flat".

Definition nsClient : Nightscout.Client := Nightscout.NewClient "nightscout:1337" "s3cret".

End Scripted.


(** ** Vocabulary of the specification *)

(** The base URL already carries one of the two schemes. *)
Definition hasScheme (base : string) : Prop :=
  (exists rest, base = "http://" ++ rest) \/ (exists rest, base = "https://" ++ rest).

(** The base URL contains a [:] character. *)
Definition hasColon (base : string) : Prop :=
  exists a b, base = a ++ ":" ++ b.

(** The trace [after] extends [before] by events that are no network calls. *)
Definition quietExtension (before after : list Event) : Prop :=
  exists added, after = (before ++ added)%list /\ networkCalls added = [].

(** The four ways the spec lets [Login] fail, on the answer [r] of the
    transport to the login request: the endpoint is unreachable, the status
    is no success status (it lies outside 200..299), the body does not
    decode, the embedded status is not 0. *)
Inductive AuthFailure {J : Librelink.JSON} : Response + error -> Prop :=
| Unreachable (e : error) :
    AuthFailure (inr e)
| NonSuccessStatus (resp : Response) :
    ~ (200 <= StatusCode resp < 300) -> AuthFailure (inl resp)
| UnparsableBody (resp : Response) (e : error) :
    Librelink.unmarshalLogin (Body resp) = inr e -> AuthFailure (inl resp)
| SoftFailure (resp : Response) (lr : Librelink.loginResponse) :
    Librelink.unmarshalLogin (Body resp) = inl lr ->
    Librelink.login_Status lr <> 0 -> AuthFailure (inl resp).

(** A success status that is not 200 OK: 201..299. *)
Definition otherSuccessStatus (r : Response + error) : Prop :=
  exists resp : Response, r = inl resp /\ 200 < StatusCode resp < 300.

(** A client with a session, for the examples. *)
Definition sessionClient : Librelink.Client :=
  Librelink.mkClient "https://api-eu.libreview.io" "user@example.com" "secret"
    "eyJhbGciOiJIUzI1NiIsInR5cCI6IkpXVCJ9" "ACC123".

(** Unfold the plumbing of the effect monad. *)
Ltac run :=
  unfold bind, ret, panic, Librelink.onSys, Librelink.getClient,
    Librelink.setAuthToken, Librelink.setAccountID,
    Printf, LogPrintf, emit, httpClientDo, Since, Now, sliceTo; simpl.

(** Bring both sides of an equation between traces to one shape. *)
Ltac same_trace :=
  unfold ret;
  cbn [world trace Librelink.sys Librelink.client fst snd];
  repeat first [rewrite <- app_assoc | progress (cbn [app])]; reflexivity.

(** ** config/config.go *)

Module Config.

(** [Config] holds all application configuration. *)
Record Config : Type := mkConfig {
  LinkUpUsername : string;
  LinkUpPassword : string;
  LinkUpRegion : string;
  LinkUpTimeInterval : Z;
  NightscoutURL : string;
  NightscoutAPIToken : string
}.

(** The process environment and the number parser: [os.Getenv] (the empty
    string for a variable that is not set) and [strconv.Atoi]. *)
Class OS : Type := {
  Getenv : string -> string;
  Atoi : string -> Z + error
}.

Section Load.
Context {O : OS}.

Definition getEnvOrDefault (key defaultValue : string) : string :=
  let value := Getenv key in
  if negb (value =? "")%string then value else defaultValue.

(** [LoadConfig] loads configuration from environment variables. *)
Definition LoadConfig : option Config * option error :=
  let cfg :=
    mkConfig (getEnvOrDefault "LINK_UP_USERNAME" "")
      (getEnvOrDefault "LINK_UP_PASSWORD" "")
      (getEnvOrDefault "LINK_UP_REGION" "EU")
      0
      (getEnvOrDefault "NIGHTSCOUT_URL" "")
      (getEnvOrDefault "NIGHTSCOUT_API_TOKEN" "") in
  let intervalStr := getEnvOrDefault "LINK_UP_TIME_INTERVAL" "1" in
  match Atoi intervalStr with
  | inr err => (None, Some (Errorf "invalid LINK_UP_TIME_INTERVAL: %v" [AErr err]))
  | inl interval =>
      (Some (mkConfig (LinkUpUsername cfg) (LinkUpPassword cfg) (LinkUpRegion cfg)
               interval (NightscoutURL cfg) (NightscoutAPIToken cfg)),
       None)
  end.

End Load.

(** [Validate] checks if all required configuration is present. *)
Definition Validate (c : Config) : option error :=
  if (LinkUpUsername c =? "")%string then
    Some (Errorf "LINK_UP_USERNAME is required" [])
  else if (LinkUpPassword c =? "")%string then
    Some (Errorf "LINK_UP_PASSWORD is required" [])
  else if (NightscoutURL c =? "")%string then
    Some (Errorf "NIGHTSCOUT_URL is required" [])
  else if (NightscoutAPIToken c =? "")%string then
    Some (Errorf "NIGHTSCOUT_API_TOKEN is required" [])
  else if LinkUpTimeInterval c <? 1 then
    Some (Errorf "LINK_UP_TIME_INTERVAL must be at least 1 minute" [])
  else None.

End Config.

(** ** A scripted process environment

    Variables from an association list; the number parser knows unsigned
    decimal numerals. *)

Module ScriptedOS.

Fixpoint lookup (key : string) (vars : list (string * string)) : string :=
  match vars with
  | [] => ""
  | (k, v) :: rest => if (k =? key)%string then v else lookup key rest
  end.

Definition digitValue (a : ascii) : option Z :=
  let n := Z.of_nat (nat_of_ascii a) in
  if (48 <=? n) && (n <=? 57) then Some (n - 48) else None.

Fixpoint decimal (acc : Z) (s : string) : option Z :=
  match s with
  | EmptyString => Some acc
  | String a rest =>
      match digitValue a with
      | Some d => decimal (acc * 10 + d) rest
      | None => None
      end
  end.

Definition atoi (s : string) : Z + error :=
  match s with
  | EmptyString => inr (LibError "strconv.Atoi: invalid syntax")
  | _ =>
      match decimal 0 s with
      | Some n => inl n
      | None => inr (LibError "strconv.Atoi: invalid syntax")
      end
  end.

Definition os (vars : list (string * string)) : Config.OS :=
  {| Config.Getenv := fun key => lookup key vars; Config.Atoi := atoi |}.

End ScriptedOS.

(** ** Vocabulary for the logs and the headers *)

Definition isLog (e : Event) : bool :=
  match e with
  | EvLog _ _ => true
  | _ => false
  end.

(** The lines a trace writes through the [log] package. *)
Definition logLines (tr : list Event) : list Event := filter isLog tr.

(** The format of a log line, the empty string for other events. *)
Definition logFormat (e : Event) : string :=
  match e with
  | EvLog format _ => format
  | _ => ""
  end.

(** The keys of the entries [setHeaders] writes, as [Header.Set] stores
    them. *)
Definition sessionHeaderKeys : list string :=
  [ "Content-Type"; "Accept"; "Product"; "Version"; "Account-Id" ].

(** The formats of the log lines a cycle can write. *)
Definition cycleLogFormats : list string :=
  [ "Fetching glucose data from LibreLink Up...";
    "Glucose reading: %.1f %s (Trend: %s) at %s";
    "Warning: Reading is %v old, may be stale";
    "Posting glucose data to: %s";
    "Successfully posted glucose data to Nightscout" ].

(** Every event the computation [m] appends to the trace satisfies [ok],
    whatever the state it starts in and whether it returns or panics. *)
Definition writes {RT : Runtime} {A : Type} (ok : Event -> bool)
    (m : M Librelink.State A) : Prop :=
  forall s : Librelink.State,
    exists added : list Event,
      trace (Librelink.sys (snd (m s)))
      = (trace (Librelink.sys s) ++ added)%list /\
      forallb ok added = true.

(** An event that is no log line. *)
Definition notLog (e : Event) : bool := negb (isLog e).

(** An event that is no log line, or a log line of a cycle. *)
Definition cycleEvent (e : Event) : bool :=
  negb (isLog e) || existsb (String.eqb (logFormat e)) cycleLogFormats.

(** The computation [m] makes at most [n] network calls, whatever the state
    it starts in and whether it returns or panics. *)
Definition spends {RT : Runtime} {A : Type} (n : nat)
    (m : M Librelink.State A) : Prop :=
  forall s : Librelink.State,
    exists added : list Event,
      trace (Librelink.sys (snd (m s)))
      = (trace (Librelink.sys s) ++ added)%list /\
      (List.length (networkCalls added) <= n)%nat.

(** ** Reading RFC 3339 text

    The instant a date-time of RFC 3339 (section 5.6) denotes, in Unix
    seconds: the date and the time of day on the wall clock, less the zone
    offset written after them. *)

Module RFC3339Text.

Definition digitValue (a : ascii) : option Z :=
  let n := Z.of_N (N_of_ascii a) in
  if (48 <=? n) && (n <=? 57) then Some (n - 48) else None.

(** [n] decimal digits at the head of [s]: their value and what follows. *)
Fixpoint number (n : nat) (acc : Z) (s : string) : option (Z * string) :=
  match n with
  | O => Some (acc, s)
  | S k =>
      match s with
      | EmptyString => None
      | String a rest =>
          match digitValue a with
          | Some d => number k (acc * 10 + d) rest
          | None => None
          end
      end
  end.

(** The character [c] at the head of [s]: what follows. *)
Definition expect (c : ascii) (s : string) : option string :=
  match s with
  | EmptyString => None
  | String a rest => if Ascii.eqb a c then Some rest else None
  end.

(** The day number, counted from 1970-01-01, of a proleptic Gregorian
    date. *)
Definition daysFromCivil (y m d : Z) : Z :=
  let y1 := if m <=? 2 then y - 1 else y in
  let era := y1 / 400 in
  let yoe := y1 - era * 400 in
  let mp := if 2 <? m then m - 3 else m + 9 in
  let doy := (153 * mp + 2) / 5 + d - 1 in
  let doe := yoe * 365 + yoe / 4 - yoe / 100 + doy in
  era * 146097 + doe - 719468.

(** [hh:mm] and nothing after it, in seconds. *)
Definition hoursMinutes (s : string) : option Z :=
  match number 2 0 s with
  | Some (hh, r1) =>
      match expect ":" r1 with
      | Some r2 =>
          match number 2 0 r2 with
          | Some (mm, EmptyString) => Some (hh * 3600 + mm * 60)
          | _ => None
          end
      | None => None
      end
  | None => None
  end.

(** The time-offset: [Z], or a sign and [hh:mm]; in seconds east of UTC. *)
Definition offsetOf (s : string) : option Z :=
  match s with
  | EmptyString => None
  | String c rest =>
      if Ascii.eqb c "Z" then
        match rest with
        | EmptyString => Some 0
        | _ => None
        end
      else if Ascii.eqb c "+" then hoursMinutes rest
      else if Ascii.eqb c "-" then option_map Z.opp (hoursMinutes rest)
      else None
  end.

(** A field of [n] digits followed by the character [c]. *)
Definition field (n : nat) (c : ascii) (s : string) : option (Z * string) :=
  match number n 0 s with
  | Some (v, r) =>
      match expect c r with
      | Some rest => Some (v, rest)
      | None => None
      end
  | None => None
  end.

(** The instant of [YYYY-MM-DDThh:mm:ss] followed by a time-offset. *)
Definition instantOf (s : string) : option Z :=
  match field 4 "-" s with
  | None => None
  | Some (y, r1) =>
  match field 2 "-" r1 with
  | None => None
  | Some (m, r2) =>
  match field 2 "T" r2 with
  | None => None
  | Some (d, r3) =>
  match field 2 ":" r3 with
  | None => None
  | Some (hh, r4) =>
  match field 2 ":" r4 with
  | None => None
  | Some (mm, r5) =>
  match number 2 0 r5 with
  | None => None
  | Some (ss, r6) =>
  match offsetOf r6 with
  | None => None
  | Some off =>
      Some (daysFromCivil y m d * 86400 + hh * 3600 + mm * 60 + ss - off)
  end end end end end end end.

End RFC3339Text.

(** The text [Format(time.RFC3339)] gives for [t] is plain: the wall clock
    shows a year from 0 to 9999 and the zone offset is a whole number of
    minutes, under 100 hours. *)
Definition plainRFC3339 (tz : Z -> Z) (t : GoTime.Time) : Prop :=
  let off := GoTime.zoneOffset tz t in
  off mod 60 = 0 /\ - 360000 < off < 360000 /\
  - 62167219200 <= GoTime.unixSec t + off < 253402300800.

(** A test on the [count] integers from [z] on, and on those below [n]. *)
Fixpoint allFrom (count : nat) (z : Z) (p : Z -> bool) : bool :=
  match count with
  | O => true
  | S k => p z && allFrom k (z + 1) p
  end.

Definition allBelow (n : Z) (p : Z -> bool) : bool := allFrom (Z.to_nat n) 0 p.

(** What a two-digit field and a four-digit field read back as. *)
Definition readsBack (width : nat) (x : Z) : bool :=
  match RFC3339Text.number width 0 (GoTime.appendInt x width) with
  | Some (v, EmptyString) => v =? x
  | _ => false
  end.

(** The date of a day of the 400-year cycle that starts on 0000-03-01, and
    the day of that date. *)
Definition cycleDayOk (doe : Z) : bool :=
  let '(y, m, d) := GoTime.civil (doe - 719468) in
  (RFC3339Text.daysFromCivil y m d =? doe - 719468)
  && (1 <=? m) && (m <=? 12) && (1 <=? d) && (d <=? 31)
  && (0 <=? y) && (y <=? 400)
  && (if doe <=? 146036 then y <=? 399 else y =? 400).

(** * Properties *)

(** ** Strings *)

Lemma prefix_iff (pre s : string) :
  String.prefix pre s = true <-> exists rest, s = pre ++ rest.
Proof.
  revert s; induction pre as [| a pre IH]; intros s.
  - split; [intros _; exists s; reflexivity | intros _; destruct s; reflexivity].
  - destruct s as [| b s]; simpl.
    + split; [discriminate | intros [rest H]; discriminate].
    + destruct (Ascii.ascii_dec a b) as [-> | Hab].
      * rewrite IH. split; intros [rest H]; exists rest.
        -- now rewrite H.
        -- now injection H.
      * split; [discriminate | intros [rest H]; injection H; intros; congruence].
Qed.

Lemma Contains_iff (s sub : string) :
  GoStrings.Contains s sub = true <-> exists a b, s = a ++ sub ++ b.
Proof.
  induction s as [| c s IH].
  - destruct sub; simpl.
    + split; [intros _; exists "", ""; reflexivity | reflexivity].
    + split; [discriminate | intros [x [y H]]; destruct x; discriminate].
  - change (GoStrings.Contains (String c s) sub)
      with (String.prefix sub (String c s) || GoStrings.Contains s sub).
    rewrite orb_true_iff, IH, prefix_iff. split.
    + intros [[rest H] | [a [b H]]].
      * exists "", rest. exact H.
      * exists (String c a), b. simpl. now rewrite H.
    + intros [a [b H]]. destruct a as [| c' a]; simpl in H.
      * left. exists b; exact H.
      * right. injection H as _ H. exists a, b; exact H.
Qed.

(** ** Trend arrows *)

Import Librelink Nightscout.

Lemma trendArrowToString_cases (arrow : Z) :
  (arrow = 1 \/ arrow = 2 \/ arrow = 3 \/ arrow = 4 \/ arrow = 5 \/ arrow = 6 \/ arrow = 7)
  \/ trendArrowToString arrow = "Unknown".
Proof.
  destruct arrow as [| p | p]; [right; reflexivity | | right; reflexivity].
  destruct p as [[[p|p|]|[p|p|]|]|[[p|p|]|[p|p|]|]|];
    try (right; reflexivity); left; lia.
Qed.

(** C2. The mapping from integer trend codes to labels is total; on the
    codes 1..7 it is the fixed table 1=DoubleUp, 2=SingleUp, 3=FortyFiveUp,
    4=Flat, 5=FortyFiveDown, 6=SingleDown, 7=DoubleDown, a bijection between
    1..7 and the seven labels; every other integer, 0 and the negative ones
    included, gives Unknown. *)
Theorem trendArrowToString_table :
  trendArrowToString 1 = "DoubleUp" /\
  trendArrowToString 2 = "SingleUp" /\
  trendArrowToString 3 = "FortyFiveUp" /\
  trendArrowToString 4 = "Flat" /\
  trendArrowToString 5 = "FortyFiveDown" /\
  trendArrowToString 6 = "SingleDown" /\
  trendArrowToString 7 = "DoubleDown" /\
  (forall a b : Z, 1 <= a <= 7 -> 1 <= b <= 7 ->
     trendArrowToString a = trendArrowToString b -> a = b) /\
  (forall label : string, List.In label trendLabels <->
     exists a : Z, 1 <= a <= 7 /\ trendArrowToString a = label) /\
  (forall a : Z, ~ (1 <= a <= 7) -> trendArrowToString a = "Unknown").
Proof.
  repeat (split; [reflexivity |]).
  split; [| split].
  - intros a b Ha Hb.
    assert (Ea : a = 1 \/ a = 2 \/ a = 3 \/ a = 4 \/ a = 5 \/ a = 6 \/ a = 7) by lia.
    assert (Eb : b = 1 \/ b = 2 \/ b = 3 \/ b = 4 \/ b = 5 \/ b = 6 \/ b = 7) by lia.
    repeat (destruct Ea as [-> | Ea]); try subst a;
      repeat (destruct Eb as [-> | Eb]); try subst b; simpl;
      intros H; try reflexivity; discriminate H.
  - intros label. unfold trendLabels. simpl. split.
    + intros H.
      destruct H as [<- | [<- | [<- | [<- | [<- | [<- | [<- | []]]]]]]];
        [exists 1 | exists 2 | exists 3 | exists 4 | exists 5 | exists 6 | exists 7];
        (split; [lia | reflexivity]).
    + intros [a [Ha <-]].
      assert (Ea : a = 1 \/ a = 2 \/ a = 3 \/ a = 4 \/ a = 5 \/ a = 6 \/ a = 7) by lia.
      repeat (destruct Ea as [-> | Ea]); try subst a; simpl; tauto.
  - intros a Ha. destruct (trendArrowToString_cases a) as [E | E]; [lia | exact E].
Qed.

Lemma trendArrowToString_table_example :
  trendArrowToString 0 = "Unknown" /\ trendArrowToString (-3) = "Unknown"
  /\ trendArrowToString 8 = "Unknown".
Proof.
  destruct trendArrowToString_table as (_ & _ & _ & _ & _ & _ & _ & _ & _ & U).
  repeat split; apply U; lia.
Defined.

Lemma not_in_trendLabels (label : string) :
  ~ List.In label trendLabels ->
  (label =? "DoubleUp")%string = false /\
  (label =? "SingleUp")%string = false /\
  (label =? "FortyFiveUp")%string = false /\
  (label =? "Flat")%string = false /\
  (label =? "FortyFiveDown")%string = false /\
  (label =? "SingleDown")%string = false /\
  (label =? "DoubleDown")%string = false.
Proof.
  intros H. unfold trendLabels in H. simpl in H.
  repeat split; apply String.eqb_neq; intros ->; apply H; tauto.
Qed.

(** C3. The direction mapping is the identity on the seven labels of the
    enumeration and gives NONE on every other string, Unknown and the empty
    string included; the entry built for a reading always carries the
    direction so obtained, so a trend code in 1..7 reaches the entry as its
    label and any other code as NONE. *)
Theorem convertTrendArrow_direction :
  (forall label : string, List.In label trendLabels -> convertTrendArrow label = label) /\
  (forall label : string, ~ List.In label trendLabels -> convertTrendArrow label = "NONE") /\
  convertTrendArrow "Unknown" = "NONE" /\
  convertTrendArrow "" = "NONE" /\
  (forall (RT : Runtime) (rd : GlucoseReading),
     Direction (newEntry rd) = convertTrendArrow (TrendArrow rd)) /\
  (forall a : Z, 1 <= a <= 7 ->
     convertTrendArrow (trendArrowToString a) = trendArrowToString a) /\
  (forall a : Z, ~ (1 <= a <= 7) -> convertTrendArrow (trendArrowToString a) = "NONE").
Proof.
  split; [| split; [| split; [| split; [| split; [| split]]]]].
  - intros label H. unfold trendLabels in H. simpl in H.
    destruct H as [<- | [<- | [<- | [<- | [<- | [<- | [<- | []]]]]]]]; reflexivity.
  - intros label H.
    destruct (not_in_trendLabels label H) as (E1 & E2 & E3 & E4 & E5 & E6 & E7).
    unfold convertTrendArrow. now rewrite E1, E2, E3, E4, E5, E6, E7.
  - reflexivity.
  - reflexivity.
  - reflexivity.
  - intros a Ha.
    assert (Ea : a = 1 \/ a = 2 \/ a = 3 \/ a = 4 \/ a = 5 \/ a = 6 \/ a = 7) by lia.
    repeat (destruct Ea as [-> | Ea]); try subst a; reflexivity.
  - intros a Ha. destruct (trendArrowToString_cases a) as [E | E]; [lia |].
    rewrite E. reflexivity.
Qed.

Lemma convertTrendArrow_direction_example :
  convertTrendArrow "Flat" = "Flat" /\ convertTrendArrow "flat" = "NONE"
  /\ convertTrendArrow (trendArrowToString 9) = "NONE".
Proof.
  destruct convertTrendArrow_direction as (I & N & _ & _ & _ & _ & U).
  split; [| split].
  - apply I. unfold trendLabels. simpl. tauto.
  - apply N. unfold trendLabels. simpl.
    intros H; repeat (destruct H as [H | H]; [discriminate H |]); exact H.
  - apply U. lia.
Defined.

(** ** The base URL of the sink *)

Lemma hasScheme_iff (base : string) :
  hasScheme base <->
  GoStrings.HasPrefix base "http://" = true \/ GoStrings.HasPrefix base "https://" = true.
Proof.
  unfold hasScheme, GoStrings.HasPrefix. now rewrite !prefix_iff.
Qed.

Lemma effectiveBaseURL_scheme (base : string) :
  hasScheme base -> effectiveBaseURL base = base.
Proof.
  intros H. apply hasScheme_iff in H. unfold effectiveBaseURL.
  destruct H as [H | H]; rewrite H; simpl;
    [| rewrite andb_false_r]; reflexivity.
Qed.

Lemma effectiveBaseURL_no_scheme (base : string) :
  ~ hasScheme base ->
  effectiveBaseURL base =
    if GoStrings.Contains base ":" then "http://" ++ base else "https://" ++ base.
Proof.
  intros H. rewrite hasScheme_iff in H. unfold effectiveBaseURL.
  destruct (GoStrings.HasPrefix base "http://"); [exfalso; apply H; now left |].
  destruct (GoStrings.HasPrefix base "https://"); [exfalso; apply H; now right |].
  reflexivity.
Qed.

Lemma networkCalls_app (a b : list Event) :
  networkCalls (a ++ b) = (networkCalls a ++ networkCalls b)%list.
Proof. apply filter_app. Qed.

Section SinkProperties.
Context {RT : Runtime} {J : Nightscout.JSON}.

(** What [PostGlucoseReading] does with a reading that marshals and a URL
    that parses: one log line, then one POST of the marshalled entry to the
    entries URL, the result decided by the response. *)
Lemma PostGlucoseReading_posts (c : Nightscout.Client) (rd : GlucoseReading)
    (y : Sys) (body : string) :
  marshalEntries [newEntry rd] = inl body ->
  urlParseError (entriesURL (Nightscout.baseURL c)) = None ->
  exists req : Request,
    Method req = "POST" /\
    URL req = entriesURL (Nightscout.baseURL c) /\
    ReqBody req = Some body /\
    HeaderGet "api-secret" (Header req) = Some (apiToken c) /\
    trace (snd (PostGlucoseReading c (Some rd) y)) =
      (trace y ++ [EvLog "Posting glucose data to: %s"
                     [AStr (entriesURL (Nightscout.baseURL c))]; EvHTTP req])%list /\
    world (snd (PostGlucoseReading c (Some rd) y)) = snd (httpDo req (world y)).
Proof.
  intros Hm Hu.
  pose (req :=
    HeaderSet "X-Forwarded-Proto" "https"
      (HeaderSet "api-secret" (apiToken c)
         (HeaderSet "Content-Type" "application/json"
            (mkRequest "POST" (entriesURL (Nightscout.baseURL c)) [] (Some body))))).
  exists req.
  split; [reflexivity |]. split; [reflexivity |]. split; [reflexivity |].
  split; [reflexivity |].
  unfold PostGlucoseReading. rewrite Hm. unfold NewRequest. rewrite Hu. run.
  fold req.
  destruct (httpDo req (world y)) as [[resp | e] w]; simpl;
    [destruct ((StatusCode resp <? 200) || (300 <=? StatusCode resp)) |];
    simpl; rewrite <- app_assoc; split; reflexivity.
Qed.

(** [PostGlucoseReading] never panics, and calls the network at most once. *)
Lemma PostGlucoseReading_returns (c : Nightscout.Client)
    (reading : option GlucoseReading) (y : Sys) :
  exists perr : option error, fst (PostGlucoseReading c reading y) = Done perr.
Proof.
  unfold PostGlucoseReading.
  destruct reading as [rd |]; [| eexists; reflexivity].
  destruct (marshalEntries _) as [body | e]; [| eexists; reflexivity].
  unfold NewRequest.
  destruct (urlParseError _); run; [eexists; reflexivity |].
  destruct (httpDo _ (world y)) as [[resp | e] w]; simpl;
    [destruct ((StatusCode resp <? 200) || (300 <=? StatusCode resp)) |];
    eexists; reflexivity.
Qed.

(** C5. A base URL without [http://] or [https://] in front gets [http://]
    when it contains a [:] and [https://] otherwise; one that carries a
    scheme is used as it is; the reading is posted, by one POST, to the
    base so obtained followed by the fixed path of the entries. *)
Theorem PostGlucoseReading_base_url (c : Nightscout.Client) :
  let base := Nightscout.baseURL c in
  (~ hasScheme base -> hasColon base -> effectiveBaseURL base = "http://" ++ base) /\
  (~ hasScheme base -> ~ hasColon base -> effectiveBaseURL base = "https://" ++ base) /\
  (hasScheme base -> effectiveBaseURL base = base) /\
  (forall (rd : GlucoseReading) (y : Sys) (body : string),
     marshalEntries [newEntry rd] = inl body ->
     urlParseError (effectiveBaseURL base ++ "/api/v1/entries") = None ->
     exists req : Request,
       Method req = "POST" /\
       URL req = effectiveBaseURL base ++ "/api/v1/entries" /\
       networkCalls (trace (snd (PostGlucoseReading c (Some rd) y))) =
         (networkCalls (trace y) ++ [EvHTTP req])%list).
Proof.
  intros base. split; [| split; [| split]].
  - intros Hs Hc. rewrite (effectiveBaseURL_no_scheme _ Hs).
    unfold hasColon in Hc. rewrite <- Contains_iff in Hc. now rewrite Hc.
  - intros Hs Hc. rewrite (effectiveBaseURL_no_scheme _ Hs).
    unfold hasColon in Hc. rewrite <- Contains_iff in Hc.
    destruct (GoStrings.Contains base ":"); [exfalso; now apply Hc | reflexivity].
  - apply effectiveBaseURL_scheme.
  - intros rd y body Hm Hu.
    destruct (PostGlucoseReading_posts c rd y body Hm Hu)
      as (req & Hmeth & Hurl & _ & _ & Htr & _).
    exists req. repeat split; try assumption.
    rewrite Htr, networkCalls_app. reflexivity.
Qed.

End SinkProperties.

Lemma PostGlucoseReading_base_url_example :
  effectiveBaseURL "nightscout:1337" = "http://nightscout:1337" /\
  effectiveBaseURL "ns.example.com" = "https://ns.example.com" /\
  effectiveBaseURL "https://ns.example.com:8443" = "https://ns.example.com:8443" /\
  exists req : Request,
    Method req = "POST" /\
    URL req = "http://nightscout:1337/api/v1/entries" /\
    networkCalls
      (trace (snd (PostGlucoseReading Scripted.nsClient (Some Scripted.sampleReading)
                     (Scripted.system [] GoTime.zero))))
    = [EvHTTP req].
Proof.
  assert (N1 : ~ hasScheme "nightscout:1337")
    by (rewrite hasScheme_iff; intros [H | H]; discriminate H).
  assert (N2 : ~ hasScheme "ns.example.com")
    by (rewrite hasScheme_iff; intros [H | H]; discriminate H).
  assert (C2 : ~ hasColon "ns.example.com")
    by (unfold hasColon; rewrite <- Contains_iff; discriminate).
  split; [| split; [| split]].
  - apply (PostGlucoseReading_base_url (Nightscout.mkClient "nightscout:1337" "s3cret"));
      [exact N1 | exists "nightscout", "1337"; reflexivity].
  - apply (PostGlucoseReading_base_url (Nightscout.mkClient "ns.example.com" "s3cret"));
      [exact N2 | exact C2].
  - apply (PostGlucoseReading_base_url
             (Nightscout.mkClient "https://ns.example.com:8443" "s3cret")).
    right. exists "ns.example.com:8443". reflexivity.
  - destruct (PostGlucoseReading_base_url Scripted.nsClient) as (_ & _ & _ & P).
    apply (P Scripted.sampleReading (Scripted.system [] GoTime.zero)
             "2024-11-19T15:14:29Z"); reflexivity.
Defined.

(** ** Timestamps *)

Section TimestampProperties.
Context {RT : Runtime}.

Lemma tryFormats_none (fs : list string) (timestamp : string) :
  (forall format, List.In format fs ->
     ParseInLocation format timestamp GoTime.Local = None) ->
  tryFormats fs timestamp =
    (GoTime.zero, Some (Errorf "unable to parse timestamp: %s" [AStr timestamp])).
Proof.
  induction fs as [| f fs IH]; intros H; simpl.
  - reflexivity.
  - rewrite (H f (or_introl eq_refl)). apply IH.
    intros g Hg. apply H. now right.
Qed.

Lemma tryFormats_first (fs : list string) (timestamp : string) (t : GoTime.Time) :
  tryFormats fs timestamp = (t, None) <->
  exists before format after,
    fs = (before ++ format :: after)%list /\
    (forall g, List.In g before -> ParseInLocation g timestamp GoTime.Local = None) /\
    ParseInLocation format timestamp GoTime.Local = Some t.
Proof.
  induction fs as [| f fs IH]; simpl.
  - split; [discriminate |].
    intros (before & format & after & E & _). destruct before; discriminate E.
  - destruct (ParseInLocation f timestamp GoTime.Local) as [t0 |] eqn:P.
    + split.
      * intros E. injection E as ->. exists [], f, fs. repeat split; auto.
        intros g [].
      * intros (before & format & after & E & Hb & Hf).
        destruct before as [| b before]; simpl in E; injection E; intros; subst.
        -- congruence.
        -- pose proof (Hb _ (or_introl eq_refl)). congruence.
    + rewrite IH. split.
      * intros (before & format & after & E & Hb & Hf).
        exists (f :: before), format, after. subst fs. repeat split; auto.
        intros g [<- | Hg]; auto.
      * intros (before & format & after & E & Hb & Hf).
        destruct before as [| b before]; simpl in E; injection E; intros; subst.
        -- congruence.
        -- exists before, format, after. repeat split; auto.
           intros g Hg. apply Hb. now right.
Qed.


End TimestampProperties.


(** ** The LibreLink Up session *)

Section SessionProperties.
Context {RT : Runtime} {J : Librelink.JSON}.

Lemma forEach_Printf {A : Type} (l : list A) (ev : A -> Event) (y : Sys) :
  forEach l (fun x => emit (ev x)) y
  = (Done tt, mkSys (world y) (trace y ++ map ev l)).
Proof.
  revert y; induction l as [| x l IH]; intros y; simpl.
  - unfold ret. rewrite app_nil_r. destruct y; reflexivity.
  - unfold bind, emit at 1. rewrite IH. simpl. rewrite <- app_assoc. reflexivity.
Qed.

Lemma printHeaders_run (req : Request) (y : Sys) :
  printHeaders req y
  = (Done tt,
     mkSys (world y)
       (trace y ++ map (fun kv => EvPrintf "  %s: %s\n" [AStr (fst kv); AStrs [snd kv]])
                     (Header req))).
Proof. unfold printHeaders, Printf. apply forEach_Printf. Qed.

Lemma networkCalls_Printf {A : Type} (l : list A) (format : A -> string)
    (args : A -> list Arg) :
  networkCalls (map (fun x => EvPrintf (format x) (args x)) l) = [].
Proof. induction l as [| x l IH]; simpl; auto. Qed.

(** One run of [Login] when the request can be built: what is printed
    before the request, the request, and the outcome by the response. *)
Lemma Login_run (c : Librelink.Client) (w : World) (tr : list Event) (body : string) :
  marshalLogin (mkLoginRequest (username c) (password c)) = inl body ->
  urlParseError (Librelink.baseURL c ++ "/llu/auth/login") = None ->
  let s := mkState c (mkSys w tr) in
  let req := setHeaders c
               (mkRequest "POST" (Librelink.baseURL c ++ "/llu/auth/login") []
                  (Some body)) in
  let ends (o : Outcome (option error)) (c1 : Librelink.Client) (w1 : World) :=
    exists pre post : list Event,
      networkCalls pre = [] /\ networkCalls post = [] /\
      Login s = (o, mkState c1 (mkSys w1 (tr ++ pre ++ [EvHTTP req] ++ post))) in
  match httpDo req w with
  | (inr e, w1) =>
      ends (Done (Some (Errorf "login request failed: %w" [AErr e]))) c w1
  | (inl resp, w1) =>
      if negb (StatusCode resp =? StatusOK) then
        ends (Done (Some (Errorf "login failed with HTTP status %d: %s"
                            [AInt (StatusCode resp); AStr (Body resp)]))) c w1
      else
        match unmarshalLogin (Body resp) with
        | inr e =>
            ends (Done (Some (Errorf "failed to decode login response: %w" [AErr e])))
              c w1
        | inl lr =>
            if negb (login_Status lr =? 0) then
              ends (Done (Some (Errorf "login failed with API status: %d"
                                  [AInt (login_Status lr)]))) c w1
            else
              let c1 := Librelink.mkClient (Librelink.baseURL c) (username c)
                          (password c) (login_AuthTicket_Token lr)
                          (login_User_ID lr) in
              if GoStrings.len (login_AuthTicket_Token lr) <? 20 then
                ends (Panicked (SliceBoundsOutOfRange 20
                                  (GoStrings.len (login_AuthTicket_Token lr)))) c1 w1
              else ends (Done None) c1 w1
        end
  end.
Proof.
  intros Hm Hu s req ends.
  set (pre :=
    ([EvPrintf "DEBUG: Attempting login to %s with email: %s\n"
        [AStr (Librelink.baseURL c); AStr (username c)];
      EvPrintf "DEBUG: Request body: %s\n" [AStr body];
      EvPrintf "DEBUG: Request headers:\n" []] ++
     map (fun kv : string * string =>
            EvPrintf "  %s: %s\n" [AStr (fst kv); AStrs [snd kv]])
       (Header req))%list).
  assert (Hpre : networkCalls pre = []).
  { unfold pre. rewrite networkCalls_app.
    rewrite (networkCalls_Printf (Header req) (fun _ => "  %s: %s\n")).
    reflexivity. }
  assert (Leaf : forall o c1 w1 tr1 post,
             networkCalls post = [] ->
             tr1 = (tr ++ pre ++ [EvHTTP req] ++ post)%list ->
             Login s = (o, mkState c1 (mkSys w1 tr1)) -> ends o c1 w1).
  { intros o c1 w1 tr1 post Hpost -> H. exists pre, post. auto. }
  clearbody ends.
  assert (Run : Login s =
    (let (r, w1) := httpDo req w in
     let tr1 := (tr ++ pre ++ [EvHTTP req])%list in
     match r with
     | inr e => ret (Some (Errorf "login request failed: %w" [AErr e]))
                  (mkState c (mkSys w1 tr1))
     | inl resp =>
         let tr2 := (tr1 ++ [EvPrintf "DEBUG: Response status: %d\n"
                               [AInt (StatusCode resp)];
                             EvPrintf "DEBUG: Response body: %s\n"
                               [AStr (Body resp)]])%list in
         if negb (StatusCode resp =? StatusOK) then
           (Done (Some (Errorf "login failed with HTTP status %d: %s"
                          [AInt (StatusCode resp); AStr (Body resp)])),
            mkState c (mkSys w1 tr2))
         else
           match unmarshalLogin (Body resp) with
           | inr e =>
               (Done (Some (Errorf "failed to decode login response: %w" [AErr e])),
                mkState c (mkSys w1 tr2))
           | inl lr =>
               if negb (login_Status lr =? 0) then
                 (Done (Some (Errorf "login failed with API status: %d"
                                [AInt (login_Status lr)])),
                  mkState c
                    (mkSys w1 (tr2 ++ [EvPrintf "DEBUG: Full login response: %+v\n"
                                         [loginResponseArg lr]])))
               else
                 let c1 := Librelink.mkClient (Librelink.baseURL c) (username c)
                             (password c) (login_AuthTicket_Token lr)
                             (login_User_ID lr) in
                 if GoStrings.len (login_AuthTicket_Token lr) <? 20 then
                   (Panicked (SliceBoundsOutOfRange 20
                                (GoStrings.len (login_AuthTicket_Token lr))),
                    mkState c1 (mkSys w1 tr2))
                 else
                   (Done None,
                    mkState c1
                      (mkSys w1
                         (tr2 ++
                          [EvPrintf "DEBUG: Successfully authenticated, token: %s...\n"
                             [AStr (GoStrings.slice_to (login_AuthTicket_Token lr) 20)];
                           EvPrintf "DEBUG: Account ID: %s\n"
                             [AStr (login_User_ID lr)]])))
           end
     end)).
  { unfold s, Login. run. rewrite Hm. unfold NewRequest. rewrite Hu.
    fold req. rewrite printHeaders_run. cbn [world trace sys client fst snd].
    destruct (httpDo req w) as [[resp | e] w1]; cbn [world trace sys client fst snd].
    2:{ unfold ret, pre. same_trace. }
    destruct (negb (StatusCode resp =? StatusOK)).
    { unfold pre. same_trace. }
    destruct (unmarshalLogin (Body resp)) as [lr | e].
    2:{ unfold pre. same_trace. }
    destruct (negb (login_Status lr =? 0)).
    { unfold pre. same_trace. }
    cbn [world trace sys client fst snd authToken accountID].
    destruct (GoStrings.len (login_AuthTicket_Token lr) <? 20).
    { unfold pre. same_trace. }
    unfold pre. cbn [world trace sys client fst snd authToken accountID
                     Librelink.baseURL username password].
    same_trace. }
  rewrite Run in Leaf. clear Run.
  destruct (httpDo req w) as [[resp | e] w1].
  2:{ eapply (Leaf _ _ _ _ []); [reflexivity | | reflexivity].
      same_trace. }
  cbv zeta in Leaf.
  destruct (negb (StatusCode resp =? StatusOK)).
  { eapply Leaf; [| | reflexivity]; [| same_trace].
    reflexivity. }
  destruct (unmarshalLogin (Body resp)) as [lr | e].
  2:{ eapply Leaf; [| | reflexivity]; [| same_trace].
      reflexivity. }
  destruct (negb (login_Status lr =? 0)).
  { eapply Leaf; [| | reflexivity]; [| same_trace].
    reflexivity. }
  destruct (GoStrings.len (login_AuthTicket_Token lr) <? 20).
  { eapply Leaf; [| | reflexivity]; [| same_trace].
    reflexivity. }
  eapply Leaf; [| | reflexivity]; [| same_trace].
  reflexivity.
Qed.

Lemma setHeaders_target (c : Librelink.Client) (req : Request) :
  Method (setHeaders c req) = Method req /\ URL (setHeaders c req) = URL req
  /\ ReqBody (setHeaders c req) = ReqBody req.
Proof.
  unfold setHeaders.
  destruct (negb (accountID c =? "")%string && negb (authToken c =? "")%string);
    repeat split.
Qed.

(** Without a token the two authenticated operations return at once. *)
Lemma GetConnections_unauthenticated (s : State) :
  authToken (client s) = "" ->
  GetConnections s
  = (Done ([], Some (Errorf "not authenticated, call Login() first" [])), s).
Proof. intros H. unfold GetConnections. run. rewrite H. reflexivity. Qed.

Lemma GetLatestReading_unauthenticated (patientID : string) (s : State) :
  authToken (client s) = "" ->
  GetLatestReading patientID s
  = (Done (None, Some (Errorf "not authenticated, call Login() first" [])), s).
Proof. intros H. unfold GetLatestReading. run. rewrite H. reflexivity. Qed.

(** One run of [GetConnections] with a token and a URL that parses. *)
Lemma GetConnections_run (c : Librelink.Client) (w : World) (tr : list Event) :
  authToken c <> "" ->
  urlParseError (Librelink.baseURL c ++ "/llu/connections") = None ->
  let req := HeaderSet "Authorization" ("Bearer " ++ authToken c)
               (setHeaders c
                  (mkRequest "GET" (Librelink.baseURL c ++ "/llu/connections") [] None)) in
  GetConnections (mkState c (mkSys w tr)) =
  (let (r, w1) := httpDo req w in
   match r with
   | inr err =>
       (Done ([], Some (Errorf "connections request failed: %w" [AErr err])),
        mkState c (mkSys w1 (tr ++ [EvHTTP req])))
   | inl resp =>
       let tr2 :=
         (tr ++ [EvHTTP req;
                 EvPrintf "DEBUG: Connections response status: %d\n"
                   [AInt (StatusCode resp)];
                 EvPrintf "DEBUG: Connections response body: %s\n"
                   [AStr (Body resp)]])%list in
       if negb (StatusCode resp =? StatusOK) then
         (Done ([], Some (Errorf "connections request failed with status %d: %s"
                            [AInt (StatusCode resp); AStr (Body resp)])),
          mkState c (mkSys w1 tr2))
       else
         match unmarshalConnections (Body resp) with
         | inr err =>
             (Done ([], Some (Errorf "failed to decode connections response: %w"
                                [AErr err])),
              mkState c (mkSys w1 tr2))
         | inl connResp =>
             match connections_Data connResp with
             | [] =>
                 (Done ([mkConnection (accountID c) "Self" "" 0], None),
                  mkState c
                    (mkSys w1
                       (tr2 ++
                        [EvPrintf
                           "DEBUG: No connections found - using patient account ID as connection: %s\n"
                           [AStr (accountID c)]])))
             | _ :: _ =>
                 (Done (map (fun conn =>
                               mkConnection (data_PatientID conn)
                                 (data_FirstName conn) (data_LastName conn) 0)
                          (connections_Data connResp), None),
                  mkState c (mkSys w1 tr2))
             end
         end
   end).
Proof.
  intros Htok Hu req. apply String.eqb_neq in Htok.
  unfold GetConnections. run. rewrite Htok. unfold NewRequest. rewrite Hu.
  cbn [world trace sys client fst snd].
  match goal with
  | |- context [httpDo ?r w] =>
      lazymatch r with req => fail | _ => change r with req end
  end.
  destruct (httpDo req w) as [[resp | e] w1]; cbn [world trace sys client fst snd].
  2:{ reflexivity. }
  destruct (negb (StatusCode resp =? StatusOK)); [same_trace |].
  destruct (unmarshalConnections (Body resp)) as [cr | e]; [| same_trace].
  destruct (connections_Data cr) as [| d ds]; cbn [List.length Z.of_nat Z.eqb].
  - same_trace.
  - same_trace.
Qed.


(** A [Login] that returns an error leaves the client as it was. *)
Lemma Login_error_keeps_client (s : State) (e : error) :
  fst (Login s) = Done (Some e) -> client (snd (Login s)) = client s.
Proof.
  destruct s as [c [w tr]].
  destruct (marshalLogin (mkLoginRequest (username c) (password c)))
    as [body | e0] eqn:Hm.
  2:{ unfold Login. run. rewrite Hm. reflexivity. }
  destruct (urlParseError (Librelink.baseURL c ++ "/llu/auth/login")) as [e0 |] eqn:Hu.
  1:{ unfold Login. run. rewrite Hm. unfold NewRequest. rewrite Hu. reflexivity. }
  pose proof (Login_run c w tr body Hm Hu) as R. cbv zeta in R.
  set (req := setHeaders c _) in *.
  destruct (httpDo req w) as [[resp | e1] w1].
  2:{ destruct R as (pre & post & _ & _ & L). rewrite L. reflexivity. }
  destruct (negb (StatusCode resp =? StatusOK)).
  { destruct R as (pre & post & _ & _ & L). rewrite L. reflexivity. }
  destruct (unmarshalLogin (Body resp)) as [lr | e1].
  2:{ destruct R as (pre & post & _ & _ & L). rewrite L. reflexivity. }
  destruct (negb (login_Status lr =? 0)).
  { destruct R as (pre & post & _ & _ & L). rewrite L. reflexivity. }
  destruct (GoStrings.len (login_AuthTicket_Token lr) <? 20);
    destruct R as (pre & post & _ & _ & L); rewrite L; discriminate.
Qed.

(** C7. With the request built, [Login] sends one POST of the credentials
    to the login endpoint and returns an error exactly when the endpoint is
    unreachable, the HTTP status is no success status, the body does not
    decode into a login response, the embedded status is not zero, or the
    HTTP status is a success status other than 200 OK (201..299); when it
    returns without error the client holds the token and the account id of
    the response; when it returns an error the client is as before. *)
Theorem Login_fails_exactly_when (s : State) (body : string) :
  marshalLogin (mkLoginRequest (username (client s)) (password (client s))) = inl body ->
  urlParseError (Librelink.baseURL (client s) ++ "/llu/auth/login") = None ->
  let req := setHeaders (client s)
               (mkRequest "POST" (Librelink.baseURL (client s) ++ "/llu/auth/login")
                  [] (Some body)) in
  let answer := fst (httpDo req (world (sys s))) in
  networkCalls (trace (sys (snd (Login s))))
    = (networkCalls (trace (sys s)) ++ [EvHTTP req])%list /\
  ((exists e : error, fst (Login s) = Done (Some e))
     <-> AuthFailure answer \/ otherSuccessStatus answer) /\
  (fst (Login s) = Done None ->
     exists (resp : Response) (lr : loginResponse),
       answer = inl resp /\
       StatusCode resp = 200 /\
       unmarshalLogin (Body resp) = inl lr /\
       login_Status lr = 0 /\
       authToken (client (snd (Login s))) = login_AuthTicket_Token lr /\
       accountID (client (snd (Login s))) = login_User_ID lr) /\
  ((exists e : error, fst (Login s) = Done (Some e)) ->
     client (snd (Login s)) = client s).
Proof.
  destruct s as [c [w tr]]. cbn [client sys world trace]. intros Hm Hu. cbv zeta.
  pose proof (Login_run c w tr body Hm Hu) as R. cbv zeta in R.
  set (req := setHeaders c _) in *.
  assert (Hnet : forall o c1 w1 pre post,
            networkCalls pre = [] -> networkCalls post = [] ->
            Login (mkState c (mkSys w tr))
              = (o, mkState c1 (mkSys w1 (tr ++ pre ++ [EvHTTP req] ++ post))) ->
            networkCalls (trace (sys (snd (Login (mkState c (mkSys w tr))))))
              = (networkCalls tr ++ [EvHTTP req])%list).
  { intros o c1 w1 pre post H1 H2 ->. cbn [snd sys trace].
    rewrite !networkCalls_app, H1, H2. simpl. reflexivity. }
  destruct (httpDo req w) as [[resp | e] w1]; cbn [fst].
  2:{ destruct R as (pre & post & H1 & H2 & L).
      split; [exact (Hnet _ _ _ _ _ H1 H2 L) |]. rewrite L. cbn [fst snd client].
      split; [| split].
      - split; [intros _; left; constructor | intros _; eexists; reflexivity].
      - discriminate.
      - reflexivity. }
  destruct (negb (StatusCode resp =? StatusOK)) eqn:Est.
  { destruct R as (pre & post & H1 & H2 & L).
    split; [exact (Hnet _ _ _ _ _ H1 H2 L) |]. rewrite L. cbn [fst snd client].
    split; [| split].
    - split; [intros _ | intros _; eexists; reflexivity].
      apply negb_true_iff, Z.eqb_neq in Est. unfold StatusOK in Est.
      destruct (Z_lt_le_dec (StatusCode resp) 200) as [Lo | Lo];
        [left; apply NonSuccessStatus; lia |].
      destruct (Z_lt_le_dec (StatusCode resp) 300) as [Hi | Hi];
        [right; exists resp; split; [reflexivity | lia]
        | left; apply NonSuccessStatus; lia].
    - discriminate.
    - reflexivity. }
  apply negb_false_iff, Z.eqb_eq in Est. unfold StatusOK in Est.
  destruct (unmarshalLogin (Body resp)) as [lr | e] eqn:Edec.
  2:{ destruct R as (pre & post & H1 & H2 & L).
      split; [exact (Hnet _ _ _ _ _ H1 H2 L) |]. rewrite L. cbn [fst snd client].
      split; [| split].
      - split; [intros _ | intros _; eexists; reflexivity].
        left. eapply UnparsableBody; eauto.
      - discriminate.
      - reflexivity. }
  destruct (negb (login_Status lr =? 0)) eqn:Esoft.
  { destruct R as (pre & post & H1 & H2 & L).
    split; [exact (Hnet _ _ _ _ _ H1 H2 L) |]. rewrite L. cbn [fst snd client].
    split; [| split].
    - split; [intros _ | intros _; eexists; reflexivity].
      left. eapply SoftFailure; eauto.
      apply negb_true_iff in Esoft. now apply Z.eqb_neq.
    - discriminate.
    - reflexivity. }
  apply negb_false_iff, Z.eqb_eq in Esoft.
  assert (Hno : ~ (AuthFailure (inl resp) \/ otherSuccessStatus (inl resp))).
  { intros [F | (resp' & E & B)].
    - inversion F; subst; try congruence. lia.
    - injection E as <-. lia. }
  destruct (GoStrings.len (login_AuthTicket_Token lr) <? 20);
    destruct R as (pre & post & H1 & H2 & L);
    (split; [exact (Hnet _ _ _ _ _ H1 H2 L) |]); rewrite L; cbn [fst snd client].
  - split; [| split].
    + split; [intros [e H]; discriminate H | intros F; contradiction].
    + discriminate.
    + intros [e H]; discriminate H.
  - split; [| split].
    + split; [intros [e H]; discriminate H | intros F; contradiction].
    + intros _. exists resp, lr. auto 10.
    + intros [e H]; discriminate H.
Qed.

(** C10. When the login request is answered with status 200 and a body
    whose embedded status is zero but whose token is shorter than 20 bytes,
    [Login] panics on the slice [c.authToken[:20]] instead of returning,
    after it stored the token and the account id; [Login] panics in no
    other case; so whenever [Login] returns without error the token it
    stored has at least 20 bytes. *)
Theorem Login_short_token_panics :
  (forall (s : State) (body : string) (resp : Response) (lr : loginResponse),
     let c := client s in
     let req := setHeaders c
                  (mkRequest "POST" (Librelink.baseURL c ++ "/llu/auth/login")
                     [] (Some body)) in
     marshalLogin (mkLoginRequest (username c) (password c)) = inl body ->
     urlParseError (Librelink.baseURL c ++ "/llu/auth/login") = None ->
     fst (httpDo req (world (sys s))) = inl resp ->
     StatusCode resp = 200 ->
     unmarshalLogin (Body resp) = inl lr ->
     login_Status lr = 0 ->
     GoStrings.len (login_AuthTicket_Token lr) < 20 ->
     fst (Login s)
     = Panicked (SliceBoundsOutOfRange 20 (GoStrings.len (login_AuthTicket_Token lr))) /\
     networkCalls (trace (sys (snd (Login s))))
     = (networkCalls (trace (sys s)) ++ [EvHTTP req])%list /\
     authToken (client (snd (Login s))) = login_AuthTicket_Token lr /\
     accountID (client (snd (Login s))) = login_User_ID lr) /\
  (forall (s : State) (p : PanicValue),
     fst (Login s) = Panicked p ->
     exists (body : string) (resp : Response) (lr : loginResponse),
       marshalLogin (mkLoginRequest (username (client s)) (password (client s)))
         = inl body /\
       fst (httpDo
              (setHeaders (client s)
                 (mkRequest "POST" (Librelink.baseURL (client s) ++ "/llu/auth/login")
                    [] (Some body)))
              (world (sys s))) = inl resp /\
       StatusCode resp = 200 /\
       unmarshalLogin (Body resp) = inl lr /\
       login_Status lr = 0 /\
       GoStrings.len (login_AuthTicket_Token lr) < 20 /\
       p = SliceBoundsOutOfRange 20 (GoStrings.len (login_AuthTicket_Token lr))) /\
  (forall s : State,
     fst (Login s) = Done None ->
     20 <= GoStrings.len (authToken (client (snd (Login s))))).
Proof.
  split; [| split].
  - intros [c [w tr]] body resp lr. cbn [client sys world trace].
    intros Hm Hu Hdo Hst Hdec Hsoft Hlen.
    pose proof (Login_run c w tr body Hm Hu) as R. cbv zeta in R.
    set (req := setHeaders c _) in *.
    destruct (httpDo req w) as [r w1]. cbn [fst] in Hdo. subst r.
    rewrite Hst, Hdec, Hsoft in R. cbn [negb Z.eqb StatusOK Pos.eqb] in R.
    replace (StatusOK =? StatusOK) with true in R by reflexivity.
    cbn [negb] in R.
    apply Z.ltb_lt in Hlen. rewrite Hlen in R.
    destruct R as (pre & post & H1 & H2 & L). rewrite L.
    cbn [fst snd sys trace client authToken accountID].
    split; [reflexivity |]. split; [| split; reflexivity].
    rewrite !networkCalls_app, H1, H2. reflexivity.
  - intros [c [w tr]] p. cbn [client sys world trace].
    destruct (marshalLogin (mkLoginRequest (username c) (password c)))
      as [body | e] eqn:Hm.
    2:{ unfold Login. run. rewrite Hm. discriminate. }
    destruct (urlParseError (Librelink.baseURL c ++ "/llu/auth/login")) as [e |] eqn:Hu.
    1:{ unfold Login. run. rewrite Hm. unfold NewRequest. rewrite Hu. discriminate. }
    pose proof (Login_run c w tr body Hm Hu) as R. cbv zeta in R.
    set (req := setHeaders c _) in *.
    destruct (httpDo req w) as [[resp | e] w1] eqn:Hdo.
    2:{ destruct R as (pre & post & _ & _ & L). rewrite L. discriminate. }
    destruct (negb (StatusCode resp =? StatusOK)) eqn:Est.
    { destruct R as (pre & post & _ & _ & L). rewrite L. discriminate. }
    destruct (unmarshalLogin (Body resp)) as [lr | e] eqn:Hdec.
    2:{ destruct R as (pre & post & _ & _ & L). rewrite L. discriminate. }
    destruct (negb (login_Status lr =? 0)) eqn:Esoft.
    { destruct R as (pre & post & _ & _ & L). rewrite L. discriminate. }
    destruct (GoStrings.len (login_AuthTicket_Token lr) <? 20) eqn:Hlen;
      destruct R as (pre & post & _ & _ & L); rewrite L; [| discriminate].
    cbn [fst]. intros E. injection E as <-.
    exists body, resp, lr.
    apply negb_false_iff, Z.eqb_eq in Est. apply negb_false_iff, Z.eqb_eq in Esoft.
    apply Z.ltb_lt in Hlen.
    split; [reflexivity |]. split; [fold req; now rewrite Hdo |]. auto 10.
  - intros [c [w tr]].
    destruct (marshalLogin (mkLoginRequest (username c) (password c)))
      as [body | e] eqn:Hm.
    2:{ unfold Login. run. rewrite Hm. discriminate. }
    destruct (urlParseError (Librelink.baseURL c ++ "/llu/auth/login")) as [e |] eqn:Hu.
    1:{ unfold Login. run. rewrite Hm. unfold NewRequest. rewrite Hu. discriminate. }
    pose proof (Login_run c w tr body Hm Hu) as R. cbv zeta in R.
    set (req := setHeaders c _) in *.
    destruct (httpDo req w) as [[resp | e] w1].
    2:{ destruct R as (pre & post & _ & _ & L). rewrite L. discriminate. }
    destruct (negb (StatusCode resp =? StatusOK)).
    { destruct R as (pre & post & _ & _ & L). rewrite L. discriminate. }
    destruct (unmarshalLogin (Body resp)) as [lr | e].
    2:{ destruct R as (pre & post & _ & _ & L). rewrite L. discriminate. }
    destruct (negb (login_Status lr =? 0)).
    { destruct R as (pre & post & _ & _ & L). rewrite L. discriminate. }
    destruct (GoStrings.len (login_AuthTicket_Token lr) <? 20) eqn:Hlen;
      destruct R as (pre & post & _ & _ & L); rewrite L; [discriminate |].
    intros _. cbn [snd client authToken]. apply Z.ltb_ge in Hlen. exact Hlen.
Qed.

End SessionProperties.


Lemma Login_fails_exactly_when_example :
  (exists e : error,
     fst (Login (Scripted.start [Scripted.ok "login-rejected"] GoTime.zero))
     = Done (Some e)) /\
  (exists e : error,
     fst (Login (Scripted.start [inl (mkResponse 201 "login-ok")] GoTime.zero))
     = Done (Some e)) /\
  authToken (client (snd (Login (Scripted.start [Scripted.ok "login-ok"] GoTime.zero))))
  = "eyJhbGciOiJIUzI1NiIsInR5cCI6IkpXVCJ9" /\
  accountID (client (snd (Login (Scripted.start [Scripted.ok "login-ok"] GoTime.zero))))
  = "ACC123".
Proof.
  assert (Hm : marshalLogin (mkLoginRequest "user@example.com" "secret")
               = inl "{email:user@example.com,password:secret}") by reflexivity.
  assert (Hp : urlParseError "https://api-eu.libreview.io/llu/auth/login" = None)
    by reflexivity.
  split; [| split].
  - destruct (Login_fails_exactly_when
                (Scripted.start [Scripted.ok "login-rejected"] GoTime.zero)
                "{email:user@example.com,password:secret}" Hm Hp)
      as (_ & Hiff & _).
    apply Hiff. left.
    apply (SoftFailure (mkResponse 200 "login-rejected") Scripted.loginRejected).
    + reflexivity.
    + discriminate.
  - destruct (Login_fails_exactly_when
                (Scripted.start [inl (mkResponse 201 "login-ok")] GoTime.zero)
                "{email:user@example.com,password:secret}" Hm Hp)
      as (_ & Hiff & _).
    apply Hiff. right. exists (mkResponse 201 "login-ok").
    split; [reflexivity | cbn; lia].
  - destruct (Login_fails_exactly_when
                (Scripted.start [Scripted.ok "login-ok"] GoTime.zero)
                "{email:user@example.com,password:secret}" Hm Hp)
      as (_ & _ & Hok & _).
    destruct (Hok eq_refl) as (resp & lr & Hr & _ & Hd & _ & Ht & Ha).
    injection Hr as <-. injection Hd as <-.
    split; [exact Ht | exact Ha].
Defined.

(** A login answered with 201 Created and a body that decodes to a login
    response with embedded status zero: the endpoint was reached, the status
    is a success status, the body parses, the embedded status is zero, and
    [Login] returns an error. *)
Lemma Login_fails_on_status_201 :
  let s := Scripted.start [inl (mkResponse 201 "login-ok")] GoTime.zero in
  let req := setHeaders (client s)
               (mkRequest "POST" "https://api-eu.libreview.io/llu/auth/login" []
                  (Some "{email:user@example.com,password:secret}")) in
  fst (httpDo req (world (sys s))) = inl (mkResponse 201 "login-ok") /\
  200 <= StatusCode (mkResponse 201 "login-ok") < 300 /\
  unmarshalLogin (Body (mkResponse 201 "login-ok")) = inl Scripted.loginOK /\
  login_Status Scripted.loginOK = 0 /\
  ~ AuthFailure (inl (mkResponse 201 "login-ok")) /\
  fst (Login s)
  = Done (Some (Errorf "login failed with HTTP status %d: %s"
                  [AInt 201; AStr "login-ok"])) /\
  networkCalls (trace (sys (snd (Login s)))) = [EvHTTP req] /\
  client (snd (Login s)) = client s.
Proof.
  cbv zeta.
  split; [reflexivity |]. split; [cbn; lia |].
  split; [reflexivity |]. split; [reflexivity |].
  split.
  { intros F. inversion F as [| resp H | resp e H | resp lr H1 H2]; subst.
    - cbn in H. lia.
    - discriminate H.
    - cbn in H1. injection H1 as <-. now apply H2. }
  split; [vm_compute; reflexivity |].
  split; vm_compute; reflexivity.
Qed.

Lemma Login_short_token_panics_example :
  fst (Login (Scripted.start [Scripted.ok "login-empty-object"] GoTime.zero))
  = Panicked (SliceBoundsOutOfRange 20 0) /\
  authToken
    (client (snd (Login (Scripted.start [Scripted.ok "login-empty-object"]
                           GoTime.zero))))
  = "" /\
  accountID
    (client (snd (Login (Scripted.start [Scripted.ok "login-empty-object"]
                           GoTime.zero))))
  = "ACC123".
Proof.
  assert (H := proj1 Login_short_token_panics
              (Scripted.start [Scripted.ok "login-empty-object"] GoTime.zero)
              "{email:user@example.com,password:secret}"
              (mkResponse 200 "login-empty-object")
              Scripted.loginShortToken
              eq_refl eq_refl eq_refl eq_refl eq_refl eq_refl eq_refl).
  destruct H as (H1 & _ & H2 & H3).
  split; [exact H1 | split; [exact H2 | exact H3]].
Defined.

(** ** Operations without a session *)

Section NoSession.
Context {RT : Runtime} {JL : Librelink.JSON} {JN : Nightscout.JSON}.

(** C1. With no session (an empty token) [GetLatestReading] returns the
    not-authenticated error and leaves the system untouched: no network
    call; a [Login] that returns an error establishes no session.
    [PostGlucoseReading] holds no session and checks none: it refuses only a
    nil reading, without a network call, and posts every other reading that
    marshals, whatever the state of the LibreLink client. *)
Theorem no_session_operations :
  (forall (s : State) (patientID : string),
     authToken (client s) = "" ->
     GetLatestReading patientID s
     = (Done (None, Some (Errorf "not authenticated, call Login() first" [])), s)) /\
  (forall (s : State) (e : error),
     fst (Login s) = Done (Some e) -> client (snd (Login s)) = client s) /\
  (forall (ns : Nightscout.Client) (y : Sys),
     PostGlucoseReading ns None y = (Done (Some (Errorf "reading is nil" [])), y)) /\
  (forall (ns : Nightscout.Client) (rd : GlucoseReading) (y : Sys) (body : string),
     marshalEntries [newEntry rd] = inl body ->
     urlParseError (entriesURL (Nightscout.baseURL ns)) = None ->
     exists req : Request,
       Method req = "POST" /\
       networkCalls (trace (snd (PostGlucoseReading ns (Some rd) y)))
       = (networkCalls (trace y) ++ [EvHTTP req])%list).
Proof.
  split; [| split; [| split]].
  - intros s patientID H. now apply GetLatestReading_unauthenticated.
  - apply Login_error_keeps_client.
  - reflexivity.
  - intros ns rd y body Hm Hu.
    destruct (PostGlucoseReading_posts ns rd y body Hm Hu)
      as (req & Hmeth & _ & _ & _ & Htr & _).
    exists req. split; [exact Hmeth |].
    rewrite Htr, networkCalls_app. reflexivity.
Qed.

End NoSession.

Lemma no_session_operations_example :
  GetLatestReading "P1" (Scripted.start [Scripted.ok "graph-sample"] GoTime.zero)
  = (Done (None, Some (Errorf "not authenticated, call Login() first" [])),
     Scripted.start [Scripted.ok "graph-sample"] GoTime.zero).
Proof.
  apply (proj1 no_session_operations). reflexivity.
Defined.

(** Posting with a client that never logged in: the reading is sent and the
    call returns without error. *)
Lemma PostGlucoseReading_without_session :
  authToken (client (Scripted.start [Scripted.ok ""] GoTime.zero)) = "" /\
  fst (PostGlucoseReading Scripted.nsClient (Some Scripted.sampleReading)
         (sys (Scripted.start [Scripted.ok ""] GoTime.zero)))
  = Done None /\
  networkCalls
    (trace (snd (PostGlucoseReading Scripted.nsClient (Some Scripted.sampleReading)
                   (sys (Scripted.start [Scripted.ok ""] GoTime.zero)))))
  = [EvHTTP
       (mkRequest "POST" "http://nightscout:1337/api/v1/entries"
          [("Content-Type", "application/json"); ("Api-Secret", "s3cret");
           ("X-Forwarded-Proto", "https")]
          (Some "2024-11-19T15:14:29Z"))].
Proof. repeat split. Qed.

(** ** The two times of an entry *)

Lemma wrap64_id (z : Z) : - 2 ^ 63 <= z < 2 ^ 63 -> GoTime.wrap64 z = z.
Proof.
  intros H. unfold GoTime.wrap64. rewrite Z.mod_small; lia.
Qed.

Lemma UnixMilli_exact (t : GoTime.Time) :
  GoTime.valid t -> GoTime.milliRepresentable t ->
  GoTime.UnixMilli t = GoTime.unixSec t * 1000 + GoTime.nsec t / 1000000.
Proof.
  unfold GoTime.valid, GoTime.milliRepresentable, GoTime.UnixMilli.
  intros Hv [Hlo Hhi].
  rewrite Z.quot_div_nonneg by lia.
  assert (0 <= GoTime.nsec t / 1000000 < 1000).
  { split; [apply Z.div_pos; lia | apply Z.div_lt_upper_bound; lia]. }
  rewrite (wrap64_id (GoTime.unixSec t * 1000)) by lia.
  apply wrap64_id. lia.
Qed.

(** Converting milliseconds back gives the instant they count, in the local
    zone. *)
Lemma FromUnixMilli_exact (msec : Z) :
  - 2 ^ 63 <= msec < 2 ^ 63 ->
  GoTime.FromUnixMilli msec
  = GoTime.mkTime (msec / 1000) (msec mod 1000 * 1000000) GoTime.Local.
Proof.
  intros H. unfold GoTime.FromUnixMilli, GoTime.Unix.
  pose proof (Z.quot_rem' msec 1000) as Hqr.
  pose proof (Z.div_mod msec 1000 ltac:(lia)) as Hdm.
  pose proof (Z.mod_pos_bound msec 1000 ltac:(lia)) as Hmb.
  destruct (Z_lt_le_dec msec 0) as [Hneg | Hpos].
  - pose proof (Z.rem_bound_pos_neg msec 1000 ltac:(lia) ltac:(lia)) as Hr.
    destruct (Z.eq_dec (Z.rem msec 1000) 0) as [E0 | N0].
    + rewrite E0. simpl. rewrite E0 in Hqr.
      assert (msec / 1000 = Z.quot msec 1000 /\ msec mod 1000 = 0) as [-> ->];
        [lia | reflexivity].
    + replace (Z.rem msec 1000 * 1000000 <? 0) with true
        by (symmetry; apply Z.ltb_lt; lia).
      cbn [orb].
      assert (Z.quot (Z.rem msec 1000 * 1000000) 1000000000 = 0) as ->.
      { apply Z.quot_small_iff; lia. }
      rewrite Z.add_0_r, Z.mul_0_l, Z.sub_0_r.
      replace (Z.rem msec 1000 * 1000000 <? 0) with true
        by (symmetry; apply Z.ltb_lt; lia).
      rewrite (wrap64_id (Z.quot msec 1000)) by lia.
      rewrite wrap64_id by lia.
      assert (msec / 1000 = Z.quot msec 1000 - 1
              /\ msec mod 1000 = Z.rem msec 1000 + 1000) as [-> ->]; [lia |].
      f_equal. ring.
  - pose proof (Z.rem_bound_pos msec 1000 ltac:(lia) ltac:(lia)) as Hr.
    replace (Z.rem msec 1000 * 1000000 <? 0) with false
      by (symmetry; apply Z.ltb_ge; lia).
    replace (1000000000 <=? Z.rem msec 1000 * 1000000) with false
      by (symmetry; apply Z.leb_gt; lia).
    cbn [orb].
    assert (msec / 1000 = Z.quot msec 1000 /\ msec mod 1000 = Z.rem msec 1000)
      as [-> ->]; [lia | reflexivity].
Qed.

(** *** Reading the text back *)

Lemma allFrom_spec (count : nat) (z0 : Z) (p : Z -> bool) :
  allFrom count z0 p = true ->
  forall z : Z, z0 <= z < z0 + Z.of_nat count -> p z = true.
Proof.
  revert z0. induction count as [| k IH]; intros z0 H z Hz; [lia |].
  cbn [allFrom] in H. apply andb_true_iff in H. destruct H as [H0 H1].
  destruct (Z.eq_dec z z0) as [-> | N]; [exact H0 |].
  apply (IH (z0 + 1) H1). lia.
Qed.

Lemma allBelow_spec (n : Z) (p : Z -> bool) :
  allBelow n p = true -> forall z : Z, 0 <= z < n -> p z = true.
Proof.
  intros H z Hz. apply (allFrom_spec _ 0 p H). lia.
Qed.

Lemma number_app (n : nat) (acc : Z) (s rest r : string) (v : Z) :
  RFC3339Text.number n acc s = Some (v, r) ->
  RFC3339Text.number n acc (s ++ rest) = Some (v, r ++ rest).
Proof.
  revert acc s. induction n as [| n IH]; intros acc s; simpl.
  - intros E. now injection E as <- <-.
  - destruct s as [| a s]; [discriminate |]. simpl.
    destruct (RFC3339Text.digitValue a); [apply IH | discriminate].
Qed.

Lemma readsBack_spec (width : nat) (x : Z) (rest : string) :
  readsBack width x = true ->
  RFC3339Text.number width 0 (GoTime.appendInt x width ++ rest) = Some (x, rest).
Proof.
  unfold readsBack. intros H.
  destruct (RFC3339Text.number width 0 (GoTime.appendInt x width))
    as [[v r] |] eqn:E; [| discriminate].
  destruct r; [| discriminate]. apply Z.eqb_eq in H. subst v.
  now rewrite (number_app _ _ _ rest _ _ E).
Qed.

Lemma two_digits (x : Z) (rest : string) :
  0 <= x < 100 ->
  RFC3339Text.number 2 0 (GoTime.appendInt x 2 ++ rest) = Some (x, rest).
Proof.
  intros H. apply readsBack_spec.
  apply (allBelow_spec 100 (readsBack 2)); [vm_compute; reflexivity | lia].
Qed.

Lemma four_digits (x : Z) (rest : string) :
  0 <= x < 10000 ->
  RFC3339Text.number 4 0 (GoTime.appendInt x 4 ++ rest) = Some (x, rest).
Proof.
  intros H. apply readsBack_spec.
  apply (allBelow_spec 10000 (readsBack 4)); [vm_compute; reflexivity | lia].
Qed.

Lemma cycleDayOk_all (doe : Z) : 0 <= doe < 146097 -> cycleDayOk doe = true.
Proof.
  intros H. apply (allBelow_spec 146097 cycleDayOk); [vm_compute; reflexivity | lia].
Qed.

(** The calendar repeats every 400 years, 146097 days. *)
Lemma civil_period (d0 k : Z) :
  GoTime.civil (d0 + 146097 * k)
  = let '(y, m, d) := GoTime.civil d0 in (y + 400 * k, m, d).
Proof.
  assert (Hera : (d0 + 146097 * k + 719468) / 146097 = (d0 + 719468) / 146097 + k).
  { replace (d0 + 146097 * k + 719468) with (d0 + 719468 + k * 146097) by ring.
    apply Z.div_add. lia. }
  unfold GoTime.civil. cbv zeta. rewrite Hera.
  replace (d0 + 146097 * k + 719468 - ((d0 + 719468) / 146097 + k) * 146097)
    with (d0 + 719468 - (d0 + 719468) / 146097 * 146097) by ring.
  f_equal. f_equal. ring.
Qed.

Lemma daysFromCivil_period (y m d k : Z) :
  RFC3339Text.daysFromCivil (y + 400 * k) m d
  = RFC3339Text.daysFromCivil y m d + 146097 * k.
Proof.
  unfold RFC3339Text.daysFromCivil. cbv zeta.
  set (y1 := if m <=? 2 then y - 1 else y).
  replace (if m <=? 2 then y + 400 * k - 1 else y + 400 * k) with (y1 + k * 400)
    by (unfold y1; destruct (m <=? 2); ring).
  rewrite Z.div_add by lia.
  replace (y1 + k * 400 - (y1 / 400 + k) * 400) with (y1 - y1 / 400 * 400) by ring.
  ring.
Qed.

(** The date of a day, and the day of that date. *)
Lemma civil_daysFromCivil (days : Z) :
  let '(y, m, d) := GoTime.civil days in
  RFC3339Text.daysFromCivil y m d = days /\ 1 <= m <= 12 /\ 1 <= d <= 31 /\
  (- 719528 <= days <= 2932896 -> 0 <= y <= 9999).
Proof.
  set (era := (days + 719468) / 146097).
  set (doe := (days + 719468) mod 146097).
  assert (Hdoe : 0 <= doe < 146097) by (apply Z.mod_pos_bound; lia).
  assert (Hdays : days = doe - 719468 + 146097 * era).
  { pose proof (Z.div_mod (days + 719468) 146097 ltac:(lia)). unfold doe, era. lia. }
  replace (GoTime.civil days) with (GoTime.civil (doe - 719468 + 146097 * era))
    by (now rewrite <- Hdays).
  rewrite civil_period.
  pose proof (cycleDayOk_all doe Hdoe) as C. unfold cycleDayOk in C.
  destruct (GoTime.civil (doe - 719468)) as [[y m] d].
  rewrite !andb_true_iff in C.
  destruct C as [[[[[[[C1 C2] C3] C4] C5] C6] C7] C8].
  apply Z.eqb_eq in C1. apply Z.leb_le in C2, C3, C4, C5, C6, C7.
  rewrite daysFromCivil_period, C1.
  split; [lia |]. split; [lia |]. split; [lia |].
  intros R.
  assert (- 1 <= era < 25).
  { unfold era. split.
    - apply Z.div_le_lower_bound; lia.
    - apply Z.div_lt_upper_bound; lia. }
  destruct (Z.leb_spec doe 146036) as [L | L].
  - apply Z.leb_le in C8. lia.
  - apply Z.eqb_eq in C8. lia.
Qed.

Lemma formatZone_offsetOf (off : Z) :
  off mod 60 = 0 -> - 360000 < off < 360000 ->
  RFC3339Text.offsetOf (GoTime.formatZone off) = Some off.
Proof.
  intros Hm Hr. unfold GoTime.formatZone.
  destruct (Z.eqb_spec off 0) as [-> | N]; [reflexivity |].
  set (zone := Z.quot off 60).
  assert (Hz : off = 60 * zone).
  { unfold zone. pose proof (Z.quot_rem' off 60) as Q.
    assert (Z.rem off 60 = 0); [| lia].
    apply Z.rem_divide; [lia |]. apply Z.mod_divide; [lia | exact Hm]. }
  assert (Ha : 0 <= Z.abs zone < 6000) by lia.
  assert (Hh : 0 <= Z.quot (Z.abs zone) 60 < 100).
  { rewrite Z.quot_div_nonneg by lia. split.
    - apply Z.div_pos; lia.
    - apply Z.div_lt_upper_bound; lia. }
  assert (Hmm : 0 <= Z.rem (Z.abs zone) 60 < 100).
  { pose proof (Z.rem_bound_pos (Z.abs zone) 60 ltac:(lia) ltac:(lia)). lia. }
  assert (Hsum : Z.quot (Z.abs zone) 60 * 3600 + Z.rem (Z.abs zone) 60 * 60
                 = Z.abs zone * 60).
  { pose proof (Z.quot_rem' (Z.abs zone) 60). lia. }
  assert (HM : RFC3339Text.hoursMinutes
                 (GoTime.appendInt (Z.quot (Z.abs zone) 60) 2 ++ ":" ++
                  GoTime.appendInt (Z.rem (Z.abs zone) 60) 2)
               = Some (Z.abs zone * 60)).
  { unfold RFC3339Text.hoursMinutes. rewrite (two_digits _ _ Hh).
    cbn [append RFC3339Text.expect Ascii.eqb Bool.eqb].
    replace (GoTime.appendInt (Z.rem (Z.abs zone) 60) 2)
      with (GoTime.appendInt (Z.rem (Z.abs zone) 60) 2 ++ "")
      by (clear; induction (GoTime.appendInt _ _); simpl; congruence).
    rewrite (two_digits _ _ Hmm). now rewrite Hsum. }
  cbn [append] in HM.
  destruct (Z.ltb_spec zone 0) as [Neg | Pos];
    cbn [append RFC3339Text.offsetOf Ascii.eqb Bool.eqb]; rewrite HM;
    cbn [option_map]; f_equal; lia.
Qed.

(** Reading back what [Format(time.RFC3339)] wrote. *)
Lemma renderRFC3339_instantOf (sec off : Z) :
  off mod 60 = 0 -> - 360000 < off < 360000 ->
  - 62167219200 <= sec + off < 253402300800 ->
  RFC3339Text.instantOf (GoTime.renderRFC3339 sec off) = Some sec.
Proof.
  intros Hm Ho Hr. unfold GoTime.renderRFC3339, GoTime.absSeconds. cbv zeta.
  rewrite (Z.mod_small (sec + off + GoTime.unixToAbsolute))
    by (unfold GoTime.unixToAbsolute; lia).
  replace (sec + off + GoTime.unixToAbsolute - GoTime.unixToAbsolute)
    with (sec + off) by ring.
  set (abs := sec + off).
  pose proof (civil_daysFromCivil (abs / 86400)) as C.
  destruct (GoTime.civil (abs / 86400)) as [[y m] d].
  destruct C as (Cd & Cm & Cday & Cy).
  assert (Hy : 0 <= y <= 9999).
  { apply Cy. split.
    - apply Z.div_le_lower_bound; unfold abs; lia.
    - assert (abs / 86400 < 2932897); [| lia].
      apply Z.div_lt_upper_bound; unfold abs; lia. }
  set (s := abs mod 86400).
  assert (Hs : 0 <= s < 86400) by (apply Z.mod_pos_bound; lia).
  assert (Hh : 0 <= s / 3600 < 100).
  { split; [apply Z.div_pos; lia | apply Z.div_lt_upper_bound; lia]. }
  assert (Hmi : 0 <= s mod 3600 / 60 < 100).
  { pose proof (Z.mod_pos_bound s 3600 ltac:(lia)).
    split; [apply Z.div_pos; lia | apply Z.div_lt_upper_bound; lia]. }
  assert (Hse : 0 <= s mod 60 < 100).
  { pose proof (Z.mod_pos_bound s 60 ltac:(lia)). lia. }
  unfold RFC3339Text.instantOf, RFC3339Text.field.
  rewrite four_digits by lia. cbn [append RFC3339Text.expect Ascii.eqb Bool.eqb].
  rewrite two_digits by lia. cbn [append RFC3339Text.expect Ascii.eqb Bool.eqb].
  rewrite two_digits by lia. cbn [append RFC3339Text.expect Ascii.eqb Bool.eqb].
  rewrite two_digits by lia. cbn [append RFC3339Text.expect Ascii.eqb Bool.eqb].
  rewrite two_digits by lia. cbn [append RFC3339Text.expect Ascii.eqb Bool.eqb].
  rewrite two_digits by lia.
  rewrite (formatZone_offsetOf off Hm Ho). f_equal. rewrite Cd.
  pose proof (Z.div_mod abs 86400 ltac:(lia)) as D1. fold s in D1.
  pose proof (Z.div_mod s 3600 ltac:(lia)) as D2.
  pose proof (Z.div_mod (s mod 3600) 60 ltac:(lia)) as D3.
  assert (D4 : (s mod 3600) mod 60 = s mod 60).
  { clear. Z.div_mod_to_equations. lia. }
  unfold abs in *. lia.
Qed.

Section EntryTimes.
Context {RT : Runtime}.


End EntryTimes.



(** ** One sync cycle *)

Lemma bind_run {S A B : Type} (m : M S A) (k : A -> M S B) (s s1 : S) (a : A) :
  m s = (Done a, s1) -> bind m k s = k a s1.
Proof. intros H. unfold bind. rewrite H. reflexivity. Qed.

Section Cycle.
Context {RT : Runtime} {JL : Librelink.JSON} {JN : Nightscout.JSON}.

Import Main.

(** The end of a cycle, from the call of [PostGlucoseReading] on. *)
Lemma cycle_end (ns : Nightscout.Client) (c : Librelink.Client)
    (reading : GlucoseReading) (y : Sys) :
  let r :=
    (perr <- onSys (PostGlucoseReading ns (Some reading)) ;;
     match perr with
     | Some e => ret (Some e)
     | None =>
         onSys (LogPrintf "Successfully posted glucose data to Nightscout" []) ;;
         ret None
     end) (mkState c y) in
  fst r = fst (PostGlucoseReading ns (Some reading) y) /\
  (exists tail : list Event,
     trace (sys (snd r))
     = (trace (snd (PostGlucoseReading ns (Some reading) y)) ++ tail)%list) /\
  (forall body : string,
     marshalEntries [newEntry reading] = inl body ->
     urlParseError (entriesURL (Nightscout.baseURL ns)) = None ->
     exists req : Request,
       Method req = "POST" /\
       URL req = entriesURL (Nightscout.baseURL ns) /\
       ReqBody req = Some body /\
       List.In (EvHTTP req) (trace (sys (snd r)))).
Proof.
  intros r.
  assert (Hposts : forall body : string,
            marshalEntries [newEntry reading] = inl body ->
            urlParseError (entriesURL (Nightscout.baseURL ns)) = None ->
            exists req : Request,
              Method req = "POST" /\
              URL req = entriesURL (Nightscout.baseURL ns) /\
              ReqBody req = Some body /\
              List.In (EvHTTP req)
                (trace (snd (PostGlucoseReading ns (Some reading) y)))).
  { intros body Hm Hu.
    destruct (PostGlucoseReading_posts ns reading y body Hm Hu)
      as (req & H1 & H2 & H3 & _ & Htr & _).
    exists req. repeat split; try assumption.
    rewrite Htr. apply in_or_app. right. simpl. tauto. }
  destruct (PostGlucoseReading_returns ns (Some reading) y) as [perr Hp].
  destruct (PostGlucoseReading ns (Some reading) y) as [o yf] eqn:HP.
  cbn [fst snd] in *. subst o.
  assert (Hr : r =
            match perr with
            | Some e => (Done (Some e), mkState c yf)
            | None =>
                (Done None,
                 mkState c
                   (mkSys (world yf)
                      (trace yf ++
                       [EvLog "Successfully posted glucose data to Nightscout" []])))
            end).
  { subst r. unfold bind, onSys, ret, LogPrintf, emit. cbn [sys client].
    rewrite HP. destruct perr; reflexivity. }
  rewrite Hr. clear Hr.
  destruct perr as [e |]; cbn [fst snd sys trace].
  - split; [reflexivity |]. split.
    + exists []. now rewrite app_nil_r.
    + exact Hposts.
  - split; [reflexivity |]. split.
    + eexists. reflexivity.
    + intros body Hm Hu.
      destruct (Hposts body Hm Hu) as (req & H1 & H2 & H3 & H4).
      exists req. repeat split; try assumption.
      apply in_or_app. now left.
Qed.

(** C8. In a cycle that logs in, finds a connection and fetches a reading,
    [PostGlucoseReading] is called with that reading whatever its age, and
    its result is the result of the cycle; between the fetch and the post
    only log lines are written, among them the staleness warning when the
    reading is more than 15 minutes old; when the entry marshals and the URL
    parses, the POST of the entry is on the trace of the cycle. *)
Theorem stale_reading_still_posted (ns : Nightscout.Client)
    (s s1 s2 s3 : State) (first : Connection) (rest : list Connection)
    (reading : GlucoseReading) :
  let s0 := snd (onSys (LogPrintf "Fetching glucose data from LibreLink Up..." []) s) in
  Login s0 = (Done None, s1) ->
  GetConnections s1 = (Done (first :: rest, None), s2) ->
  GetLatestReading (PatientID first) s2 = (Done (Some reading, None), s3) ->
  exists y : Sys,
    quietExtension (trace (sys s3)) (trace y) /\
    fst (syncGlucoseData ns s) = fst (PostGlucoseReading ns (Some reading) y) /\
    (exists tail : list Event,
       trace (sys (snd (syncGlucoseData ns s)))
       = (trace (snd (PostGlucoseReading ns (Some reading) y)) ++ tail)%list) /\
    (staleAfter < GoTime.Sub (fst (timeNow (world (sys s3)))) (Timestamp reading) ->
     exists age : Z,
       List.In (EvLog "Warning: Reading is %v old, may be stale" [ADuration age])
         (trace y)) /\
    (forall body : string,
       marshalEntries [newEntry reading] = inl body ->
       urlParseError (entriesURL (Nightscout.baseURL ns)) = None ->
       exists req : Request,
         Method req = "POST" /\
         URL req = entriesURL (Nightscout.baseURL ns) /\
         ReqBody req = Some body /\
         List.In (EvHTTP req) (trace (sys (snd (syncGlucoseData ns s))))).
Proof.
  intros s0 HL HC HR.
  unfold syncGlucoseData.
  rewrite (bind_run _ _ s s0 tt) by reflexivity.
  rewrite (bind_run _ _ s0 s1 None HL).
  rewrite (bind_run _ _ s1 s2 _ HC).
  rewrite (bind_run _ _ s2 s3 _ HR).
  erewrite (bind_run _ _ s3) by reflexivity.
  destruct (timeNow (world (sys s3))) as [n1 w1] eqn:Hnow.
  assert (HS : forall tr : list Event,
            onSys (Since (Timestamp reading))
              (mkState (client s3) (mkSys (world (sys s3)) tr))
            = (Done (GoTime.Sub n1 (Timestamp reading)),
               mkState (client s3) (mkSys w1 tr))).
  { intros tr. unfold onSys, Since, Now, bind, ret. cbn [sys world client trace].
    rewrite Hnow. reflexivity. }
  rewrite (bind_run _ _ _ _ _ (HS _)).
  cbn [fst].
  destruct (staleAfter <? GoTime.Sub n1 (Timestamp reading)) eqn:Hstale.
  - destruct (timeNow w1) as [n2 w2] eqn:Hnow2.
    erewrite (bind_run _ _ (mkState (client s3) (mkSys w1 _))
                (mkState (client s3)
                   (mkSys w2
                      (trace (sys s3) ++
                       [EvLog "Glucose reading: %.1f %s (Trend: %s) at %s"
                          [AFloat (Value reading); AStr (Unit reading);
                           AStr (TrendArrow reading);
                           AStr (GoTime.FormatRFC3339 tz (Timestamp reading))];
                        EvLog "Warning: Reading is %v old, may be stale"
                          [ADuration (GoTime.Sub n2 (Timestamp reading))]])))
                tt).
    2:{ unfold onSys, Since, Now, bind, ret, LogPrintf, emit.
        cbn [sys world client trace]. rewrite Hnow2.
        cbn [sys world client trace]. rewrite <- app_assoc. reflexivity. }
    eexists. split; [| split; [| split; [| split]]].
    2: apply cycle_end. 2: apply cycle_end. 3: apply cycle_end.
    + eexists. split; [reflexivity | reflexivity].
    + intros _. exists (GoTime.Sub n2 (Timestamp reading)).
      cbn [trace]. apply in_or_app. right. simpl. tauto.
  - erewrite (bind_run _ _ (mkState (client s3) (mkSys w1 _))) by reflexivity.
    eexists. split; [| split; [| split; [| split]]].
    2: apply cycle_end. 2: apply cycle_end. 3: apply cycle_end.
    + eexists. split; [reflexivity | reflexivity].
    + intros Hlt. apply Z.ltb_lt in Hlt. congruence.
Qed.

End Cycle.

Lemma stale_reading_still_posted_example :
  let now := GoTime.mkTime (Scripted.sampleInstant + 3600) 0 GoTime.Local in
  let s := Scripted.start
             [Scripted.ok "login-ok"; Scripted.ok "connections-P1";
              Scripted.ok "graph-sample"; Scripted.ok ""] now in
  Main.staleAfter < GoTime.Sub now (Timestamp Scripted.sampleReading) /\
  exists req : Request,
    Method req = "POST" /\
    URL req = "http://nightscout:1337/api/v1/entries" /\
    ReqBody req = Some "2024-11-19T15:14:29Z" /\
    List.In (EvHTTP req) (trace (sys (snd (Main.syncGlucoseData Scripted.nsClient s)))).
Proof.
  intros now s. split; [reflexivity |].
  set (s0 := snd (onSys (LogPrintf "Fetching glucose data from LibreLink Up..." []) s)).
  set (s1 := snd (Login s0)).
  set (s2 := snd (GetConnections s1)).
  set (s3 := snd (GetLatestReading "P1" s2)).
  assert (H1 : Login s0 = (Done None, s1)) by (vm_compute; reflexivity).
  assert (H2 : GetConnections s1 = (Done ([mkConnection "P1" "Pat" "Doe" 0], None), s2))
    by (vm_compute; reflexivity).
  assert (H3 : GetLatestReading "P1" s2 = (Done (Some Scripted.sampleReading, None), s3))
    by (vm_compute; reflexivity).
  destruct (stale_reading_still_posted Scripted.nsClient s s1 s2 s3
              (mkConnection "P1" "Pat" "Doe" 0) [] Scripted.sampleReading H1 H2 H3)
    as (y & _ & _ & _ & _ & Hpost).
  apply (Hpost "2024-11-19T15:14:29Z"); reflexivity.
Defined.

(** End-to-end scenario: the reading fetched in the scripted cycle and the
    entry built from it. *)
Example scenario_entry :
  newEntry Scripted.sampleReading
  = mkEntry "sgv" 118%float "Flat" "nightscout-librelink-up-go"
      1732029269000 "2024-11-19T15:14:29Z".
Proof. vm_compute. reflexivity. Qed.

Example scenario_reading :
  fst (GetLatestReading "P1"
         (mkState sessionClient (Scripted.system [Scripted.ok "graph-sample"] GoTime.zero)))
  = Done (Some Scripted.sampleReading, None).
Proof. vm_compute. reflexivity. Qed.

(** * Further properties of the code *)

(** ** Configuration *)

Lemma eqb_empty_false (s : string) : (s =? "")%string = false <-> s <> "".
Proof. apply String.eqb_neq. Qed.

Lemma Validate_None_iff (c : Config.Config) :
  Config.Validate c = None <->
  Config.LinkUpUsername c <> "" /\ Config.LinkUpPassword c <> "" /\
  Config.NightscoutURL c <> "" /\ Config.NightscoutAPIToken c <> "" /\
  1 <= Config.LinkUpTimeInterval c.
Proof.
  unfold Config.Validate.
  destruct (String.eqb_spec (Config.LinkUpUsername c) "") as [U | U];
    [split; [discriminate | tauto] |].
  destruct (String.eqb_spec (Config.LinkUpPassword c) "") as [P | P];
    [split; [discriminate | tauto] |].
  destruct (String.eqb_spec (Config.NightscoutURL c) "") as [N | N];
    [split; [discriminate | tauto] |].
  destruct (String.eqb_spec (Config.NightscoutAPIToken c) "") as [T | T];
    [split; [discriminate | tauto] |].
  destruct (Z.ltb_spec (Config.LinkUpTimeInterval c) 1) as [I | I];
    [split; [discriminate | intros; lia] | split; [intros; auto | reflexivity]].
Qed.

(** X1. [Validate] accepts a configuration exactly when the two credentials,
    the Nightscout URL and the Nightscout token are not empty and the
    interval is at least 1; the region is not looked at.  Of several missing
    settings it reports the first in the order username, password, URL,
    token, interval. *)
Theorem Validate_accepts_iff (c : Config.Config) :
  (Config.Validate c = None <->
   Config.LinkUpUsername c <> "" /\ Config.LinkUpPassword c <> "" /\
   Config.NightscoutURL c <> "" /\ Config.NightscoutAPIToken c <> "" /\
   1 <= Config.LinkUpTimeInterval c) /\
  (Config.LinkUpUsername c = "" ->
   Config.Validate c = Some (Errorf "LINK_UP_USERNAME is required" [])) /\
  (Config.LinkUpUsername c <> "" -> Config.LinkUpPassword c = "" ->
   Config.Validate c = Some (Errorf "LINK_UP_PASSWORD is required" [])) /\
  (Config.LinkUpUsername c <> "" -> Config.LinkUpPassword c <> "" ->
   Config.NightscoutURL c = "" ->
   Config.Validate c = Some (Errorf "NIGHTSCOUT_URL is required" [])) /\
  (Config.LinkUpUsername c <> "" -> Config.LinkUpPassword c <> "" ->
   Config.NightscoutURL c <> "" -> Config.NightscoutAPIToken c = "" ->
   Config.Validate c = Some (Errorf "NIGHTSCOUT_API_TOKEN is required" [])) /\
  (Config.LinkUpUsername c <> "" -> Config.LinkUpPassword c <> "" ->
   Config.NightscoutURL c <> "" -> Config.NightscoutAPIToken c <> "" ->
   Config.LinkUpTimeInterval c < 1 ->
   Config.Validate c
   = Some (Errorf "LINK_UP_TIME_INTERVAL must be at least 1 minute" [])).
Proof.
  unfold Config.Validate.
  destruct (String.eqb_spec (Config.LinkUpUsername c) "") as [U | U];
  destruct (String.eqb_spec (Config.LinkUpPassword c) "") as [P | P];
  destruct (String.eqb_spec (Config.NightscoutURL c) "") as [N | N];
  destruct (String.eqb_spec (Config.NightscoutAPIToken c) "") as [T | T];
  destruct (Z.ltb_spec (Config.LinkUpTimeInterval c) 1) as [I | I];
  repeat split; intros; try reflexivity; try discriminate; try tauto; try lia.
Qed.

Lemma Validate_accepts_iff_example :
  Config.Validate (Config.mkConfig "user@example.com" "secret" "XX" 5
                     "nightscout:1337" "s3cret") = None /\
  Config.Validate (Config.mkConfig "user@example.com" "" "EU" 0 "" "")
  = Some (Errorf "LINK_UP_PASSWORD is required" []).
Proof.
  split.
  - apply (Validate_accepts_iff
             (Config.mkConfig "user@example.com" "secret" "XX" 5
                "nightscout:1337" "s3cret")).
    simpl. repeat split; try discriminate; lia.
  - apply (Validate_accepts_iff
             (Config.mkConfig "user@example.com" "" "EU" 0 "" "")).
    + discriminate.
    + reflexivity.
Defined.

Section ConfigProperties.
Context {O : Config.OS}.

Lemma getEnvOrDefault_cases (key defaultValue : string) :
  (Config.Getenv key = "" /\ Config.getEnvOrDefault key defaultValue = defaultValue) \/
  (Config.Getenv key <> "" /\ Config.getEnvOrDefault key defaultValue = Config.Getenv key).
Proof.
  unfold Config.getEnvOrDefault.
  destruct (String.eqb_spec (Config.Getenv key) "") as [E | E]; simpl; auto.
Qed.

(** X2. [LoadConfig] fails only when the interval does not parse, and then
    returns no configuration; a missing required variable is no error
    here.  A variable that is unset or empty takes its default: region EU,
    interval parsed from the numeral 1, the empty string for the rest.  A
    loaded configuration passes [Validate] exactly when the four required
    variables are set and not empty and the parsed interval is at least 1. *)
Theorem LoadConfig_then_Validate :
  (forall e : error,
     Config.Atoi (Config.getEnvOrDefault "LINK_UP_TIME_INTERVAL" "1") = inr e ->
     Config.LoadConfig
     = (None, Some (Errorf "invalid LINK_UP_TIME_INTERVAL: %v" [AErr e]))) /\
  (forall n : Z,
     Config.Atoi (Config.getEnvOrDefault "LINK_UP_TIME_INTERVAL" "1") = inl n ->
     exists cfg : Config.Config,
       Config.LoadConfig = (Some cfg, None) /\
       Config.LinkUpTimeInterval cfg = n /\
       (Config.Getenv "LINK_UP_REGION" = "" -> Config.LinkUpRegion cfg = "EU") /\
       (Config.Getenv "LINK_UP_REGION" <> "" ->
        Config.LinkUpRegion cfg = Config.Getenv "LINK_UP_REGION") /\
       Config.LinkUpUsername cfg = Config.Getenv "LINK_UP_USERNAME" /\
       Config.LinkUpPassword cfg = Config.Getenv "LINK_UP_PASSWORD" /\
       Config.NightscoutURL cfg = Config.Getenv "NIGHTSCOUT_URL" /\
       Config.NightscoutAPIToken cfg = Config.Getenv "NIGHTSCOUT_API_TOKEN" /\
       (Config.Validate cfg = None <->
        Config.Getenv "LINK_UP_USERNAME" <> "" /\
        Config.Getenv "LINK_UP_PASSWORD" <> "" /\
        Config.Getenv "NIGHTSCOUT_URL" <> "" /\
        Config.Getenv "NIGHTSCOUT_API_TOKEN" <> "" /\
        1 <= n)) /\
  (Config.Getenv "LINK_UP_TIME_INTERVAL" = "" ->
   Config.getEnvOrDefault "LINK_UP_TIME_INTERVAL" "1" = "1").
Proof.
  split; [| split].
  - intros e H. unfold Config.LoadConfig. rewrite H. reflexivity.
  - intros n H. unfold Config.LoadConfig. rewrite H.
    eexists. split; [reflexivity |]. cbn [Config.LinkUpTimeInterval
      Config.LinkUpRegion Config.LinkUpUsername Config.LinkUpPassword
      Config.NightscoutURL Config.NightscoutAPIToken].
    assert (D : forall key, Config.getEnvOrDefault key "" = Config.Getenv key).
    { intros key. destruct (getEnvOrDefault_cases key "") as [[E ->] | [_ ->]];
        [now rewrite E | reflexivity]. }
    split; [reflexivity |].
    split.
    { intros E. destruct (getEnvOrDefault_cases "LINK_UP_REGION" "EU")
        as [[_ ->] | [N _]]; [reflexivity | contradiction]. }
    split.
    { intros N. destruct (getEnvOrDefault_cases "LINK_UP_REGION" "EU")
        as [[E _] | [_ ->]]; [contradiction | reflexivity]. }
    repeat (split; [apply D |]).
    rewrite !D. exact (Validate_None_iff _).
  - intros E. destruct (getEnvOrDefault_cases "LINK_UP_TIME_INTERVAL" "1")
      as [[_ ->] | [N _]]; [reflexivity | contradiction].
Qed.

End ConfigProperties.

Lemma LoadConfig_then_Validate_example :
  let env := ScriptedOS.os
               [ ("LINK_UP_USERNAME", "user@example.com");
                 ("LINK_UP_PASSWORD", "secret");
                 ("LINK_UP_REGION", "");
                 ("NIGHTSCOUT_URL", "nightscout:1337");
                 ("NIGHTSCOUT_API_TOKEN", "s3cret") ] in
  @Config.LoadConfig env
  = (Some (Config.mkConfig "user@example.com" "secret" "EU" 1
             "nightscout:1337" "s3cret"), None) /\
  @Config.LoadConfig (ScriptedOS.os [("LINK_UP_TIME_INTERVAL", "soon")])
  = (None, Some (Errorf "invalid LINK_UP_TIME_INTERVAL: %v"
                   [AErr (LibError "strconv.Atoi: invalid syntax")])).
Proof.
  intros env. split.
  - destruct (proj1 (proj2 (@LoadConfig_then_Validate env)) 1 eq_refl)
      as (cfg & L & _). rewrite L.
    injection L as <-. reflexivity.
  - apply (proj1 (@LoadConfig_then_Validate
                    (ScriptedOS.os [("LINK_UP_TIME_INTERVAL", "soon")]))).
    reflexivity.
Defined.

(** ** Headers *)

Lemma headerEntry_app (k : string) (h1 h2 : list (string * string)) :
  headerEntry k (h1 ++ h2) =
    match headerEntry k h1 with
    | Some v => Some v
    | None => headerEntry k h2
    end.
Proof.
  induction h1 as [| [k' v] h1 IH]; simpl; [reflexivity |].
  destruct (k' =? k)%string; [reflexivity | exact IH].
Qed.

Lemma headerEntry_filter (k k' : string) (h : list (string * string)) :
  headerEntry k' (filter (fun kv => negb (fst kv =? k)%string) h) =
    if (k' =? k)%string then None else headerEntry k' h.
Proof.
  induction h as [| [k0 v] h IH]; simpl.
  - destruct (k' =? k)%string; reflexivity.
  - destruct (String.eqb_spec k0 k) as [-> | Hk]; simpl.
    + rewrite IH. destruct (String.eqb_spec k' k) as [-> | Hk'].
      * reflexivity.
      * destruct (String.eqb_spec k k') as [E | _]; [congruence | reflexivity].
    + rewrite IH. destruct (String.eqb_spec k0 k') as [-> | Hk'].
      * destruct (String.eqb_spec k' k) as [E | _]; [congruence | reflexivity].
      * reflexivity.
Qed.

(** After [Set], the entry under the canonical key holds the value; the
    entries under other keys are as before. *)
Lemma headerEntry_HeaderSet (key k' value : string) (req : Request) :
  headerEntry k' (Header (HeaderSet key value req)) =
    if (k' =? CanonicalMIMEHeaderKey key)%string then Some value
    else headerEntry k' (Header req).
Proof.
  unfold HeaderSet. cbn [Header]. rewrite headerEntry_app, headerEntry_filter.
  destruct (String.eqb_spec k' (CanonicalMIMEHeaderKey key)) as [-> | N]; simpl.
  - now rewrite String.eqb_refl.
  - destruct (headerEntry k' (Header req)); [reflexivity |].
    destruct (String.eqb_spec (CanonicalMIMEHeaderKey key) k') as [E | _];
      [congruence | reflexivity].
Qed.

(** A header just set is read back under any spelling of its key, the
    others are as before. *)
Lemma HeaderGet_HeaderSet (key key' value : string) (req : Request) :
  HeaderGet key' (Header (HeaderSet key value req)) =
    if (CanonicalMIMEHeaderKey key' =? CanonicalMIMEHeaderKey key)%string
    then Some value else HeaderGet key' (Header req).
Proof. unfold HeaderGet. apply headerEntry_HeaderSet. Qed.

Section HeaderProperties.
Context {RT : Runtime}.

(** X3. [setHeaders] always sets the content type, the accepted type, the
    product and the version, replacing what the request held under these
    keys; it sets the [account-id] header, to the SHA-256 digest of the
    account id, exactly when the client has both an account id and a token.
    The keys are stored in canonical letter case ([Product], [Version],
    [Account-Id]) and read under any letter case.  Every entry under another
    key (so [Authorization]), the method, the URL and the body are as they
    were. *)
Theorem setHeaders_headers (c : Librelink.Client) (req : Request) :
  let h := Header (setHeaders c req) in
  HeaderGet "Content-Type" h = Some "application/json" /\
  HeaderGet "Accept" h = Some "application/json" /\
  HeaderGet "product" h = Some "llu.ios" /\
  HeaderGet "version" h = Some "4.17.0" /\
  headerEntry "Product" h = Some "llu.ios" /\
  headerEntry "Version" h = Some "4.17.0" /\
  (accountID c <> "" -> authToken c <> "" ->
   HeaderGet "account-id" h = Some (sha256hex (accountID c)) /\
   headerEntry "Account-Id" h = Some (sha256hex (accountID c))) /\
  (accountID c = "" \/ authToken c = "" ->
   headerEntry "Account-Id" h = headerEntry "Account-Id" (Header req)) /\
  (forall k : string, ~ List.In k sessionHeaderKeys ->
   headerEntry k h = headerEntry k (Header req)) /\
  (forall key : string, ~ List.In (CanonicalMIMEHeaderKey key) sessionHeaderKeys ->
   HeaderGet key h = HeaderGet key (Header req)) /\
  Method (setHeaders c req) = Method req /\
  URL (setHeaders c req) = URL req /\
  ReqBody (setHeaders c req) = ReqBody req.
Proof.
  intros h. subst h.
  assert (Other : forall k : string, ~ List.In k sessionHeaderKeys ->
            headerEntry k (Header (setHeaders c req)) = headerEntry k (Header req)).
  { intros k H. unfold sessionHeaderKeys in H. cbn [List.In] in H.
    assert (E1 : (k =? "Content-Type")%string = false)
      by (apply String.eqb_neq; intros ->; apply H; tauto).
    assert (E2 : (k =? "Accept")%string = false)
      by (apply String.eqb_neq; intros ->; apply H; tauto).
    assert (E3 : (k =? "Product")%string = false)
      by (apply String.eqb_neq; intros ->; apply H; tauto).
    assert (E4 : (k =? "Version")%string = false)
      by (apply String.eqb_neq; intros ->; apply H; tauto).
    assert (E5 : (k =? "Account-Id")%string = false)
      by (apply String.eqb_neq; intros ->; apply H; tauto).
    unfold setHeaders.
    destruct (negb (accountID c =? "")%string && negb (authToken c =? "")%string);
      rewrite ?headerEntry_HeaderSet;
      change (CanonicalMIMEHeaderKey "Content-Type") with "Content-Type";
      change (CanonicalMIMEHeaderKey "Accept") with "Accept";
      change (CanonicalMIMEHeaderKey "product") with "Product";
      change (CanonicalMIMEHeaderKey "version") with "Version";
      change (CanonicalMIMEHeaderKey "account-id") with "Account-Id";
      rewrite ?E1, ?E2, ?E3, ?E4, ?E5; reflexivity. }
  assert (Set_ : forall k : string,
            headerEntry k (Header (setHeaders c req)) =
              if (k =? "Account-Id")%string
                 && negb (accountID c =? "")%string && negb (authToken c =? "")%string
              then Some (sha256hex (accountID c))
              else if (k =? "Version")%string then Some appVersion
              else if (k =? "Product")%string then Some appProduct
              else if (k =? "Accept")%string then Some contentType
              else if (k =? "Content-Type")%string then Some contentType
              else headerEntry k (Header req)).
  { intros k. unfold setHeaders.
    destruct (negb (accountID c =? "")%string && negb (authToken c =? "")%string)
      eqn:E.
    - rewrite <- andb_assoc, E, andb_true_r. rewrite !headerEntry_HeaderSet.
      reflexivity.
    - rewrite <- andb_assoc, E, andb_false_r. rewrite !headerEntry_HeaderSet.
      reflexivity. }
  split; [unfold HeaderGet; rewrite Set_; reflexivity |].
  split; [unfold HeaderGet; rewrite Set_; reflexivity |].
  split; [unfold HeaderGet; rewrite Set_; reflexivity |].
  split; [unfold HeaderGet; rewrite Set_; reflexivity |].
  split; [rewrite Set_; reflexivity |].
  split; [rewrite Set_; reflexivity |].
  split.
  { intros A T. apply String.eqb_neq in A, T.
    unfold HeaderGet. rewrite !Set_, A, T. split; reflexivity. }
  split.
  { intros AT. rewrite Set_.
    destruct AT as [E | E]; rewrite E; cbn [String.eqb Ascii.eqb Bool.eqb negb andb];
      rewrite ?andb_false_r; reflexivity. }
  split; [exact Other |].
  split; [intros key H; unfold HeaderGet; now apply Other |].
  apply setHeaders_target.
Qed.

End HeaderProperties.

Lemma setHeaders_headers_example :
  HeaderGet "ACCOUNT-ID"
    (Header (setHeaders sessionClient
               (mkRequest "GET" "u" [("Account-Id", "raw"); ("Product", "old")] None)))
  = Some "sha256(ACC123)" /\
  headerEntry "Account-Id"
    (Header (setHeaders Scripted.freshClient
               (mkRequest "GET" "u" [("Account-Id", "raw")] None)))
  = Some "raw" /\
  HeaderGet "authorization"
    (Header (setHeaders sessionClient
               (mkRequest "GET" "u" [("Authorization", "Bearer x")] None)))
  = Some "Bearer x".
Proof.
  split; [| split].
  - destruct (setHeaders_headers sessionClient
                (mkRequest "GET" "u" [("Account-Id", "raw"); ("Product", "old")] None))
      as (_ & _ & _ & _ & _ & _ & H & _).
    apply H; discriminate.
  - destruct (setHeaders_headers Scripted.freshClient
                (mkRequest "GET" "u" [("Account-Id", "raw")] None))
      as (_ & _ & _ & _ & _ & _ & _ & H & _).
    apply H. left. reflexivity.
  - destruct (setHeaders_headers sessionClient
                (mkRequest "GET" "u" [("Authorization", "Bearer x")] None))
      as (_ & _ & _ & _ & _ & _ & _ & _ & _ & H & _).
    apply (H "authorization"). unfold sessionHeaderKeys. cbn.
    intros K; repeat (destruct K as [K | K]; [discriminate K |]); exact K.
Defined.

(** ** Creating the clients *)

Section NewClientProperties.
Context {RT : Runtime} {J : Librelink.JSON}.

(** X4. [NewClient] succeeds exactly for the region codes of the endpoint
    table, compared as written (so not for a lower-case code); the client
    has the base URL of the region, the credentials given, and no session,
    so that [GetConnections] and [GetLatestReading] on it fail as not
    authenticated without touching the system. *)
Theorem NewClient_regions (region user pass : string) :
  (forall url : string, List.In (region, url) endpoints ->
     Librelink.NewClient region user pass
     = inl (Librelink.mkClient url user pass "" "")) /\
  ((forall url : string, ~ List.In (region, url) endpoints) ->
   Librelink.NewClient region user pass
   = inr (Errorf "unsupported region: %s" [AStr region])) /\
  (forall c : Librelink.Client,
     Librelink.NewClient region user pass = inl c ->
     List.In (region, Librelink.baseURL c) endpoints /\
     username c = user /\ password c = pass /\
     authToken c = "" /\ accountID c = "" /\
     forall (y : Sys) (patientID : string),
       GetConnections (mkState c y)
       = (Done ([], Some (Errorf "not authenticated, call Login() first" [])),
          mkState c y) /\
       GetLatestReading patientID (mkState c y)
       = (Done (None, Some (Errorf "not authenticated, call Login() first" [])),
          mkState c y)).
Proof.
  split; [| split].
  - intros url H. unfold endpoints in H. simpl in H.
    repeat (destruct H as [H | H]; [injection H as <- <-; reflexivity |]).
    contradiction.
  - intros H. unfold Librelink.NewClient.
    destruct (find (fun kv => (fst kv =? region)%string) endpoints)
      as [[k v] |] eqn:F; [| reflexivity].
    apply find_some in F. destruct F as [Hin Hk]. simpl in Hk.
    apply String.eqb_eq in Hk. subst k. exfalso. exact (H v Hin).
  - intros c H. unfold Librelink.NewClient in H.
    destruct (find (fun kv => (fst kv =? region)%string) endpoints)
      as [[k v] |] eqn:F; [| discriminate].
    injection H as <-. apply find_some in F. destruct F as [Hin Hk].
    simpl in Hk. apply String.eqb_eq in Hk. subst k.
    cbn [Librelink.baseURL username password authToken accountID snd].
    split; [exact Hin |]. do 4 (split; [reflexivity |]).
    intros y patientID. split.
    + now apply GetConnections_unauthenticated.
    + now apply GetLatestReading_unauthenticated.
Qed.

End NewClientProperties.

Lemma NewClient_regions_example :
  Librelink.NewClient "EU2" "user@example.com" "secret"
  = inl (Librelink.mkClient "https://api-eu2.libreview.io" "user@example.com"
           "secret" "" "") /\
  Librelink.NewClient "eu" "user@example.com" "secret"
  = inr (Errorf "unsupported region: %s" [AStr "eu"]).
Proof.
  split.
  - apply (NewClient_regions "EU2" "user@example.com" "secret").
    unfold endpoints. simpl. tauto.
  - apply (NewClient_regions "eu" "user@example.com" "secret").
    intros url H. unfold endpoints in H. simpl in H.
    repeat (destruct H as [H | H]; [discriminate H |]). exact H.
Defined.

(** ** The base URL of the sink, continued *)

(** X5. The effective base URL always carries a scheme and ends with the
    configured base; normalising it again changes nothing. *)
Theorem effectiveBaseURL_idempotent (base : string) :
  hasScheme (effectiveBaseURL base) /\
  effectiveBaseURL (effectiveBaseURL base) = effectiveBaseURL base /\
  (effectiveBaseURL base = base \/
   effectiveBaseURL base = "http://" ++ base \/
   effectiveBaseURL base = "https://" ++ base).
Proof.
  assert (S : hasScheme (effectiveBaseURL base) /\
              (effectiveBaseURL base = base \/
               effectiveBaseURL base = "http://" ++ base \/
               effectiveBaseURL base = "https://" ++ base)).
  { destruct (GoStrings.HasPrefix base "http://") eqn:H1.
    - assert (Hs : hasScheme base) by (apply hasScheme_iff; now left).
      rewrite (effectiveBaseURL_scheme base Hs). auto.
    - destruct (GoStrings.HasPrefix base "https://") eqn:H2.
      + assert (Hs : hasScheme base) by (apply hasScheme_iff; now right).
        rewrite (effectiveBaseURL_scheme base Hs). auto.
      + assert (Hn : ~ hasScheme base)
          by (rewrite hasScheme_iff; intros [H | H]; congruence).
        rewrite (effectiveBaseURL_no_scheme base Hn).
        destruct (GoStrings.Contains base ":").
        * split; [left; exists base; reflexivity | auto].
        * split; [right; exists base; reflexivity | auto]. }
  destruct S as (S1 & S2).
  split; [exact S1 |]. split; [now apply effectiveBaseURL_scheme | exact S2].
Qed.

(** ** The two authenticated reads *)

Section ReadProperties.
Context {RT : Runtime} {J : Librelink.JSON}.

(** One run of [GetLatestReading] with a token and a URL that parses. *)
Lemma GetLatestReading_run (patientID : string) (c : Librelink.Client) (w : World)
    (tr : list Event) :
  authToken c <> "" ->
  urlParseError (Librelink.baseURL c ++ "/llu/connections/" ++ patientID ++ "/graph")
  = None ->
  let req := HeaderSet "Authorization" ("Bearer " ++ authToken c)
               (setHeaders c
                  (mkRequest "GET"
                     (Librelink.baseURL c ++ "/llu/connections/" ++ patientID ++ "/graph")
                     [] None)) in
  GetLatestReading patientID (mkState c (mkSys w tr)) =
  (let (r, w1) := httpDo req w in
   match r with
   | inr err =>
       (Done (None, Some (Errorf "glucose request failed: %w" [AErr err])),
        mkState c (mkSys w1 (tr ++ [EvHTTP req])))
   | inl resp =>
       let st :=
         mkState c
           (mkSys w1
              (tr ++ [EvHTTP req;
                      EvPrintf "DEBUG: Graph response status: %d\n"
                        [AInt (StatusCode resp)];
                      EvPrintf "DEBUG: Graph response body: %s\n"
                        [AStr (Body resp)]])) in
       if negb (StatusCode resp =? StatusOK) then
         (Done (None, Some (Errorf "glucose request failed with status %d: %s"
                              [AInt (StatusCode resp); AStr (Body resp)])), st)
       else
         match unmarshalGlucose (Body resp) with
         | inr err =>
             (Done (None, Some (Errorf "failed to decode glucose response: %w"
                                  [AErr err])), st)
         | inl g =>
             match parseLibreLinkTimestamp (measurement_Timestamp g) with
             | (_, Some err) =>
                 (Done (None, Some (Errorf "failed to parse timestamp: %w" [AErr err])),
                  st)
             | (timestamp, None) =>
                 (Done (Some (mkGlucoseReading (measurement_ValueInMgPerDl g) "mg/dL"
                                timestamp
                                (trendArrowToString (measurement_TrendArrow g))),
                        None), st)
             end
         end
   end).
Proof.
  intros Htok Hu req. apply String.eqb_neq in Htok.
  unfold GetLatestReading. run. rewrite Htok. unfold NewRequest.
  match goal with
  | |- context [urlParseError ?u] =>
      change u
        with (Librelink.baseURL c ++ "/llu/connections/" ++ patientID ++ "/graph")
  end.
  rewrite Hu.
  cbn [world trace sys client fst snd].
  match goal with
  | |- context [httpDo ?r w] =>
      lazymatch r with req => fail | _ => change r with req end
  end.
  destruct (httpDo req w) as [[resp | e] w1]; cbn [world trace sys client fst snd].
  2:{ reflexivity. }
  destruct (negb (StatusCode resp =? StatusOK)); [same_trace |].
  destruct (unmarshalGlucose (Body resp)) as [g | e]; [| same_trace].
  destruct (parseLibreLinkTimestamp (measurement_Timestamp g)) as [t [e |]];
    same_trace.
Qed.

End ReadProperties.

(** ** What the operations write *)

Section Writes.
Context {RT : Runtime} {J : Librelink.JSON}.

Lemma writes_ret {A : Type} (ok : Event -> bool) (a : A) : writes ok (ret a).
Proof. intros s. exists []. simpl. now rewrite app_nil_r. Qed.

Lemma writes_panic {A : Type} (ok : Event -> bool) (p : PanicValue) :
  writes ok (@panic State A p).
Proof. intros s. exists []. simpl. now rewrite app_nil_r. Qed.

Lemma writes_bind {A B : Type} (ok : Event -> bool) (m : M State A)
    (k : A -> M State B) :
  writes ok m -> (forall a, writes ok (k a)) -> writes ok (bind m k).
Proof.
  intros Hm Hk s. unfold bind.
  destruct (Hm s) as (add1 & E1 & F1).
  destruct (m s) as [[a | p] s1]; cbn [snd] in *.
  - destruct (Hk a s1) as (add2 & E2 & F2).
    exists (add1 ++ add2)%list. rewrite E2, E1, app_assoc. split; [reflexivity |].
    rewrite forallb_app, F1, F2. reflexivity.
  - exists add1. auto.
Qed.

Lemma writes_emit (ok : Event -> bool) (e : Event) :
  ok e = true -> writes ok (onSys (emit e)).
Proof.
  intros H s. exists [e]. split; [reflexivity |]. simpl. now rewrite H.
Qed.

Lemma writes_http (ok : Event -> bool) (req : Request) :
  ok (EvHTTP req) = true -> writes ok (onSys (httpClientDo req)).
Proof.
  intros H s. exists [EvHTTP req]. unfold onSys, httpClientDo.
  destruct (httpDo req (world (sys s))) as [r w]. split; [reflexivity |].
  simpl. now rewrite H.
Qed.

Lemma writes_Since (ok : Event -> bool) (t : GoTime.Time) :
  writes ok (onSys (Since t)).
Proof.
  intros s. exists []. unfold onSys, Since, Now, bind, ret.
  destruct (timeNow (world (sys s))) as [n w]. split; [| reflexivity].
  simpl. now rewrite app_nil_r.
Qed.

Lemma writes_printHeaders (ok : Event -> bool) (req : Request) :
  (forall format args, ok (EvPrintf format args) = true) ->
  writes ok (onSys (printHeaders req)).
Proof.
  intros H s. unfold onSys. rewrite printHeaders_run. cbn [snd sys trace].
  eexists. split; [reflexivity |].
  induction (Header req) as [| kv h IH]; simpl; [reflexivity |].
  now rewrite H, IH.
Qed.

Lemma writes_getClient (ok : Event -> bool) : writes ok getClient.
Proof. intros s. exists []. simpl. now rewrite app_nil_r. Qed.

Lemma writes_setAuthToken (ok : Event -> bool) (v : string) :
  writes ok (setAuthToken v).
Proof. intros s. exists []. simpl. now rewrite app_nil_r. Qed.

Lemma writes_setAccountID (ok : Event -> bool) (v : string) :
  writes ok (setAccountID v).
Proof. intros s. exists []. simpl. now rewrite app_nil_r. Qed.

Lemma writes_sliceTo (ok : Event -> bool) (str : string) (hi : Z) :
  writes ok (@sliceTo State str hi).
Proof.
  unfold sliceTo. destruct (GoStrings.len str <? hi);
    [apply writes_panic | apply writes_ret].
Qed.

Lemma writes_weaken {A : Type} (ok ok' : Event -> bool) (m : M State A) :
  (forall e, ok e = true -> ok' e = true) -> writes ok m -> writes ok' m.
Proof.
  intros H Hm s. destruct (Hm s) as (added & E & F). exists added.
  split; [exact E |]. rewrite forallb_forall in *. auto.
Qed.

End Writes.

(** One step of a proof that a computation writes only allowed events. *)
Ltac writes_step :=
  first
    [ apply writes_ret
    | apply writes_getClient
    | apply writes_setAuthToken
    | apply writes_setAccountID
    | apply writes_sliceTo
    | apply writes_emit; reflexivity
    | apply writes_http; reflexivity
    | apply writes_Since
    | apply writes_printHeaders; reflexivity
    | apply writes_bind; [| intros ?]
    | match goal with
      | |- writes _ (match ?x with _ => _ end) => destruct x
      end ].

Section LibrelinkWrites.
Context {RT : Runtime} {J : Librelink.JSON}.

Lemma Login_writes : writes notLog Login.
Proof.
  unfold Login, Printf. repeat (cbv zeta; writes_step).
Qed.

Lemma GetConnections_writes : writes notLog GetConnections.
Proof.
  unfold GetConnections, Printf. repeat (cbv zeta; writes_step).
Qed.

Lemma GetLatestReading_writes (patientID : string) :
  writes notLog (GetLatestReading patientID).
Proof.
  unfold GetLatestReading, Printf. repeat (cbv zeta; writes_step).
Qed.

End LibrelinkWrites.

(** Compute the network calls of an explicit trace. *)
Ltac calls_simpl :=
  unfold networkCalls; rewrite ?filter_app; cbn [filter isHTTP];
  rewrite ?app_nil_r.

(** ** The outcome of the two authenticated reads *)

Section ReadOutcome.
Context {RT : Runtime} {J : Librelink.JSON}.

Lemma authorized_request (c : Librelink.Client) (url : string) :
  let req := HeaderSet "Authorization" ("Bearer " ++ authToken c)
               (setHeaders c (mkRequest "GET" url [] None)) in
  Method req = "GET" /\ URL req = url /\ ReqBody req = None /\
  HeaderGet "Authorization" (Header req) = Some ("Bearer " ++ authToken c).
Proof.
  intros req. subst req.
  destruct (setHeaders_target c (mkRequest "GET" url [] None)) as (Tm & Tu & Tb).
  repeat split; try assumption.
  rewrite HeaderGet_HeaderSet. reflexivity.
Qed.

(** X6. With a token and a URL that parses, [GetConnections] sends one GET
    with the bearer token to the connections endpoint and leaves the client
    as it is.  A transport error, a status other than 200 and a body that
    does not decode each give an error and an empty list; otherwise the
    list follows the decoded data in order and length, with patient id and
    names copied (the account's own connection for empty data), whatever
    the embedded status of the response. *)
Theorem GetConnections_outcome (s : State) :
  authToken (client s) <> "" ->
  urlParseError (Librelink.baseURL (client s) ++ "/llu/connections") = None ->
  exists req : Request,
    Method req = "GET" /\
    URL req = Librelink.baseURL (client s) ++ "/llu/connections" /\
    ReqBody req = None /\
    HeaderGet "Authorization" (Header req)
    = Some ("Bearer " ++ authToken (client s)) /\
    networkCalls (trace (sys (snd (GetConnections s))))
    = (networkCalls (trace (sys s)) ++ [EvHTTP req])%list /\
    client (snd (GetConnections s)) = client s /\
    match fst (httpDo req (world (sys s))) with
    | inr e =>
        fst (GetConnections s)
        = Done ([], Some (Errorf "connections request failed: %w" [AErr e]))
    | inl resp =>
        if StatusCode resp =? 200 then
          match unmarshalConnections (Body resp) with
          | inr e =>
              fst (GetConnections s)
              = Done ([], Some (Errorf "failed to decode connections response: %w"
                                 [AErr e]))
          | inl connResp =>
              fst (GetConnections s)
              = Done (match connections_Data connResp with
                      | [] => [mkConnection (accountID (client s)) "Self" "" 0]
                      | data =>
                          map (fun conn =>
                                 mkConnection (data_PatientID conn)
                                   (data_FirstName conn) (data_LastName conn) 0)
                            data
                      end, None)
          end
        else
          fst (GetConnections s)
          = Done ([], Some (Errorf "connections request failed with status %d: %s"
                             [AInt (StatusCode resp); AStr (Body resp)]))
    end.
Proof.
  destruct s as [c [w tr]]. cbn [client sys world trace]. intros Htok Hu.
  pose proof (GetConnections_run c w tr Htok Hu) as R. cbv zeta in R.
  destruct (authorized_request c (Librelink.baseURL c ++ "/llu/connections"))
    as (Rm & Ru & Rb & Ra).
  set (req := HeaderSet "Authorization" _ _) in *.
  exists req. do 4 (split; [assumption |]).
  rewrite R. clear R.
  destruct (httpDo req w) as [[resp | e] w1]; cbn [fst snd].
  2:{ cbn [sys trace client]. calls_simpl. repeat split; reflexivity. }
  unfold StatusOK.
  destruct (StatusCode resp =? 200); cbn [negb].
  2:{ cbn [fst snd sys trace client]. calls_simpl. repeat split; reflexivity. }
  destruct (unmarshalConnections (Body resp)) as [cr | e].
  2:{ cbn [fst snd sys trace client]. calls_simpl. repeat split; reflexivity. }
  destruct (connections_Data cr) as [| d ds]; cbn [fst snd sys trace client];
    calls_simpl; repeat split; reflexivity.
Qed.

(** X7. With a token and a URL that parses, [GetLatestReading] sends one GET
    with the bearer token to the graph endpoint of the patient and leaves
    the client as it is.  A transport error, a status other than 200, a body
    that does not decode and a timestamp no layout accepts each give an
    error and no reading; otherwise the reading carries the value in mg/dL
    of the response (not its display value), the unit mg/dL, the parsed
    time and the label of the trend code. *)
Theorem GetLatestReading_outcome (patientID : string) (s : State) :
  authToken (client s) <> "" ->
  urlParseError
    (Librelink.baseURL (client s) ++ "/llu/connections/" ++ patientID ++ "/graph")
  = None ->
  exists req : Request,
    Method req = "GET" /\
    URL req
    = Librelink.baseURL (client s) ++ "/llu/connections/" ++ patientID ++ "/graph" /\
    ReqBody req = None /\
    HeaderGet "Authorization" (Header req)
    = Some ("Bearer " ++ authToken (client s)) /\
    networkCalls (trace (sys (snd (GetLatestReading patientID s))))
    = (networkCalls (trace (sys s)) ++ [EvHTTP req])%list /\
    client (snd (GetLatestReading patientID s)) = client s /\
    match fst (httpDo req (world (sys s))) with
    | inr e =>
        fst (GetLatestReading patientID s)
        = Done (None, Some (Errorf "glucose request failed: %w" [AErr e]))
    | inl resp =>
        if StatusCode resp =? 200 then
          match unmarshalGlucose (Body resp) with
          | inr e =>
              fst (GetLatestReading patientID s)
              = Done (None, Some (Errorf "failed to decode glucose response: %w"
                                    [AErr e]))
          | inl g =>
              match parseLibreLinkTimestamp (measurement_Timestamp g) with
              | (_, Some e) =>
                  fst (GetLatestReading patientID s)
                  = Done (None, Some (Errorf "failed to parse timestamp: %w" [AErr e]))
              | (t, None) =>
                  fst (GetLatestReading patientID s)
                  = Done (Some (mkGlucoseReading (measurement_ValueInMgPerDl g)
                                  "mg/dL" t
                                  (trendArrowToString (measurement_TrendArrow g))),
                          None)
              end
          end
        else
          fst (GetLatestReading patientID s)
          = Done (None, Some (Errorf "glucose request failed with status %d: %s"
                                [AInt (StatusCode resp); AStr (Body resp)]))
    end.
Proof.
  destruct s as [c [w tr]]. cbn [client sys world trace]. intros Htok Hu.
  pose proof (GetLatestReading_run patientID c w tr Htok Hu) as R. cbv zeta in R.
  destruct (authorized_request c
              (Librelink.baseURL c ++ "/llu/connections/" ++ patientID ++ "/graph"))
    as (Rm & Ru & Rb & Ra).
  set (req := HeaderSet "Authorization" _ _) in *.
  exists req. do 4 (split; [assumption |]).
  rewrite R. clear R.
  destruct (httpDo req w) as [[resp | e] w1]; cbn [fst snd].
  2:{ cbn [sys trace client]. calls_simpl. repeat split; reflexivity. }
  unfold StatusOK.
  destruct (StatusCode resp =? 200); cbn [negb].
  2:{ cbn [fst snd sys trace client]. calls_simpl. repeat split; reflexivity. }
  destruct (unmarshalGlucose (Body resp)) as [g | e].
  2:{ cbn [fst snd sys trace client]. calls_simpl. repeat split; reflexivity. }
  destruct (parseLibreLinkTimestamp (measurement_Timestamp g)) as [t [e |]];
    cbn [fst snd sys trace client]; calls_simpl; repeat split; reflexivity.
Qed.

End ReadOutcome.

Lemma GetConnections_outcome_example :
  fst (GetConnections
         (mkState sessionClient
            (Scripted.system [Scripted.ok "connections-P1"] GoTime.zero)))
  = Done ([mkConnection "P1" "Pat" "Doe" 0], None) /\
  fst (GetConnections
         (mkState sessionClient
            (Scripted.system [inl (mkResponse 401 "denied")] GoTime.zero)))
  = Done ([], Some (Errorf "connections request failed with status %d: %s"
                      [AInt 401; AStr "denied"])).
Proof.
  split.
  - destruct (GetConnections_outcome
                (mkState sessionClient
                   (Scripted.system [Scripted.ok "connections-P1"] GoTime.zero)))
      as (req & _ & _ & _ & _ & _ & _ & H); [discriminate | reflexivity |].
    exact H.
  - destruct (GetConnections_outcome
                (mkState sessionClient
                   (Scripted.system [inl (mkResponse 401 "denied")] GoTime.zero)))
      as (req & _ & _ & _ & _ & _ & _ & H); [discriminate | reflexivity |].
    exact H.
Defined.

Lemma GetLatestReading_outcome_example :
  fst (GetLatestReading "P1"
         (mkState sessionClient
            (Scripted.system [Scripted.ok "graph-sample"] GoTime.zero)))
  = Done (Some Scripted.sampleReading, None) /\
  fst (GetLatestReading "P1"
         (mkState sessionClient (Scripted.system [] GoTime.zero)))
  = Done (None, Some (Errorf "glucose request failed: %w"
                        [AErr (LibError "dial tcp: connection refused")])).
Proof.
  split.
  - destruct (GetLatestReading_outcome "P1"
                (mkState sessionClient
                   (Scripted.system [Scripted.ok "graph-sample"] GoTime.zero)))
      as (req & _ & _ & _ & _ & _ & _ & H); [discriminate | reflexivity |].
    exact H.
  - destruct (GetLatestReading_outcome "P1"
                (mkState sessionClient (Scripted.system [] GoTime.zero)))
      as (req & _ & _ & _ & _ & _ & _ & H); [discriminate | reflexivity |].
    exact H.
Defined.

(** ** The outcome of a post *)

Section PostOutcome.
Context {RT : Runtime} {J : Nightscout.JSON}.

(** One run of [PostGlucoseReading] that reaches the transport. *)
Lemma PostGlucoseReading_sent (c : Nightscout.Client) (rd : GlucoseReading)
    (y : Sys) (body : string) :
  marshalEntries [newEntry rd] = inl body ->
  urlParseError (entriesURL (Nightscout.baseURL c)) = None ->
  let req :=
    mkRequest "POST" (entriesURL (Nightscout.baseURL c))
      [ ("Content-Type", "application/json"); ("Api-Secret", apiToken c);
        ("X-Forwarded-Proto", "https") ]
      (Some body) in
  trace (snd (PostGlucoseReading c (Some rd) y))
  = (trace y ++ [EvLog "Posting glucose data to: %s"
                   [AStr (entriesURL (Nightscout.baseURL c))]; EvHTTP req])%list /\
  match fst (httpDo req (world y)) with
  | inr e =>
      fst (PostGlucoseReading c (Some rd) y)
      = Done (Some (Errorf "request failed: %w" [AErr e]))
  | inl resp =>
      if (200 <=? StatusCode resp) && (StatusCode resp <? 300) then
        fst (PostGlucoseReading c (Some rd) y) = Done None
      else
        fst (PostGlucoseReading c (Some rd) y)
        = Done (Some (Errorf "request failed with status %d: %s"
                        [AInt (StatusCode resp); AStr (Body resp)]))
  end.
Proof.
  intros Hm Hu req.
  unfold PostGlucoseReading. rewrite Hm. unfold NewRequest. rewrite Hu. run.
  change (HeaderSet "X-Forwarded-Proto" "https" _) with req.
  destruct (httpDo req (world y)) as [[resp | e] w1]; cbn [fst snd trace].
  2:{ split; [same_trace | reflexivity]. }
  destruct (Z.ltb_spec (StatusCode resp) 200) as [L | L];
    destruct (Z.leb_spec 300 (StatusCode resp)) as [U | U];
    destruct (Z.leb_spec 200 (StatusCode resp)) as [L' | L'];
    destruct (Z.ltb_spec (StatusCode resp) 300) as [U' | U'];
    try lia; cbn [orb andb fst snd trace]; (split; [same_trace | reflexivity]).
Qed.

(** The same run, with the system it leaves. *)
Lemma PostGlucoseReading_run (c : Nightscout.Client) (rd : GlucoseReading)
    (y : Sys) (body : string) :
  marshalEntries [newEntry rd] = inl body ->
  urlParseError (entriesURL (Nightscout.baseURL c)) = None ->
  let req :=
    mkRequest "POST" (entriesURL (Nightscout.baseURL c))
      [ ("Content-Type", "application/json"); ("Api-Secret", apiToken c);
        ("X-Forwarded-Proto", "https") ]
      (Some body) in
  PostGlucoseReading c (Some rd) y
  = (Done match fst (httpDo req (world y)) with
          | inr e => Some (Errorf "request failed: %w" [AErr e])
          | inl resp =>
              if (200 <=? StatusCode resp) && (StatusCode resp <? 300) then None
              else Some (Errorf "request failed with status %d: %s"
                           [AInt (StatusCode resp); AStr (Body resp)])
          end,
     mkSys (snd (httpDo req (world y)))
       (trace y ++ [EvLog "Posting glucose data to: %s"
                      [AStr (entriesURL (Nightscout.baseURL c))]; EvHTTP req])).
Proof.
  intros Hm Hu req.
  unfold PostGlucoseReading. rewrite Hm. unfold NewRequest. rewrite Hu. run.
  change (HeaderSet "X-Forwarded-Proto" "https" _) with req.
  destruct (httpDo req (world y)) as [[resp | e] w1]; cbn [fst snd trace].
  2:{ f_equal. same_trace. }
  destruct (Z.ltb_spec (StatusCode resp) 200) as [L | L];
    destruct (Z.leb_spec 300 (StatusCode resp)) as [U | U];
    destruct (Z.leb_spec 200 (StatusCode resp)) as [L' | L'];
    destruct (Z.ltb_spec (StatusCode resp) 300) as [U' | U'];
    try lia; cbn [orb andb fst snd trace]; (f_equal; same_trace).
Qed.

(** X9. [PostGlucoseReading] never sends an entry it cannot marshal or whose
    URL does not parse (in the second case the log line is already written).
    Otherwise it sends one POST whose body is the marshalled one-entry list
    and whose headers are the content type, the API secret as configured and
    the forwarded protocol https; it returns nil exactly for a status from
    200 to 299, and otherwise an error with the status and the body of the
    response, or with the error of the transport. *)
Theorem PostGlucoseReading_outcome (c : Nightscout.Client) (rd : GlucoseReading)
    (y : Sys) :
  (forall e : error,
     marshalEntries [newEntry rd] = inr e ->
     PostGlucoseReading c (Some rd) y
     = (Done (Some (Errorf "failed to marshal entry: %w" [AErr e])), y)) /\
  (forall (body : string) (e : error),
     marshalEntries [newEntry rd] = inl body ->
     urlParseError (entriesURL (Nightscout.baseURL c)) = Some e ->
     PostGlucoseReading c (Some rd) y
     = (Done (Some (Errorf "failed to create request: %w" [AErr e])),
        mkSys (world y)
          (trace y ++ [EvLog "Posting glucose data to: %s"
                         [AStr (entriesURL (Nightscout.baseURL c))]]))) /\
  (forall body : string,
     marshalEntries [newEntry rd] = inl body ->
     urlParseError (entriesURL (Nightscout.baseURL c)) = None ->
     let req :=
       mkRequest "POST" (entriesURL (Nightscout.baseURL c))
         [ ("Content-Type", "application/json"); ("Api-Secret", apiToken c);
           ("X-Forwarded-Proto", "https") ]
         (Some body) in
     trace (snd (PostGlucoseReading c (Some rd) y))
     = (trace y ++ [EvLog "Posting glucose data to: %s"
                      [AStr (entriesURL (Nightscout.baseURL c))]; EvHTTP req])%list /\
     match fst (httpDo req (world y)) with
     | inr e =>
         fst (PostGlucoseReading c (Some rd) y)
         = Done (Some (Errorf "request failed: %w" [AErr e]))
     | inl resp =>
         if (200 <=? StatusCode resp) && (StatusCode resp <? 300) then
           fst (PostGlucoseReading c (Some rd) y) = Done None
         else
           fst (PostGlucoseReading c (Some rd) y)
           = Done (Some (Errorf "request failed with status %d: %s"
                           [AInt (StatusCode resp); AStr (Body resp)]))
     end).
Proof.
  split; [| split].
  - intros e Hm. unfold PostGlucoseReading. rewrite Hm. reflexivity.
  - intros body e Hm Hu. unfold PostGlucoseReading. rewrite Hm.
    unfold NewRequest. rewrite Hu. reflexivity.
  - intros body Hm Hu. exact (PostGlucoseReading_sent c rd y body Hm Hu).
Qed.

End PostOutcome.

Lemma PostGlucoseReading_outcome_example :
  fst (PostGlucoseReading Scripted.nsClient (Some Scripted.sampleReading)
         (Scripted.system [inl (mkResponse 401 "Unauthorized")] GoTime.zero))
  = Done (Some (Errorf "request failed with status %d: %s"
                  [AInt 401; AStr "Unauthorized"])) /\
  fst (PostGlucoseReading Scripted.nsClient (Some Scripted.sampleReading)
         (Scripted.system [inl (mkResponse 204 "")] GoTime.zero))
  = Done None /\
  PostGlucoseReading (Nightscout.NewClient "night scout" "s3cret")
    (Some Scripted.sampleReading) (Scripted.system [] GoTime.zero)
  = (Done (Some (Errorf "failed to create request: %w"
                   [AErr (LibError "invalid character in host name")])),
     mkSys (Scripted.mkWorld [] GoTime.zero)
       [EvLog "Posting glucose data to: %s"
          [AStr "https://night scout/api/v1/entries"]]).
Proof.
  split; [| split].
  - destruct (PostGlucoseReading_outcome Scripted.nsClient Scripted.sampleReading
                (Scripted.system [inl (mkResponse 401 "Unauthorized")] GoTime.zero))
      as (_ & _ & H).
    destruct (H "2024-11-19T15:14:29Z" eq_refl eq_refl) as [_ R]. exact R.
  - destruct (PostGlucoseReading_outcome Scripted.nsClient Scripted.sampleReading
                (Scripted.system [inl (mkResponse 204 "")] GoTime.zero))
      as (_ & _ & H).
    destruct (H "2024-11-19T15:14:29Z" eq_refl eq_refl) as [_ R]. exact R.
  - destruct (PostGlucoseReading_outcome (Nightscout.NewClient "night scout" "s3cret")
                Scripted.sampleReading (Scripted.system [] GoTime.zero))
      as (_ & H & _).
    apply (H "2024-11-19T15:14:29Z"); reflexivity.
Defined.

(** ** What the two reads always do *)

(** Close the case of a read that returns an error. *)
Ltac failed_read :=
  do 3 eexists; split; [reflexivity |]; split; [reflexivity |];
  split; [discriminate | intros _; reflexivity].

Section ReadTotal.
Context {RT : Runtime} {J : Librelink.JSON}.

Lemma trendArrowToString_label (arrow : Z) :
  List.In (trendArrowToString arrow) trendLabels
  \/ trendArrowToString arrow = "Unknown".
Proof.
  destruct (trendArrowToString_cases arrow) as [E | E]; [left | now right].
  unfold trendLabels.
  repeat (destruct E as [-> | E]); try subst arrow; simpl; tauto.
Qed.

Lemma GetConnections_total (s : State) :
  exists (l : list Connection) (oe : option error) (s2 : State),
    GetConnections s = (Done (l, oe), s2) /\
    client s2 = client s /\
    (oe = None -> l <> []) /\
    (oe <> None -> l = []).
Proof.
  destruct s as [c [w tr]].
  destruct (String.eqb_spec (authToken c) "") as [E | N].
  { rewrite (GetConnections_unauthenticated (mkState c (mkSys w tr)) E).
    failed_read. }
  destruct (urlParseError (Librelink.baseURL c ++ "/llu/connections")) as [e |] eqn:Hu.
  { apply String.eqb_neq in N. unfold GetConnections. run. rewrite N.
    unfold NewRequest. rewrite Hu.
    failed_read. }
  rewrite (GetConnections_run c w tr N Hu).
  destruct (httpDo _ w) as [[resp | e] w1].
  2:{ failed_read. }
  cbv zeta.
  destruct (negb (StatusCode resp =? StatusOK)).
  { failed_read. }
  destruct (unmarshalConnections (Body resp)) as [cr | e].
  2:{ failed_read. }
  destruct (connections_Data cr) as [| d ds].
  - do 3 eexists. split; [reflexivity |]. split; [reflexivity |].
    split; [intros _; discriminate | intros H; now contradiction H].
  - do 3 eexists. split; [reflexivity |]. split; [reflexivity |].
    split; [intros _; discriminate | intros H; now contradiction H].
Qed.

Lemma GetLatestReading_total (patientID : string) (s : State) :
  exists (r : option GlucoseReading) (oe : option error) (s3 : State),
    GetLatestReading patientID s = (Done (r, oe), s3) /\
    client s3 = client s /\
    (oe = None ->
     exists rd : GlucoseReading,
       r = Some rd /\ Unit rd = "mg/dL" /\
       (List.In (TrendArrow rd) trendLabels \/ TrendArrow rd = "Unknown")) /\
    (oe <> None -> r = None).
Proof.
  destruct s as [c [w tr]].
  destruct (String.eqb_spec (authToken c) "") as [E | N].
  { rewrite (GetLatestReading_unauthenticated patientID (mkState c (mkSys w tr)) E).
    failed_read. }
  destruct (urlParseError
              (Librelink.baseURL c ++ "/llu/connections/" ++ patientID ++ "/graph"))
    as [e |] eqn:Hu.
  { apply String.eqb_neq in N. unfold GetLatestReading. run. rewrite N.
    unfold NewRequest.
    match goal with
    | |- context [urlParseError ?u] =>
        change u
          with (Librelink.baseURL c ++ "/llu/connections/" ++ patientID ++ "/graph")
    end.
    rewrite Hu.
    failed_read. }
  rewrite (GetLatestReading_run patientID c w tr N Hu).
  destruct (httpDo _ w) as [[resp | e] w1].
  2:{ failed_read. }
  cbv zeta.
  destruct (negb (StatusCode resp =? StatusOK)).
  { failed_read. }
  destruct (unmarshalGlucose (Body resp)) as [g | e].
  2:{ failed_read. }
  destruct (parseLibreLinkTimestamp (measurement_Timestamp g)) as [t [e |]].
  - failed_read.
  - do 3 eexists. split; [reflexivity |]. split; [reflexivity |]. split.
    + intros _. eexists. split; [reflexivity |]. split; [reflexivity |].
      apply trendArrowToString_label.
    + congruence.
Qed.

(** X8. [GetConnections] and [GetLatestReading] always return (they never
    panic) and never change the client.  [GetConnections] returns a list
    that is empty exactly when it returns an error; [GetLatestReading]
    returns a reading exactly when it returns no error, and the reading then
    has the unit mg/dL and a trend that is one of the seven labels or
    Unknown. *)
Theorem reads_always_return :
  (forall s : State,
     exists (l : list Connection) (oe : option error),
       fst (GetConnections s) = Done (l, oe) /\
       client (snd (GetConnections s)) = client s /\
       (oe = None <-> l <> [])) /\
  (forall (patientID : string) (s : State),
     exists (r : option GlucoseReading) (oe : option error),
       fst (GetLatestReading patientID s) = Done (r, oe) /\
       client (snd (GetLatestReading patientID s)) = client s /\
       (oe = None <-> r <> None) /\
       (forall rd : GlucoseReading,
          r = Some rd ->
          Unit rd = "mg/dL" /\
          (List.In (TrendArrow rd) trendLabels \/ TrendArrow rd = "Unknown"))).
Proof.
  split.
  - intros s. destruct (GetConnections_total s) as (l & oe & s2 & E & C & A & B).
    exists l, oe. rewrite E. cbn [fst snd]. split; [reflexivity |].
    split; [exact C |]. split; [exact A |].
    intros Hl. destruct oe as [e |]; [| reflexivity].
    exfalso. apply Hl. apply B. discriminate.
  - intros patientID s.
    destruct (GetLatestReading_total patientID s) as (r & oe & s3 & E & C & A & B).
    exists r, oe. rewrite E. cbn [fst snd]. split; [reflexivity |].
    split; [exact C |]. split; [split |].
    + intros Ho. destruct (A Ho) as (rd & -> & _). discriminate.
    + intros Hr. destruct oe as [e |]; [| reflexivity].
      exfalso. apply Hr. apply B. discriminate.
    + intros rd ->. destruct oe as [e |].
      * assert (H : Some rd = None) by (apply B; discriminate). discriminate H.
      * destruct (A eq_refl) as (rd' & Heq & U & T). injection Heq as ->. auto.
Qed.

End ReadTotal.

(** ** Network calls: no retries *)

Section Spends.
Context {RT : Runtime} {J : Librelink.JSON}.

Lemma spends_nothing {A : Type} (n : nat) (m : M State A) :
  (forall s, trace (sys (snd (m s))) = trace (sys s)) -> spends n m.
Proof.
  intros H s. exists []. rewrite H, app_nil_r. split; [reflexivity |]. simpl. lia.
Qed.

Lemma spends_ret {A : Type} (n : nat) (a : A) : spends n (ret a).
Proof. apply spends_nothing. reflexivity. Qed.

Lemma spends_getClient (n : nat) : spends n getClient.
Proof. apply spends_nothing. reflexivity. Qed.

Lemma spends_setAuthToken (n : nat) (v : string) : spends n (setAuthToken v).
Proof. apply spends_nothing. reflexivity. Qed.

Lemma spends_setAccountID (n : nat) (v : string) : spends n (setAccountID v).
Proof. apply spends_nothing. reflexivity. Qed.

Lemma spends_sliceTo (n : nat) (str : string) (hi : Z) :
  spends n (@sliceTo State str hi).
Proof.
  apply spends_nothing. intros s. unfold sliceTo.
  destruct (GoStrings.len str <? hi); reflexivity.
Qed.

Lemma spends_Since (n : nat) (t : GoTime.Time) : spends n (onSys (Since t)).
Proof.
  apply spends_nothing. intros s. unfold onSys, Since, Now, bind, ret.
  destruct (timeNow (world (sys s))) as [t0 w]. reflexivity.
Qed.

Lemma spends_Printf (n : nat) (format : string) (args : list Arg) :
  spends n (onSys (Printf format args)).
Proof. intros s. exists [EvPrintf format args]. split; [reflexivity |]. simpl. lia. Qed.

Lemma spends_LogPrintf (n : nat) (format : string) (args : list Arg) :
  spends n (onSys (LogPrintf format args)).
Proof. intros s. exists [EvLog format args]. split; [reflexivity |]. simpl. lia. Qed.

Lemma spends_printHeaders (n : nat) (req : Request) :
  spends n (onSys (printHeaders req)).
Proof.
  intros s. unfold onSys. rewrite printHeaders_run. cbn [snd sys trace].
  eexists. split; [reflexivity |].
  rewrite (networkCalls_Printf (Header req) (fun _ => "  %s: %s\n")). simpl. lia.
Qed.

Lemma spends_http (n : nat) (req : Request) :
  spends (S n) (onSys (httpClientDo req)).
Proof.
  intros s. exists [EvHTTP req]. unfold onSys, httpClientDo.
  destruct (httpDo req (world (sys s))) as [r w]. split; [reflexivity |].
  simpl. lia.
Qed.

Lemma spends_bind {A B : Type} (a b : nat) (m : M State A) (k : A -> M State B) :
  spends a m -> (forall x, spends b (k x)) -> spends (a + b) (bind m k).
Proof.
  intros Hm Hk s. unfold bind.
  destruct (Hm s) as (add1 & E1 & L1).
  destruct (m s) as [[x | p] s1]; cbn [snd] in *.
  - destruct (Hk x s1) as (add2 & E2 & L2).
    exists (add1 ++ add2)%list. rewrite E2, E1, app_assoc. split; [reflexivity |].
    rewrite networkCalls_app, length_app. lia.
  - exists add1. split; [exact E1 | lia].
Qed.

End Spends.

(** One step of a proof that a computation stays within its budget of
    network calls; [named] closes the operations known by name. *)
Ltac spends_with named :=
  first
    [ named
    | apply spends_ret
    | apply spends_getClient
    | apply spends_setAuthToken
    | apply spends_setAccountID
    | apply spends_sliceTo
    | apply spends_Since
    | apply spends_Printf
    | apply spends_LogPrintf
    | apply spends_printHeaders
    | apply spends_http
    | apply (spends_bind 0); [solve [repeat (cbv zeta; spends_with named)] | intros ?]
    | apply (spends_bind 1); [solve [repeat (cbv zeta; spends_with named)] | intros ?]
    | match goal with
      | |- spends _ (match ?x with _ => _ end) => destruct x
      end ].

Section LibrelinkSpends.
Context {RT : Runtime} {J : Librelink.JSON}.

Lemma Login_spends : spends 1 Login.
Proof. unfold Login. repeat (cbv zeta; spends_with fail). Qed.

Lemma GetConnections_spends : spends 1 GetConnections.
Proof. unfold GetConnections. repeat (cbv zeta; spends_with fail). Qed.

Lemma GetLatestReading_spends (patientID : string) :
  spends 1 (GetLatestReading patientID).
Proof. unfold GetLatestReading. repeat (cbv zeta; spends_with fail). Qed.

End LibrelinkSpends.

Section CycleBounds.
Context {RT : Runtime} {JL : Librelink.JSON} {JN : Nightscout.JSON}.

(** What [PostGlucoseReading] appends to the trace: nothing, the log line,
    or the log line and the request. *)
Lemma PostGlucoseReading_added (c : Nightscout.Client)
    (reading : option GlucoseReading) (y : Sys) :
  exists added : list Event,
    trace (snd (PostGlucoseReading c reading y)) = (trace y ++ added)%list /\
    (added = [] \/
     added = [EvLog "Posting glucose data to: %s"
                [AStr (entriesURL (Nightscout.baseURL c))]] \/
     exists req : Request,
       added = [EvLog "Posting glucose data to: %s"
                  [AStr (entriesURL (Nightscout.baseURL c))]; EvHTTP req]).
Proof.
  destruct reading as [rd |].
  2:{ exists []. simpl. rewrite app_nil_r. auto. }
  destruct (marshalEntries [newEntry rd]) as [body | e] eqn:Hm.
  2:{ exists []. unfold PostGlucoseReading. rewrite Hm. simpl.
      rewrite app_nil_r. auto. }
  destruct (urlParseError (entriesURL (Nightscout.baseURL c))) as [e |] eqn:Hu.
  { eexists. unfold PostGlucoseReading. rewrite Hm. unfold NewRequest. rewrite Hu.
    split; [reflexivity |]. auto. }
  destruct (PostGlucoseReading_posts c rd y body Hm Hu)
    as (req & _ & _ & _ & _ & Htr & _).
  eexists. split; [exact Htr |]. right. right. exists req. reflexivity.
Qed.

Lemma PostGlucoseReading_spends (c : Nightscout.Client)
    (reading : option GlucoseReading) :
  spends 1 (onSys (PostGlucoseReading c reading)).
Proof.
  intros s. destruct (PostGlucoseReading_added c reading (sys s)) as (added & E & H).
  exists added. unfold onSys.
  destruct (PostGlucoseReading c reading (sys s)) as [o yf]. cbn [snd sys] in *.
  split; [exact E |].
  destruct H as [-> | [-> | [req ->]]]; simpl; lia.
Qed.

Lemma PostGlucoseReading_writes (c : Nightscout.Client)
    (reading : option GlucoseReading) :
  writes cycleEvent (onSys (PostGlucoseReading c reading)).
Proof.
  intros s. destruct (PostGlucoseReading_added c reading (sys s)) as (added & E & H).
  exists added. unfold onSys.
  destruct (PostGlucoseReading c reading (sys s)) as [o yf]. cbn [snd sys] in *.
  split; [exact E |].
  destruct H as [-> | [-> | [req ->]]]; reflexivity.
Qed.

Lemma notLog_cycleEvent (e : Event) : notLog e = true -> cycleEvent e = true.
Proof. unfold notLog, cycleEvent. intros ->. reflexivity. Qed.

(** Sequencing when the first computation guarantees [Q] of its result. *)
Lemma writes_bind_post {A B : Type} (ok : Event -> bool) (Q : A -> Prop)
    (m : M State A) (k : A -> M State B) :
  writes ok m ->
  (forall s a s1, m s = (Done a, s1) -> Q a) ->
  (forall a, Q a -> writes ok (k a)) ->
  writes ok (bind m k).
Proof.
  intros Hm HQ Hk s. unfold bind.
  destruct (Hm s) as (add1 & E1 & F1).
  destruct (m s) as [[a | p] s1] eqn:Em; cbn [snd] in *.
  - destruct (Hk a (HQ s a s1 Em) s1) as (add2 & E2 & F2).
    exists (add1 ++ add2)%list. rewrite E2, E1, app_assoc. split; [reflexivity |].
    rewrite forallb_app, F1, F2. reflexivity.
  - exists add1. auto.
Qed.

(** X10. No operation retries: [Login], [GetConnections], [GetLatestReading] and
    [PostGlucoseReading] each make at most one network call, and a sync
    cycle at most four, whether it ends with nil, an error or a panic. *)
Theorem no_retries :
  spends 1 Login /\
  spends 1 GetConnections /\
  (forall patientID : string, spends 1 (GetLatestReading patientID)) /\
  (forall (ns : Nightscout.Client) (reading : option GlucoseReading),
     spends 1 (onSys (PostGlucoseReading ns reading))) /\
  (forall ns : Nightscout.Client, spends 4 (Main.syncGlucoseData ns)).
Proof.
  split; [exact Login_spends |]. split; [exact GetConnections_spends |].
  split; [exact GetLatestReading_spends |].
  split; [exact PostGlucoseReading_spends |].
  intros ns. unfold Main.syncGlucoseData.
  repeat (cbv zeta;
          spends_with
            ltac:(first [ apply Login_spends
                        | apply GetConnections_spends
                        | apply GetLatestReading_spends
                        | apply PostGlucoseReading_spends ])).
Qed.

(** X11. Every line a sync cycle writes to the log has one of five formats
    (fetching, the reading, the staleness warning, posting, posted): since
    [GetConnections] never returns an empty list without an error and
    [GetLatestReading] never returns nil without an error, the cycle never
    reports that there are no connections or that no reading is available. *)
Theorem cycle_log_lines (ns : Nightscout.Client) (s : State) :
  exists added : list Event,
    trace (sys (snd (Main.syncGlucoseData ns s))) = (trace (sys s) ++ added)%list /\
    (forall e : Event,
       List.In e (logLines added) -> List.In (logFormat e) cycleLogFormats) /\
    ~ List.In (EvLog "No active LibreLink connections found" []) added /\
    ~ List.In (EvLog "No glucose reading available" []) added.
Proof.
  assert (W : writes cycleEvent (Main.syncGlucoseData ns)).
  { unfold Main.syncGlucoseData, LogPrintf.
    apply writes_bind; [apply writes_emit; reflexivity | intros _].
    apply writes_bind;
      [apply (writes_weaken notLog); [exact notLog_cycleEvent | exact Login_writes] |].
    intros [e |]; [apply writes_ret |].
    apply (writes_bind_post cycleEvent (fun cs => snd cs = None -> fst cs <> [])).
    { apply (writes_weaken notLog);
        [exact notLog_cycleEvent | exact GetConnections_writes]. }
    { intros s1 [l oe] s2 E.
      destruct (GetConnections_total s1) as (l' & oe' & s2' & E' & _ & A & _).
      rewrite E in E'. injection E' as -> -> _. exact A. }
    intros [l [e |]] Q; [destruct l; apply writes_ret |].
    destruct l as [| first rest]; [exfalso; now apply Q |].
    apply (writes_bind_post cycleEvent (fun rd => snd rd = None -> fst rd <> None)).
    { apply (writes_weaken notLog);
        [exact notLog_cycleEvent | apply GetLatestReading_writes]. }
    { intros s2 [r oe] s3 E.
      destruct (GetLatestReading_total (PatientID first) s2)
        as (r' & oe' & s3' & E' & _ & A & _).
      rewrite E in E'. injection E' as -> -> _.
      intros Ho. destruct (A Ho) as (rd & -> & _). discriminate. }
    intros [r [e |]] Q'; [destruct r; apply writes_ret |].
    destruct r as [reading |]; [| exfalso; now apply Q'].
    apply writes_bind; [apply writes_emit; reflexivity | intros _].
    apply writes_bind; [apply writes_Since | intros age].
    apply writes_bind.
    { destruct (Main.staleAfter <? age); [| apply writes_ret].
      apply writes_bind; [apply writes_Since | intros age2].
      apply writes_emit. reflexivity. }
    intros _.
    apply writes_bind; [apply PostGlucoseReading_writes | intros perr].
    destruct perr as [e |]; [apply writes_ret |].
    apply writes_bind; [apply writes_emit; reflexivity | intros _].
    apply writes_ret. }
  destruct (W s) as (added & E & F). exists added. split; [exact E |].
  rewrite forallb_forall in F.
  split; [| split].
  - intros e He. unfold logLines in He. apply filter_In in He.
    destruct He as [Hin Hlog]. specialize (F e Hin).
    unfold cycleEvent in F. rewrite Hlog in F. cbn [negb orb] in F.
    apply existsb_exists in F. destruct F as (f & Hf & Heq).
    apply String.eqb_eq in Heq. now rewrite Heq.
  - intros Hin. specialize (F _ Hin). discriminate F.
  - intros Hin. specialize (F _ Hin). discriminate F.
Qed.

End CycleBounds.

(** ** How a cycle ends *)

Section CycleEnds.
Context {RT : Runtime} {JL : Librelink.JSON} {JN : Nightscout.JSON}.

Import Main.

Lemma sync_login_failed (ns : Nightscout.Client) (s s1 : State) (e : error) :
  let s0 := snd (onSys (LogPrintf "Fetching glucose data from LibreLink Up..." []) s) in
  Login s0 = (Done (Some e), s1) ->
  syncGlucoseData ns s = (Done (Some e), s1).
Proof.
  intros s0 HL. unfold syncGlucoseData.
  rewrite (bind_run _ _ s s0 tt) by reflexivity.
  rewrite (bind_run _ _ s0 s1 _ HL). reflexivity.
Qed.

Lemma sync_login_panicked (ns : Nightscout.Client) (s s1 : State) (p : PanicValue) :
  let s0 := snd (onSys (LogPrintf "Fetching glucose data from LibreLink Up..." []) s) in
  Login s0 = (Panicked p, s1) ->
  syncGlucoseData ns s = (Panicked p, s1).
Proof.
  intros s0 HL. unfold syncGlucoseData.
  rewrite (bind_run _ _ s s0 tt) by reflexivity.
  unfold bind at 1. rewrite HL. reflexivity.
Qed.

Lemma sync_connections_failed (ns : Nightscout.Client) (s s1 s2 : State)
    (l : list Connection) (e : error) :
  let s0 := snd (onSys (LogPrintf "Fetching glucose data from LibreLink Up..." []) s) in
  Login s0 = (Done None, s1) ->
  GetConnections s1 = (Done (l, Some e), s2) ->
  syncGlucoseData ns s = (Done (Some e), s2).
Proof.
  intros s0 HL HC. unfold syncGlucoseData.
  rewrite (bind_run _ _ s s0 tt) by reflexivity.
  rewrite (bind_run _ _ s0 s1 None HL).
  rewrite (bind_run _ _ s1 s2 _ HC). destruct l; reflexivity.
Qed.

Lemma sync_reading_failed (ns : Nightscout.Client) (s s1 s2 s3 : State)
    (first : Connection) (rest : list Connection) (r : option GlucoseReading)
    (e : error) :
  let s0 := snd (onSys (LogPrintf "Fetching glucose data from LibreLink Up..." []) s) in
  Login s0 = (Done None, s1) ->
  GetConnections s1 = (Done (first :: rest, None), s2) ->
  GetLatestReading (PatientID first) s2 = (Done (r, Some e), s3) ->
  syncGlucoseData ns s = (Done (Some e), s3).
Proof.
  intros s0 HL HC HR. unfold syncGlucoseData.
  rewrite (bind_run _ _ s s0 tt) by reflexivity.
  rewrite (bind_run _ _ s0 s1 None HL).
  rewrite (bind_run _ _ s1 s2 _ HC).
  rewrite (bind_run _ _ s2 s3 _ HR). destruct r; reflexivity.
Qed.

(** The rest of a cycle once a reading is fetched. *)
Lemma sync_fetched (ns : Nightscout.Client) (s s1 s2 s3 : State)
    (first : Connection) (rest : list Connection) (reading : GlucoseReading) :
  let s0 := snd (onSys (LogPrintf "Fetching glucose data from LibreLink Up..." []) s) in
  Login s0 = (Done None, s1) ->
  GetConnections s1 = (Done (first :: rest, None), s2) ->
  GetLatestReading (PatientID first) s2 = (Done (Some reading, None), s3) ->
  exists (y : Sys) (perr : option error),
    quietExtension (trace (sys s3)) (trace y) /\
    fst (PostGlucoseReading ns (Some reading) y) = Done perr /\
    fst (syncGlucoseData ns s) = Done perr /\
    exists tail : list Event,
      trace (sys (snd (syncGlucoseData ns s)))
      = (trace (snd (PostGlucoseReading ns (Some reading) y)) ++ tail)%list.
Proof.
  intros s0 HL HC HR. unfold syncGlucoseData.
  rewrite (bind_run _ _ s s0 tt) by reflexivity.
  rewrite (bind_run _ _ s0 s1 None HL).
  rewrite (bind_run _ _ s1 s2 _ HC).
  rewrite (bind_run _ _ s2 s3 _ HR).
  erewrite (bind_run _ _ s3) by reflexivity.
  destruct (timeNow (world (sys s3))) as [n1 w1] eqn:Hnow.
  assert (HS : forall tr : list Event,
            onSys (Since (Timestamp reading))
              (mkState (client s3) (mkSys (world (sys s3)) tr))
            = (Done (GoTime.Sub n1 (Timestamp reading)),
               mkState (client s3) (mkSys w1 tr))).
  { intros tr. unfold onSys, Since, Now, bind, ret. cbn [sys world client trace].
    rewrite Hnow. reflexivity. }
  rewrite (bind_run _ _ _ _ _ (HS _)).
  assert (Fin : forall y : Sys,
            quietExtension (trace (sys s3)) (trace y) ->
            exists (y0 : Sys) (perr : option error),
              quietExtension (trace (sys s3)) (trace y0) /\
              fst (PostGlucoseReading ns (Some reading) y0) = Done perr /\
              fst ((perr <- onSys (PostGlucoseReading ns (Some reading)) ;;
                    match perr with
                    | Some e => ret (Some e)
                    | None =>
                        onSys (LogPrintf
                                 "Successfully posted glucose data to Nightscout" []) ;;
                        ret None
                    end) (mkState (client s3) y)) = Done perr /\
              exists tail : list Event,
                trace (sys (snd ((perr <- onSys (PostGlucoseReading ns (Some reading)) ;;
                                  match perr with
                                  | Some e => ret (Some e)
                                  | None =>
                                      onSys (LogPrintf
                                               "Successfully posted glucose data to Nightscout"
                                               []) ;;
                                      ret None
                                  end) (mkState (client s3) y))))
                = (trace (snd (PostGlucoseReading ns (Some reading) y0)) ++ tail)%list).
  { intros y Hq.
    destruct (PostGlucoseReading_returns ns (Some reading) y) as [perr Hp].
    destruct (cycle_end ns (client s3) reading y) as (E1 & E2 & _).
    exists y, perr. split; [exact Hq |]. split; [exact Hp |].
    split; [now rewrite <- Hp | exact E2]. }
  destruct (staleAfter <? GoTime.Sub n1 (Timestamp reading)).
  - destruct (timeNow w1) as [n2 w2] eqn:Hnow2.
    erewrite (bind_run _ _ (mkState (client s3) (mkSys w1 _))
                (mkState (client s3)
                   (mkSys w2
                      (trace (sys s3) ++
                       [EvLog "Glucose reading: %.1f %s (Trend: %s) at %s"
                          [AFloat (Value reading); AStr (Unit reading);
                           AStr (TrendArrow reading);
                           AStr (GoTime.FormatRFC3339 tz (Timestamp reading))];
                        EvLog "Warning: Reading is %v old, may be stale"
                          [ADuration (GoTime.Sub n2 (Timestamp reading))]])))
                tt).
    2:{ unfold onSys, Since, Now, bind, ret, LogPrintf, emit.
        cbn [sys world client trace]. rewrite Hnow2.
        cbn [sys world client trace]. rewrite <- app_assoc. reflexivity. }
    apply Fin. eexists. split; reflexivity.
  - erewrite (bind_run _ _ (mkState (client s3) (mkSys w1 _))) by reflexivity.
    apply Fin. eexists. split; reflexivity.
Qed.

(** The same, with the system in which the post starts: after the line of
    the reading, one reading of the clock and, for a stale reading, a second
    one and the warning. *)
Lemma sync_posts (ns : Nightscout.Client) (s s1 s2 s3 : State)
    (first : Connection) (rest : list Connection) (reading : GlucoseReading) :
  let s0 := snd (onSys (LogPrintf "Fetching glucose data from LibreLink Up..." []) s) in
  Login s0 = (Done None, s1) ->
  GetConnections s1 = (Done (first :: rest, None), s2) ->
  GetLatestReading (PatientID first) s2 = (Done (Some reading, None), s3) ->
  let now1 := timeNow (world (sys s3)) in
  let stale := staleAfter <? GoTime.Sub (fst now1) (Timestamp reading) in
  let now2 := timeNow (snd now1) in
  let y :=
    mkSys (if stale then snd now2 else snd now1)
      (trace (sys s3) ++
       [EvLog "Glucose reading: %.1f %s (Trend: %s) at %s"
          [AFloat (Value reading); AStr (Unit reading); AStr (TrendArrow reading);
           AStr (GoTime.FormatRFC3339 tz (Timestamp reading))]] ++
       (if stale then
          [EvLog "Warning: Reading is %v old, may be stale"
             [ADuration (GoTime.Sub (fst now2) (Timestamp reading))]]
        else [])) in
  syncGlucoseData ns s
  = (perr <- onSys (PostGlucoseReading ns (Some reading)) ;;
     match perr with
     | Some e => ret (Some e)
     | None =>
         onSys (LogPrintf "Successfully posted glucose data to Nightscout" []) ;;
         ret None
     end) (mkState (client s3) y).
Proof.
  intros s0 HL HC HR now1 stale now2 y. unfold syncGlucoseData.
  rewrite (bind_run _ _ s s0 tt) by reflexivity.
  rewrite (bind_run _ _ s0 s1 None HL).
  rewrite (bind_run _ _ s1 s2 _ HC).
  rewrite (bind_run _ _ s2 s3 _ HR).
  erewrite (bind_run _ _ s3) by reflexivity.
  subst y stale now2 now1.
  destruct (timeNow (world (sys s3))) as [n1 w1] eqn:Hnow.
  assert (HS : forall tr : list Event,
            onSys (Since (Timestamp reading))
              (mkState (client s3) (mkSys (world (sys s3)) tr))
            = (Done (GoTime.Sub n1 (Timestamp reading)),
               mkState (client s3) (mkSys w1 tr))).
  { intros tr. unfold onSys, Since, Now, bind, ret. cbn [sys world client trace].
    rewrite Hnow. reflexivity. }
  rewrite (bind_run _ _ _ _ _ (HS _)).
  cbn [fst snd].
  destruct (staleAfter <? GoTime.Sub n1 (Timestamp reading)).
  - destruct (timeNow w1) as [n2 w2] eqn:Hnow2.
    erewrite (bind_run _ _ (mkState (client s3) (mkSys w1 _))
                (mkState (client s3)
                   (mkSys w2
                      (trace (sys s3) ++
                       [EvLog "Glucose reading: %.1f %s (Trend: %s) at %s"
                          [AFloat (Value reading); AStr (Unit reading);
                           AStr (TrendArrow reading);
                           AStr (GoTime.FormatRFC3339 tz (Timestamp reading))]] ++
                       [EvLog "Warning: Reading is %v old, may be stale"
                          [ADuration (GoTime.Sub n2 (Timestamp reading))]])))
                tt).
    2:{ unfold onSys, Since, Now, bind, ret, LogPrintf, emit.
        cbn [sys world client trace]. rewrite Hnow2.
        cbn [sys world client trace]. rewrite <- app_assoc. reflexivity. }
    reflexivity.
  - erewrite (bind_run _ _ (mkState (client s3) (mkSys w1 _))) by reflexivity.
    cbn [app]. reflexivity.
Qed.

End CycleEnds.

Section CycleResults.
Context {RT : Runtime} {JL : Librelink.JSON} {JN : Nightscout.JSON}.

Import Main.

(** A post that returns nil was answered with a status from 200 to 299. *)
Lemma PostGlucoseReading_nil (c : Nightscout.Client) (rd : GlucoseReading) (y : Sys) :
  fst (PostGlucoseReading c (Some rd) y) = Done None ->
  exists (body : string) (req : Request) (resp : Response),
    marshalEntries [newEntry rd] = inl body /\
    Method req = "POST" /\
    URL req = entriesURL (Nightscout.baseURL c) /\
    ReqBody req = Some body /\
    fst (httpDo req (world y)) = inl resp /\
    200 <= StatusCode resp < 300 /\
    List.In (EvHTTP req) (trace (snd (PostGlucoseReading c (Some rd) y))).
Proof.
  intros H.
  destruct (marshalEntries [newEntry rd]) as [body | e] eqn:Hm.
  2:{ unfold PostGlucoseReading in H. rewrite Hm in H. discriminate H. }
  destruct (urlParseError (entriesURL (Nightscout.baseURL c))) as [e |] eqn:Hu.
  { unfold PostGlucoseReading in H. rewrite Hm in H. unfold NewRequest in H.
    rewrite Hu in H. discriminate H. }
  destruct (PostGlucoseReading_sent c rd y body Hm Hu) as [Htr Hres].
  cbv zeta in Htr, Hres.
  set (req := mkRequest "POST" _ _ _) in *.
  exists body, req.
  destruct (fst (httpDo req (world y))) as [resp | e].
  2:{ rewrite Hres in H. discriminate H. }
  exists resp. split; [reflexivity |]. do 3 (split; [reflexivity |]).
  split; [reflexivity |]. split.
  - destruct (Z.leb_spec 200 (StatusCode resp));
      destruct (Z.ltb_spec (StatusCode resp) 300);
      cbn [andb] in Hres; try lia; rewrite Hres in H; discriminate H.
  - rewrite Htr. apply in_or_app. right. simpl. tauto.
Qed.

(** X12. A cycle stops at the first step that fails and returns that step's
    error unchanged, in the state that step left: after a failed [Login]
    nothing else is called, after a failed [GetConnections] no reading is
    fetched, after a failed [GetLatestReading] nothing is posted. *)
Theorem sync_stops_at_first_error (ns : Nightscout.Client) (s s1 : State) :
  let s0 := snd (onSys (LogPrintf "Fetching glucose data from LibreLink Up..." []) s) in
  (forall e : error,
     Login s0 = (Done (Some e), s1) ->
     syncGlucoseData ns s = (Done (Some e), s1)) /\
  (forall (s2 : State) (l : list Connection) (e : error),
     Login s0 = (Done None, s1) ->
     GetConnections s1 = (Done (l, Some e), s2) ->
     syncGlucoseData ns s = (Done (Some e), s2)) /\
  (forall (s2 s3 : State) (first : Connection) (rest : list Connection)
          (r : option GlucoseReading) (e : error),
     Login s0 = (Done None, s1) ->
     GetConnections s1 = (Done (first :: rest, None), s2) ->
     GetLatestReading (PatientID first) s2 = (Done (r, Some e), s3) ->
     syncGlucoseData ns s = (Done (Some e), s3)).
Proof.
  intros s0. split; [| split].
  - intros e HL. exact (sync_login_failed ns s s1 e HL).
  - intros s2 l e HL HC. exact (sync_connections_failed ns s s1 s2 l e HL HC).
  - intros s2 s3 first rest r e HL HC HR.
    exact (sync_reading_failed ns s s1 s2 s3 first rest r e HL HC HR).
Qed.

(** X13. The only panic of a cycle is the one of [Login]: a cycle panics when
    its [Login] panics, with the same value, and returns whenever its
    [Login] returns. *)
Theorem sync_panics_only_in_Login (ns : Nightscout.Client) (s : State) :
  let s0 := snd (onSys (LogPrintf "Fetching glucose data from LibreLink Up..." []) s) in
  (forall p : PanicValue,
     fst (Login s0) = Panicked p -> fst (syncGlucoseData ns s) = Panicked p) /\
  (forall o : option error,
     fst (Login s0) = Done o ->
     exists r : option error, fst (syncGlucoseData ns s) = Done r).
Proof.
  intros s0. destruct (Login s0) as [o1 s1] eqn:HL. cbn [fst]. split.
  - intros p ->. now rewrite (sync_login_panicked ns s s1 p HL).
  - intros o ->. destruct o as [e |].
    { rewrite (sync_login_failed ns s s1 e HL). eexists. reflexivity. }
    destruct (GetConnections_total s1) as (l & oe & s2 & HC & _ & A & _).
    destruct oe as [e |].
    { rewrite (sync_connections_failed ns s s1 s2 l e HL HC). eexists. reflexivity. }
    destruct l as [| first rest]; [now contradiction (A eq_refl) |].
    destruct (GetLatestReading_total (PatientID first) s2)
      as (r & oe & s3 & HR & _ & B & _).
    destruct oe as [e |].
    { rewrite (sync_reading_failed ns s s1 s2 s3 first rest r e HL HC HR).
      eexists. reflexivity. }
    destruct (B eq_refl) as (reading & -> & _).
    destruct (sync_fetched ns s s1 s2 s3 first rest reading HL HC HR)
      as (y & perr & _ & _ & E & _).
    exists perr. exact E.
Qed.

(** X14. A cycle returns nil only after the sink accepted the entry: its
    [Login], [GetConnections] and [GetLatestReading] returned without error,
    the entry of the reading so fetched was marshalled and posted to the
    entries URL in the world the cycle had reached (one reading of the clock
    after the fetch, two for a stale reading), that very request was
    answered with a status from 200 to 299, and the cycle ends with the
    line of the post, the request and the line of the success. *)
Theorem sync_nil_means_delivered (ns : Nightscout.Client) (s : State) :
  fst (syncGlucoseData ns s) = Done None ->
  exists (s1 s2 s3 : State) (first : Connection) (rest : list Connection)
         (reading : GlucoseReading) (body : string) (resp : Response),
    let s0 :=
      snd (onSys (LogPrintf "Fetching glucose data from LibreLink Up..." []) s) in
    let now1 := timeNow (world (sys s3)) in
    let stale := staleAfter <? GoTime.Sub (fst now1) (Timestamp reading) in
    let now2 := timeNow (snd now1) in
    let wpost := if stale then snd now2 else snd now1 in
    let logged :=
      (trace (sys s3) ++
       [EvLog "Glucose reading: %.1f %s (Trend: %s) at %s"
          [AFloat (Value reading); AStr (Unit reading); AStr (TrendArrow reading);
           AStr (GoTime.FormatRFC3339 tz (Timestamp reading))]] ++
       (if stale then
          [EvLog "Warning: Reading is %v old, may be stale"
             [ADuration (GoTime.Sub (fst now2) (Timestamp reading))]]
        else []))%list in
    let req :=
      mkRequest "POST" (entriesURL (Nightscout.baseURL ns))
        [ ("Content-Type", "application/json"); ("Api-Secret", apiToken ns);
          ("X-Forwarded-Proto", "https") ]
        (Some body) in
    Login s0 = (Done None, s1) /\
    GetConnections s1 = (Done (first :: rest, None), s2) /\
    GetLatestReading (PatientID first) s2 = (Done (Some reading, None), s3) /\
    marshalEntries [newEntry reading] = inl body /\
    fst (httpDo req wpost) = inl resp /\
    200 <= StatusCode resp < 300 /\
    syncGlucoseData ns s
    = (Done None,
       mkState (client s3)
         (mkSys (snd (httpDo req wpost))
            (logged ++
             [EvLog "Posting glucose data to: %s"
                [AStr (entriesURL (Nightscout.baseURL ns))];
              EvHTTP req;
              EvLog "Successfully posted glucose data to Nightscout" []]))).
Proof.
  intros H.
  set (s0 := snd (onSys (LogPrintf "Fetching glucose data from LibreLink Up..." []) s)).
  destruct (Login s0) as [[[e |] | p] s1] eqn:HL.
  { rewrite (sync_login_failed ns s s1 e HL) in H. discriminate H. }
  2:{ rewrite (sync_login_panicked ns s s1 p HL) in H. discriminate H. }
  destruct (GetConnections_total s1) as (l & oe & s2 & HC & _ & A & _).
  destruct oe as [e |].
  { rewrite (sync_connections_failed ns s s1 s2 l e HL HC) in H. discriminate H. }
  destruct l as [| first rest]; [now contradiction (A eq_refl) |].
  destruct (GetLatestReading_total (PatientID first) s2)
    as (r & oe & s3 & HR & _ & B & _).
  destruct oe as [e |].
  { rewrite (sync_reading_failed ns s s1 s2 s3 first rest r e HL HC HR) in H.
    discriminate H. }
  destruct (B eq_refl) as (reading & -> & _).
  pose proof (sync_posts ns s s1 s2 s3 first rest reading HL HC HR) as P.
  cbv zeta in P.
  set (y := mkSys _ _) in P.
  destruct (marshalEntries [newEntry reading]) as [body | e] eqn:Hm.
  2:{ rewrite P in H. unfold bind, onSys, PostGlucoseReading in H.
      cbn [sys client] in H. rewrite Hm in H. discriminate H. }
  destruct (urlParseError (entriesURL (Nightscout.baseURL ns))) as [e |] eqn:Hu.
  { rewrite P in H. unfold bind, onSys, PostGlucoseReading in H.
    cbn [sys client] in H. rewrite Hm in H. unfold NewRequest in H.
    rewrite Hu in H. discriminate H. }
  pose proof (PostGlucoseReading_run ns reading y body Hm Hu) as R. cbv zeta in R.
  set (req := mkRequest "POST" _ _ _) in R.
  assert (E : syncGlucoseData ns s =
              match fst (httpDo req (world y)) with
              | inr e =>
                  (Done (Some (Errorf "request failed: %w" [AErr e])),
                   mkState (client s3)
                     (mkSys (snd (httpDo req (world y)))
                        (trace y ++ [EvLog "Posting glucose data to: %s"
                                       [AStr (entriesURL (Nightscout.baseURL ns))];
                                     EvHTTP req])))
              | inl resp =>
                  if (200 <=? StatusCode resp) && (StatusCode resp <? 300) then
                    (Done None,
                     mkState (client s3)
                       (mkSys (snd (httpDo req (world y)))
                          (trace y ++
                           [EvLog "Posting glucose data to: %s"
                              [AStr (entriesURL (Nightscout.baseURL ns))];
                            EvHTTP req;
                            EvLog "Successfully posted glucose data to Nightscout" []])))
                  else
                    (Done (Some (Errorf "request failed with status %d: %s"
                                   [AInt (StatusCode resp); AStr (Body resp)])),
                     mkState (client s3)
                       (mkSys (snd (httpDo req (world y)))
                          (trace y ++ [EvLog "Posting glucose data to: %s"
                                         [AStr (entriesURL (Nightscout.baseURL ns))];
                                       EvHTTP req])))
              end).
  { rewrite P. unfold bind at 1. unfold onSys at 1. cbn [sys client]. rewrite R.
    destruct (fst (httpDo req (world y))) as [resp | e]; [| reflexivity].
    destruct ((200 <=? StatusCode resp) && (StatusCode resp <? 300)); [| reflexivity].
    unfold bind, onSys, LogPrintf, emit, ret. cbn [sys client world trace].
    rewrite <- app_assoc. reflexivity. }
  exists s1, s2, s3, first, rest, reading, body.
  destruct (fst (httpDo req (world y))) as [resp | e] eqn:Hdo.
  2:{ rewrite E in H. discriminate H. }
  exists resp. cbv zeta. fold y.
  split; [exact HL |]. split; [exact HC |]. split; [exact HR |].
  split; [exact Hm |].
  destruct ((200 <=? StatusCode resp) && (StatusCode resp <? 300)) eqn:Hst.
  2:{ rewrite E in H. discriminate H. }
  apply andb_true_iff in Hst. destruct Hst as [Lo Hi].
  apply Z.leb_le in Lo. apply Z.ltb_lt in Hi.
  split; [exact Hdo |]. split; [lia |]. exact E.
Qed.

End CycleResults.

Lemma sync_stops_at_first_error_example :
  fst (Main.syncGlucoseData Scripted.nsClient
         (Scripted.start [Scripted.ok "login-rejected"] GoTime.zero))
  = Done (Some (Errorf "login failed with API status: %d" [AInt 2])) /\
  fst (Main.syncGlucoseData Scripted.nsClient
         (Scripted.start [Scripted.ok "login-ok"; inl (mkResponse 500 "oops")]
            GoTime.zero))
  = Done (Some (Errorf "connections request failed with status %d: %s"
                  [AInt 500; AStr "oops"])).
Proof.
  split.
  - set (s := Scripted.start [Scripted.ok "login-rejected"] GoTime.zero).
    set (s0 := snd (onSys (LogPrintf "Fetching glucose data from LibreLink Up..." []) s)).
    set (s1 := snd (Login s0)).
    assert (HL : Login s0
                 = (Done (Some (Errorf "login failed with API status: %d" [AInt 2])), s1))
      by (vm_compute; reflexivity).
    rewrite (proj1 (sync_stops_at_first_error Scripted.nsClient s s1) _ HL).
    reflexivity.
  - set (s := Scripted.start [Scripted.ok "login-ok"; inl (mkResponse 500 "oops")]
                GoTime.zero).
    set (s0 := snd (onSys (LogPrintf "Fetching glucose data from LibreLink Up..." []) s)).
    set (s1 := snd (Login s0)).
    set (s2 := snd (GetConnections s1)).
    assert (HL : Login s0 = (Done None, s1)) by (vm_compute; reflexivity).
    assert (HC : GetConnections s1
                 = (Done ([], Some (Errorf "connections request failed with status %d: %s"
                                      [AInt 500; AStr "oops"])), s2))
      by (vm_compute; reflexivity).
    rewrite (proj1 (proj2 (sync_stops_at_first_error Scripted.nsClient s s1))
               s2 _ _ HL HC).
    reflexivity.
Defined.

Lemma sync_panics_only_in_Login_example :
  fst (Main.syncGlucoseData Scripted.nsClient
         (Scripted.start [Scripted.ok "login-empty-object"] GoTime.zero))
  = Panicked (SliceBoundsOutOfRange 20 0).
Proof.
  apply (sync_panics_only_in_Login Scripted.nsClient
           (Scripted.start [Scripted.ok "login-empty-object"] GoTime.zero)).
  vm_compute. reflexivity.
Defined.

Lemma sync_nil_means_delivered_example :
  exists (reading : GlucoseReading) (body : string) (resp : Response),
    marshalEntries [newEntry reading] = inl body /\
    200 <= StatusCode resp < 300 /\
    List.In
      (EvHTTP
         (mkRequest "POST" "http://nightscout:1337/api/v1/entries"
            [ ("Content-Type", "application/json"); ("Api-Secret", "s3cret");
              ("X-Forwarded-Proto", "https") ]
            (Some body)))
      (trace (sys (snd (Main.syncGlucoseData Scripted.nsClient
                          (Scripted.start
                             [Scripted.ok "login-ok"; Scripted.ok "connections-empty";
                              Scripted.ok "graph-sample"; inl (mkResponse 201 "")]
                             GoTime.zero))))).
Proof.
  destruct (sync_nil_means_delivered Scripted.nsClient
              (Scripted.start
                 [Scripted.ok "login-ok"; Scripted.ok "connections-empty";
                  Scripted.ok "graph-sample"; inl (mkResponse 201 "")]
                 GoTime.zero))
    as (s1 & s2 & s3 & first & rest & reading & body & resp & T).
  - vm_compute. reflexivity.
  - cbv zeta in T. destruct T as (_ & _ & _ & Hm & _ & Hst & E).
    exists reading, body, resp.
    split; [exact Hm |]. split; [exact Hst |].
    rewrite E. cbn [snd sys trace]. apply in_or_app. right.
    right. left. reflexivity.
Defined.

(** ** The session after a login *)

Section SessionAfterLogin.
Context {RT : Runtime} {J : Librelink.JSON}.

Lemma Login_success_inv (s s1 : State) :
  Login s = (Done None, s1) ->
  exists lr : loginResponse,
    client s1
    = Librelink.mkClient (Librelink.baseURL (client s)) (username (client s))
        (password (client s)) (login_AuthTicket_Token lr) (login_User_ID lr) /\
    20 <= GoStrings.len (login_AuthTicket_Token lr).
Proof.
  destruct s as [c [w tr]]. cbn [client].
  destruct (marshalLogin (mkLoginRequest (username c) (password c)))
    as [body | e] eqn:Hm.
  2:{ unfold Login. run. rewrite Hm. discriminate. }
  destruct (urlParseError (Librelink.baseURL c ++ "/llu/auth/login")) as [e |] eqn:Hu.
  1:{ unfold Login. run. rewrite Hm. unfold NewRequest. rewrite Hu. discriminate. }
  pose proof (Login_run c w tr body Hm Hu) as R. cbv zeta in R.
  set (req := setHeaders c _) in *.
  destruct (httpDo req w) as [[resp | e] w1].
  2:{ destruct R as (pre & post & _ & _ & L). rewrite L. discriminate. }
  destruct (negb (StatusCode resp =? StatusOK)).
  { destruct R as (pre & post & _ & _ & L). rewrite L. discriminate. }
  destruct (unmarshalLogin (Body resp)) as [lr | e].
  2:{ destruct R as (pre & post & _ & _ & L). rewrite L. discriminate. }
  destruct (negb (login_Status lr =? 0)).
  { destruct R as (pre & post & _ & _ & L). rewrite L. discriminate. }
  destruct (GoStrings.len (login_AuthTicket_Token lr) <? 20) eqn:Hlen;
    destruct R as (pre & post & _ & _ & L); rewrite L; [discriminate |].
  intros H. injection H as <-. exists lr. split; [reflexivity |].
  now apply Z.ltb_ge.
Qed.

Lemma len_positive_not_empty (str : string) : 1 <= GoStrings.len str -> str <> "".
Proof. intros H ->. unfold GoStrings.len in H. simpl in H. lia. Qed.

(** X15. After a [Login] that returns nil the client has a session: the base
    URL and the credentials are as before, the token is not empty, and
    neither [GetConnections] nor [GetLatestReading] then fails as not
    authenticated, whatever else happens to the call. *)
Theorem session_after_login (s s1 : State) :
  Login s = (Done None, s1) ->
  Librelink.baseURL (client s1) = Librelink.baseURL (client s) /\
  username (client s1) = username (client s) /\
  password (client s1) = password (client s) /\
  authToken (client s1) <> "" /\
  (forall (l : list Connection) (e : error),
     fst (GetConnections s1) = Done (l, Some e) ->
     e <> Errorf "not authenticated, call Login() first" []) /\
  (forall (patientID : string) (r : option GlucoseReading) (e : error),
     fst (GetLatestReading patientID s1) = Done (r, Some e) ->
     e <> Errorf "not authenticated, call Login() first" []).
Proof.
  intros HL. destruct (Login_success_inv s s1 HL) as (lr & Hc & Hlen).
  assert (Htok : authToken (client s1) <> "").
  { rewrite Hc. cbn [authToken]. apply len_positive_not_empty. lia. }
  rewrite Hc at 1 2 3. cbn [Librelink.baseURL username password].
  do 3 (split; [reflexivity |]). split; [exact Htok |].
  destruct s1 as [c1 [w1 tr1]]. cbn [client] in Htok. clear Hc HL.
  pose proof Htok as Hb. apply String.eqb_neq in Hb.
  split.
  - intros l e.
    destruct (urlParseError (Librelink.baseURL c1 ++ "/llu/connections"))
      as [e0 |] eqn:Hu.
    { unfold GetConnections. run. rewrite Hb. unfold NewRequest. rewrite Hu.
      cbn [fst]. intros H. injection H as _ <-. discriminate. }
    rewrite (GetConnections_run c1 w1 tr1 Htok Hu).
    destruct (httpDo _ w1) as [[resp | e0] w2]; cbv zeta.
    2:{ cbn [fst]. intros H. injection H as _ <-. discriminate. }
    destruct (negb (StatusCode resp =? StatusOK)).
    { cbn [fst]. intros H. injection H as _ <-. discriminate. }
    destruct (unmarshalConnections (Body resp)) as [cr | e0].
    2:{ cbn [fst]. intros H. injection H as _ <-. discriminate. }
    destruct (connections_Data cr); cbn [fst]; intros H; discriminate H.
  - intros patientID r e.
    destruct (urlParseError
                (Librelink.baseURL c1 ++ "/llu/connections/" ++ patientID ++ "/graph"))
      as [e0 |] eqn:Hu.
    { unfold GetLatestReading. run. rewrite Hb. unfold NewRequest.
      match goal with
      | |- context [urlParseError ?u] =>
          change u
            with (Librelink.baseURL c1 ++ "/llu/connections/" ++ patientID ++ "/graph")
      end.
      rewrite Hu. cbn [fst]. intros H. injection H as _ <-. discriminate. }
    rewrite (GetLatestReading_run patientID c1 w1 tr1 Htok Hu).
    destruct (httpDo _ w1) as [[resp | e0] w2]; cbv zeta.
    2:{ cbn [fst]. intros H. injection H as _ <-. discriminate. }
    destruct (negb (StatusCode resp =? StatusOK)).
    { cbn [fst]. intros H. injection H as _ <-. discriminate. }
    destruct (unmarshalGlucose (Body resp)) as [g | e0].
    2:{ cbn [fst]. intros H. injection H as _ <-. discriminate. }
    destruct (parseLibreLinkTimestamp (measurement_Timestamp g)) as [t [e0 |]];
      cbn [fst]; intros H; [injection H as _ <-; discriminate | discriminate H].
Qed.

End SessionAfterLogin.

Lemma session_after_login_example :
  Librelink.baseURL
    (client (snd (Login (Scripted.start [Scripted.ok "login-ok"] GoTime.zero))))
  = "https://api-eu.libreview.io" /\
  password
    (client (snd (Login (Scripted.start [Scripted.ok "login-ok"] GoTime.zero))))
  = "secret".
Proof.
  set (s := Scripted.start [Scripted.ok "login-ok"] GoTime.zero).
  assert (HL : Login s = (Done None, snd (Login s))) by (vm_compute; reflexivity).
  destruct (session_after_login s (snd (Login s)) HL) as (B & _ & P & _).
  split; [exact B | exact P].
Defined.

(** ** What a login prints *)

Section LoginPrints.
Context {RT : Runtime} {J : Librelink.JSON}.

(** X16. Whenever the credentials marshal, [Login] first prints the endpoint
    with the user name and then the marshalled request body, which holds the
    password, to standard output: before the request is built or sent, and
    whatever the outcome of the login. *)
Theorem Login_prints_credentials (s : State) (body : string) :
  marshalLogin (mkLoginRequest (username (client s)) (password (client s)))
  = inl body ->
  exists after : list Event,
    trace (sys (snd (Login s)))
    = (trace (sys s) ++
       [EvPrintf "DEBUG: Attempting login to %s with email: %s\n"
          [AStr (Librelink.baseURL (client s)); AStr (username (client s))];
        EvPrintf "DEBUG: Request body: %s\n" [AStr body]] ++ after)%list.
Proof.
  intros Hm. unfold Login.
  rewrite (bind_run _ _ s s (client s)) by reflexivity.
  rewrite Hm.
  erewrite (bind_run _ _ s) by reflexivity.
  erewrite (bind_run _ _ (mkState _ _)) by reflexivity.
  match goal with
  | |- exists after, trace (sys (snd (?m ?st))) = _ =>
      assert (W : writes (fun _ => true) m)
        by (unfold Printf; repeat (cbv zeta; writes_step));
      destruct (W st) as (added & E & _)
  end.
  exists added. rewrite E. cbn [sys trace]. rewrite <- !app_assoc. reflexivity.
Qed.

End LoginPrints.

Lemma Login_prints_credentials_example :
  exists after : list Event,
    trace (sys (snd (Login (Scripted.start [] GoTime.zero))))
    = ([EvPrintf "DEBUG: Attempting login to %s with email: %s\n"
          [AStr "https://api-eu.libreview.io"; AStr "user@example.com"];
        EvPrintf "DEBUG: Request body: %s\n"
          [AStr "{email:user@example.com,password:secret}"]] ++ after)%list.
Proof.
  apply (Login_prints_credentials (Scripted.start [] GoTime.zero)
           "{email:user@example.com,password:secret}").
  reflexivity.
Defined.

Lemma reads_always_return_example :
  Unit Scripted.sampleReading = "mg/dL" /\
  (List.In (TrendArrow Scripted.sampleReading) trendLabels
   \/ TrendArrow Scripted.sampleReading = "Unknown").
Proof.
  destruct (proj2 reads_always_return "P1"
              (mkState sessionClient
                 (Scripted.system [Scripted.ok "graph-sample"] GoTime.zero)))
    as (r & oe & E & _ & _ & U).
  apply U. vm_compute in E. injection E as <- _. reflexivity.
Defined.
